(** * EBSA sales-intake form: validators, plan catalogue, upload and
  submission endpoints

  A shallow embedding of the parts of the repository that its
  specification makes promises about:

  - [src/utils/validators.ts]   ([Module Validators]),
  - the [PlanSelector] component ([Module PlanSelector]),
  - [api/upload-file.js]        ([Module UploadFile]),
  - [api/submit-form.js]        ([Module SubmitForm]),

  and of the code around them: the plan section ([Module PlanSection]),
  the format helpers of the queries ([Module SupabaseQueries]), the
  field handlers of the applicant and address sections
  ([Module DatosSolicitante]), and the form with its confirmation page
  ([Module Form]).

  JavaScript strings are sequences of UTF-16 code units, so they are
  modelled as [list N]; static identifiers of the source (object keys,
  column letters, log messages) stay Rocq [string]s. *)

From Stdlib Require Import ZArith NArith List String Ascii Bool Lia.
From stdpp Require Import gmap strings list fin_maps pretty.

Import ListNotations.
Local Open Scope Z_scope.

(* ===================================================================== *)
(** * JavaScript strings and values *)
(* ===================================================================== *)

Module JS.

(** A string is its list of UTF-16 code units. *)
Abbreviation jsstring := (list N).

(** A source literal (Basic Latin only) as a JavaScript string. *)
Definition lit (s : string) : jsstring :=
  List.map N_of_ascii (list_ascii_of_string s).

Definition in_range (lo hi c : N) : bool := ((lo <=? c) && (c <=? hi))%N.

(** [\d] without the [u] flag: the ten ASCII digits. *)
Definition is_digit (c : N) : bool := in_range 48 57 c.
Definition is_lower (c : N) : bool := in_range 97 122 c.
Definition is_upper (c : N) : bool := in_range 65 90 c.

(** [\s]: WhiteSpace and LineTerminator code units of ECMAScript. *)
Definition is_space (c : N) : bool :=
  in_range 9 13 c || (c =? 32)%N || (c =? 160)%N || (c =? 5760)%N
  || in_range 8192 8202 c || (c =? 8232)%N || (c =? 8233)%N
  || (c =? 8239)%N || (c =? 8287)%N || (c =? 12288)%N || (c =? 65279)%N.

(** Case mapping on Basic Latin and on the Latin-1 letter pairs (the
    alphabet of the Spanish data the form handles): [A-Z] and U+00C0 to
    U+00DE go to their lower-case partners 32 code units up, and back;
    the multiplication and division signs have no partner.  Other code
    units are returned unchanged. *)
Definition is_upper_latin1 (c : N) : bool :=
  in_range 192 222 c && negb (c =? 215)%N.
Definition is_lower_latin1 (c : N) : bool :=
  in_range 224 254 c && negb (c =? 247)%N.

Definition lower_cu (c : N) : N :=
  if is_upper c || is_upper_latin1 c then (c + 32)%N else c.
Definition upper_cu (c : N) : N :=
  if is_lower c || is_lower_latin1 c then (c - 32)%N else c.

Definition toLowerCase (s : jsstring) : jsstring := List.map lower_cu s.
Definition toUpperCase (s : jsstring) : jsstring := List.map upper_cu s.

(** The code units on which the two mappings above are those of
    ECMAScript: Basic Latin and Latin-1, but for the micro sign, the
    sharp s and the y with diaeresis, whose upper-case forms lie
    outside Latin-1. *)
Definition case_exact (c : N) : bool :=
  (c <? 256)%N && negb (c =? 181)%N && negb (c =? 223)%N && negb (c =? 255)%N.

(** [String.prototype.slice(start, end)]: negative indices count from
    the end, everything is clamped to the string. *)
Definition rel_index (len k : Z) : Z :=
  if k <? 0 then Z.max (len + k) 0 else Z.min k len.

Definition slice (s : jsstring) (start : Z) (stop : option Z) : jsstring :=
  let len := Z.of_nat (length s) in
  let from := rel_index len start in
  let to := match stop with Some e => rel_index len e | None => len end in
  take (Z.to_nat (to - from)) (drop (Z.to_nat from) s).

(** [String.prototype.charAt(0)]: the first code unit, or the empty
    string. *)
Definition charAt0 (s : jsstring) : jsstring := take 1 s.

(** Equality of strings, [===] on two strings. *)
Definition str_eqb (a b : jsstring) : bool := bool_decide (a = b).

(** [String.prototype.trim]. *)
Fixpoint trimStart (s : jsstring) : jsstring :=
  match s with
  | c :: s' => if is_space c then trimStart s' else s
  | [] => []
  end.

Definition trimEnd (s : jsstring) : jsstring := rev (trimStart (rev s)).
Definition trim (s : jsstring) : jsstring := trimEnd (trimStart s).

(** [Array.prototype.join] on an array of strings. *)
Fixpoint join (sep : jsstring) (l : list jsstring) : jsstring :=
  match l with
  | [] => []
  | [x] => x
  | x :: rest => x ++ sep ++ join sep rest
  end.

(** [String.prototype.split] with a one-code-unit separator: the
    result always has at least one piece. *)
Fixpoint split (sep : N) (s : jsstring) : list jsstring :=
  match s with
  | [] => [[]]
  | c :: s' =>
      if (c =? sep)%N then [] :: split sep s'
      else match split sep s' with
           | w :: ws => (c :: w) :: ws
           | [] => [[c]]
           end
  end.

(** The JSON values a request body carries, plus [undefined] for an
    absent property.  Arrays are arrays of strings (the form sends
    lists of URLs and of add-on names). *)
Inductive value : Type :=
| VUndefined
| VNull
| VBool (b : bool)
| VNum (n : Z)
| VStr (s : jsstring)
| VArr (l : list jsstring).

(** [ToBoolean]. *)
Definition truthy (v : value) : bool :=
  match v with
  | VUndefined | VNull => false
  | VBool b => b
  | VNum n => negb (n =? 0)
  | VStr s => match s with [] => false | _ => true end
  | VArr _ => true
  end.

(** [ToString], as [String(v)] and template literals apply it. *)
Definition toString (v : value) : jsstring :=
  match v with
  | VUndefined => lit "undefined"
  | VNull => lit "null"
  | VBool true => lit "true"
  | VBool false => lit "false"
  | VNum n => lit (pretty n)
  | VStr s => s
  | VArr l => join (lit ",") l
  end.

(** [a || b] and [a && b] on values. *)
Definition or_else (a b : value) : value := if truthy a then a else b.
Definition and_then (a b : value) : value := if truthy a then b else a.

(** A parsed JSON object: own properties by key. *)
Definition get (o : gmap string value) (k : string) : value :=
  default VUndefined (o !! k).

(** A property read [obj[key]] on an object literal: an own property,
    or else whatever the literal inherits from [Object.prototype]. *)
Inductive property (A : Type) : Type :=
| Own (a : A)
| Inherited (name : string)
| Absent.
Arguments Own {A} a.
Arguments Inherited {A} name.
Arguments Absent {A}.

Definition objectPrototype : list string :=
  ["constructor"; "__defineGetter__"; "__defineSetter__"; "hasOwnProperty";
   "__lookupGetter__"; "__lookupSetter__"; "isPrototypeOf";
   "propertyIsEnumerable"; "toString"; "valueOf"; "__proto__";
   "toLocaleString"]%string.

Definition lookup {A : Type} (own : list (string * A)) (key : jsstring)
  : property A :=
  match List.find (fun kv => str_eqb (lit (fst kv)) key) own with
  | Some kv => Own (snd kv)
  | None =>
      match List.find (fun n => str_eqb (lit n) key) objectPrototype with
      | Some n => Inherited n
      | None => Absent
      end
  end.

(** [!obj[key]]: own values of the tables below are non-empty strings
    or objects, inherited members are functions or objects. *)
Definition missing {A : Type} (p : property A) : bool :=
  match p with Absent => true | _ => false end.

(** [Object.keys(obj).join(', ')] of an object literal. *)
Definition keys_joined {A : Type} (own : list (string * A)) : jsstring :=
  join (lit ", ") (List.map (fun kv => lit (fst kv)) own).

(** A property read on an object given property by property. *)
Definition prop (o : list (string * value)) (k : string) : value :=
  default VUndefined (snd <$> List.find (fun kv => String.eqb (fst kv) k) o).

(** An exception value: [error.name], [error.message], [error.stack]. *)
Record JsError : Type := mkError {
  err_name : jsstring;
  err_message : jsstring;
  err_stack : jsstring
}.

(** An HTTP response: the status set by [res.status] and the object
    handed to [res.json], properties whose value is [undefined] left out
    as JSON serialisation does; [res.end()] sends no body. *)
Record Response : Type := mkResponse {
  status : Z;
  json_body : list (string * value)
}.

Definition is_defined (kv : string * value) : bool :=
  match snd kv with VUndefined => false | _ => true end.

Definition json (code : Z) (obj : list (string * value)) : Response :=
  {| status := code; json_body := List.filter is_defined obj |}.

Definition field (r : Response) (k : string) : option value :=
  snd <$> List.find (fun kv => String.eqb (fst kv) k) (json_body r).

End JS.

Import JS.

(* ===================================================================== *)
(** * Regular expressions, as far as the validators use them *)
(* ===================================================================== *)

Module Regex.

(** Anchored patterns over code units: character classes,
    concatenation, alternation and repetition. *)
Inductive regex : Type :=
| Never
| Eps
| Class (p : N -> bool)
| Cat (r1 r2 : regex)
| Alt (r1 r2 : regex)
| Star (r : regex).

(** [r{n}] and [r{lo,hi}]. *)
Fixpoint times (n : nat) (r : regex) : regex :=
  match n with
  | O => Eps
  | S n' => Cat r (times n' r)
  end.

Fixpoint upto (n : nat) (r : regex) : regex :=
  match n with
  | O => Eps
  | S n' => Alt Eps (Cat r (upto n' r))
  end.

Definition between (lo hi : nat) (r : regex) : regex :=
  Cat (times lo r) (upto (hi - lo) r).

Definition plus (r : regex) : regex := Cat r (Star r).

(** The [i] flag on a class of Basic Latin members: a code unit
    matches when it or its other-case form is in the class. *)
Definition ignoreCase (p : N -> bool) (c : N) : bool :=
  p c || p (lower_cu c) || p (upper_cu c).

(** The strings a pattern denotes. *)
Inductive lang : regex -> jsstring -> Prop :=
| L_eps : lang Eps []
| L_class p c : p c = true -> lang (Class p) [c]
| L_cat r1 r2 s1 s2 : lang r1 s1 -> lang r2 s2 -> lang (Cat r1 r2) (s1 ++ s2)
| L_alt_l r1 r2 s : lang r1 s -> lang (Alt r1 r2) s
| L_alt_r r1 r2 s : lang r2 s -> lang (Alt r1 r2) s
| L_star_nil r : lang (Star r) []
| L_star_cons r s1 s2 : lang r s1 -> lang (Star r) s2 -> lang (Star r) (s1 ++ s2).

(** Matching by derivatives. *)
Fixpoint nullable (r : regex) : bool :=
  match r with
  | Never => false
  | Eps => true
  | Class _ => false
  | Cat r1 r2 => nullable r1 && nullable r2
  | Alt r1 r2 => nullable r1 || nullable r2
  | Star _ => true
  end.

Fixpoint deriv (c : N) (r : regex) : regex :=
  match r with
  | Never => Never
  | Eps => Never
  | Class p => if p c then Eps else Never
  | Cat r1 r2 =>
      if nullable r1 then Alt (Cat (deriv c r1) r2) (deriv c r2)
      else Cat (deriv c r1) r2
  | Alt r1 r2 => Alt (deriv c r1) (deriv c r2)
  | Star r1 => Cat (deriv c r1) (Star r1)
  end.

(** [/^r$/.test(s)]. *)
Fixpoint test (r : regex) (s : jsstring) : bool :=
  match s with
  | [] => nullable r
  | c :: s' => test (deriv c r) s'
  end.

End Regex.

(* ===================================================================== *)
(** * [src/utils/validators.ts] *)
(* ===================================================================== *)

Module Validators.
Import Regex.

Definition hyphen : N := 45.
Definition letter_k : N := 107.
Definition letter_K : N := 75.

(** [/^\d{7,8}-[\dk]$/i] *)
Definition rutRegex : regex :=
  Cat (between 7 8 (Class (ignoreCase is_digit)))
      (Cat (Class (ignoreCase (fun c => (c =? hyphen)%N)))
           (Class (ignoreCase (fun c => is_digit c || (c =? letter_k)%N)))).

Definition validateRut (rut : jsstring) : bool := test rutRegex rut.

(** The class [[\dkK]], whose complement [formatRut] deletes. *)
Definition rut_char (c : N) : bool :=
  is_digit c || (c =? letter_k)%N || (c =? letter_K)%N.

Definition formatRut (value : jsstring) : jsstring :=
  let cleaned := List.filter rut_char value in
  let cleaned := toLowerCase cleaned in
  if 1 <? Z.of_nat (length cleaned) then
    let body := slice cleaned 0 (Some (-1)) in
    let dv := slice cleaned (-1) None in
    body ++ [hyphen] ++ dv
  else cleaned.

(** The accented vowels and the letter enne, lower and upper case, of
    the name and address classes. *)
Definition is_spanish_letter (c : N) : bool :=
  existsb (N.eqb c) [225; 233; 237; 243; 250; 193; 201; 205; 211; 218; 241; 209]%N.

(** [/^[a-zA-Z...\s]+$/] *)
Definition name_char (c : N) : bool :=
  is_lower c || is_upper c || is_spanish_letter c || is_space c.

Definition validateName (name : jsstring) : bool :=
  test (plus (Class name_char)) name.

(** [/^9\d{8}$/] *)
Definition phoneRegex : regex :=
  Cat (Class (fun c => (c =? 57)%N)) (times 8 (Class is_digit)).

Definition validatePhone (phone : jsstring) : bool := test phoneRegex phone.

(** [value.replace(/\D/g, '').slice(0, 9)] *)
Definition formatPhone (value : jsstring) : jsstring :=
  slice (List.filter is_digit value) 0 (Some 9).

(** The class [[a-zA-Z0-9...\s.'#-]] of the address functions. *)
Definition address_char (c : N) : bool :=
  is_lower c || is_upper c || is_digit c || is_spanish_letter c
  || is_space c || (c =? 46)%N || (c =? 39)%N || (c =? 35)%N || (c =? 45)%N.

Definition validateAddress (address : jsstring) : bool :=
  test (plus (Class address_char)) address.

Definition formatAddress (value : jsstring) : jsstring :=
  List.filter address_char value.

(** [word.charAt(0).toUpperCase() + word.slice(1)] *)
Definition capitalizeWord (word : jsstring) : jsstring :=
  toUpperCase (charAt0 word) ++ slice word 1 None.

Definition capitalizeName (name : jsstring) : jsstring :=
  join (lit " ") (List.map capitalizeWord (split 32 (toLowerCase name))).

(** The class [[^\s@]]. *)
Definition email_char (c : N) : bool := negb (is_space c || (c =? 64)%N).

(** [/^[^\s@]+@[^\s@]+\.[^\s@]+$/] *)
Definition emailRegex : regex :=
  Cat (plus (Class email_char))
      (Cat (Class (fun c => (c =? 64)%N))
           (Cat (plus (Class email_char))
                (Cat (Class (fun c => (c =? 46)%N))
                     (plus (Class email_char))))).

Definition validateEmail (email : jsstring) : bool := test emailRegex email.

(** [errorMessages], accented letters by code unit. *)
Record Messages : Type := mkMessages {
  msg_rut : jsstring;
  msg_name : jsstring;
  msg_phone : jsstring;
  msg_email : jsstring;
  msg_address : jsstring;
  msg_required : jsstring
}.

Definition errorMessages : Messages :=
  {| msg_rut := lit "Por favor verifica el RUT, solo n" ++ [250%N]
                ++ lit "meros y la letra 'K'";
     msg_name := lit "Solo se permiten letras y espacios";
     msg_phone := lit "El tel" ++ [233%N] ++ lit "fono debe comenzar con 9 y tener 9 d"
                  ++ [237%N] ++ lit "gitos";
     msg_email := lit "Por favor ingresa un correo electr" ++ [243%N]
                  ++ lit "nico v" ++ [225%N] ++ lit "lido";
     msg_address := lit "Solo se permiten letras, n" ++ [250%N]
                    ++ lit "meros, espacios y los caracteres . ' - #";
     msg_required := lit "Este campo es obligatorio" |}.

(** The shape the specification asks of an identity number: seven or
    eight digits, the hyphen of the written form [12345678-9], and a
    check character, which is a digit or the letter k in either case. *)
Definition is_check_character (c : N) : Prop :=
  is_digit c = true \/ c = letter_k \/ c = letter_K.

(** What [formatRut] keeps of its input: digits and a lower-case k. *)
Definition cleaned_rut (s : jsstring) : Prop :=
  Forall (fun c => rut_char c = true /\ lower_cu c = c) s.

Definition rut_format (s : jsstring) : Prop :=
  exists (digits : jsstring) (dv : N),
    s = digits ++ [hyphen; dv]
    /\ (length digits = 7%nat \/ length digits = 8%nat)
    /\ Forall (fun c => is_digit c = true) digits
    /\ is_check_character dv.

End Validators.


(* ===================================================================== *)
(** * The [PlanSelector] component: plan filtering and discount expansion *)
(* ===================================================================== *)

(** A row of [planes_active], as [getPlanes] returns it (interface
    [Plan] of [lib/supabaseQueries]). *)
Module PlanDB.
Record t : Type := mk {
  id : Z;
  nombre : jsstring;
  marca : jsstring;
  segmento : jsstring;
  categoria : jsstring;
  precio : Z;
  descuento_nacional : option Z;
  descuento_especial : option Z;
  duracion : jsstring;
  rgu : Z;
  internet_activo : bool;
  internet_velocidad : option jsstring;
  television_activa : bool;
  television_plan : option jsstring;
  telefonia_activa : bool;
  disponible : bool
}.
End PlanDB.

Module PlanSelector.

(** The option shown to the user (interface [Plan] of the component,
    with [servicios] flattened). *)
Record Plan : Type := mkPlan {
  nombre : jsstring;
  precio : Z;
  descuento_nacional : Z;
  descuento_especial : option Z;
  duracion : jsstring;
  rgu : Z;
  internet_activo : bool;
  internet_velocidad : option jsstring;
  television_activo : bool;
  television_plan_tv : option jsstring;
  telefonia_activo : bool
}.

(** The props [planesDisponibles] depends on. *)
Record Props : Type := mkProps {
  marca : jsstring;
  segmento : jsstring;
  tipoVenta : jsstring;
  hasInternet : bool;
  hasTelevision : bool;
  hasTelefonia : bool;
  velocidadInternet : jsstring;
  tipoTelevision : jsstring
}.

Definition nonempty (s : jsstring) : bool :=
  match s with [] => false | _ => true end.

(** [/^[a-z]{2,3}$/i] *)
Definition siglaRegex : Regex.regex :=
  Regex.between 2 3 (Regex.Class (Regex.ignoreCase is_lower)).

Definition siglas : list jsstring := [lit "mb"; lit "gb"; lit "tv"; lit "rgu"].

Definition normalizarPalabra (word : jsstring) : jsstring :=
  if Regex.test siglaRegex word && existsb (str_eqb (toLowerCase word)) siglas
  then toUpperCase word
  else toUpperCase (charAt0 word) ++ slice word 1 None.

Definition normalizarNombre (nombre : jsstring) : jsstring :=
  join (lit " ") (List.map normalizarPalabra (split 32 (toLowerCase nombre))).

(** [[hasInternet, hasTelevision, hasTelefonia].filter(Boolean).length] *)
Definition serviciosActivos (p : Props) : nat :=
  length (List.filter (fun b : bool => b)
            [hasInternet p; hasTelevision p; hasTelefonia p]).

Definition categoriaBuscada (p : Props) : jsstring :=
  if str_eqb (tipoVenta p) (lit "paquetizacion") then lit "paquetizacion"
  else lit (pretty (serviciosActivos p)) ++ lit "_rgu".

(** [planDB.internet_velocidad !== velocidadInternet.toLowerCase()] and
    its like: a [null] column differs from every string. *)
Definition distinto (col : option jsstring) (s : jsstring) : bool :=
  match col with
  | Some c => negb (str_eqb c s)
  | None => true
  end.

(** The callback of the second [filter]. *)
Definition coincide (p : Props) (planDB : PlanDB.t) : bool :=
  if negb (Bool.eqb (PlanDB.internet_activo planDB) (hasInternet p)) then false
  else if negb (Bool.eqb (PlanDB.television_activa planDB) (hasTelevision p)) then false
  else if negb (Bool.eqb (PlanDB.telefonia_activa planDB) (hasTelefonia p)) then false
  else if hasInternet p && str_eqb (segmento p) (lit "residencial")
          && nonempty (velocidadInternet p)
          && distinto (PlanDB.internet_velocidad planDB) (toLowerCase (velocidadInternet p))
       then false
  else if hasTelevision p && str_eqb (segmento p) (lit "residencial")
          && nonempty (tipoTelevision p)
          && distinto (PlanDB.television_plan planDB) (toLowerCase (tipoTelevision p))
       then false
  else true.

(** [d !== null && d > 0] *)
Definition tieneDescuento (d : option Z) : bool :=
  match d with
  | Some n => 0 <? n
  | None => false
  end.

(** [s ? f(s) : null] on a nullable string column. *)
Definition mapTruthy (f : jsstring -> jsstring) (col : option jsstring)
  : option jsstring :=
  match col with
  | Some s => if nonempty s then Some (f s) else None
  | None => None
  end.

Definition convertirPlan (p : Props) (planDB : PlanDB.t) (nombre : jsstring)
    (descuentoNacional : Z) (descuentoEspecial : option Z) : Plan :=
  {| nombre := normalizarNombre nombre ++ lit " - " ++ toUpperCase (marca p);
     precio := PlanDB.precio planDB;
     descuento_nacional := descuentoNacional;
     descuento_especial := descuentoEspecial;
     duracion := PlanDB.duracion planDB;
     rgu := PlanDB.rgu planDB;
     internet_activo := PlanDB.internet_activo planDB;
     internet_velocidad := mapTruthy toUpperCase (PlanDB.internet_velocidad planDB);
     television_activo := PlanDB.television_activa planDB;
     television_plan_tv :=
       mapTruthy (fun s => toUpperCase (charAt0 s) ++ slice s 1 None)
                 (PlanDB.television_plan planDB);
     telefonia_activo := PlanDB.telefonia_activa planDB |}.

(** [planDB.descuento_nacional || 0] *)
Definition o_cero (d : option Z) : Z :=
  match d with
  | Some n => if n =? 0 then 0 else n
  | None => 0
  end.

(** The body of the [forEach]: the options one accepted row pushes, in
    the order of the three [if]s. *)
Definition expandir (p : Props) (planDB : PlanDB.t) : list Plan :=
  let tieneDescuentoNacional := tieneDescuento (PlanDB.descuento_nacional planDB) in
  let tieneDescuentoEspecial := tieneDescuento (PlanDB.descuento_especial planDB) in
  (if tieneDescuentoNacional
   then [convertirPlan p planDB
           (PlanDB.nombre planDB ++ lit " (Descuento Nacional)")
           (default 0 (PlanDB.descuento_nacional planDB)) None]
   else [])
  ++ (if tieneDescuentoEspecial
      then [convertirPlan p planDB
              (PlanDB.nombre planDB ++ lit " (Descuento Especial)")
              0 (PlanDB.descuento_especial planDB)]
      else [])
  ++ (if negb tieneDescuentoNacional && negb tieneDescuentoEspecial
      then [convertirPlan p planDB (PlanDB.nombre planDB)
              (o_cero (PlanDB.descuento_nacional planDB))
              (PlanDB.descuento_especial planDB)]
      else []).

(** The [useMemo] body. *)
Definition planesDisponibles (planesDB : list PlanDB.t) (p : Props) : list Plan :=
  match planesDB with
  | [] => []
  | _ =>
      let categoria := categoriaBuscada p in
      let planesFiltrados :=
        List.filter (fun plan => str_eqb (PlanDB.categoria plan) categoria) planesDB in
      let planesFiltrados := List.filter (coincide p) planesFiltrados in
      fold_left (fun planesExpandidos planDB => planesExpandidos ++ expandir p planDB)
                planesFiltrados []
  end.

(** [plan.descuento_especial || plan.descuento_nacional], then the
    price less that discount. *)
Definition descuentoAplicado (plan : Plan) : Z :=
  match descuento_especial plan with
  | Some d => if d =? 0 then descuento_nacional plan else d
  | None => descuento_nacional plan
  end.

Definition calcularPrecioFinal (plan : Plan) : Z :=
  precio plan - descuentoAplicado plan.

(** ** What the specification says of the result *)

(** The discounts a row carries: the national one, the special one. *)
Definition carried_discounts (planDB : PlanDB.t) : nat :=
  (if tieneDescuento (PlanDB.descuento_nacional planDB) then 1 else 0)
  + (if tieneDescuento (PlanDB.descuento_especial planDB) then 1 else 0).

(** A row of category [2_rgu] with internet and television and no
    telephony, whose speed and TV tier are the ones selected, lower
    case; a selection left empty is not compared. *)
Definition elegible (p : Props) (planDB : PlanDB.t) : bool :=
  str_eqb (PlanDB.categoria planDB) (lit "2_rgu")
  && PlanDB.internet_activo planDB
  && PlanDB.television_activa planDB
  && negb (PlanDB.telefonia_activa planDB)
  && (negb (nonempty (velocidadInternet p))
      || bool_decide (PlanDB.internet_velocidad planDB
                      = Some (toLowerCase (velocidadInternet p))))
  && (negb (nonempty (tipoTelevision p))
      || bool_decide (PlanDB.television_plan planDB
                      = Some (toLowerCase (tipoTelevision p)))).

(** The same with both selections compared unconditionally. *)
Definition elegible_estricto (p : Props) (planDB : PlanDB.t) : bool :=
  str_eqb (PlanDB.categoria planDB) (lit "2_rgu")
  && PlanDB.internet_activo planDB
  && PlanDB.television_activa planDB
  && negb (PlanDB.telefonia_activa planDB)
  && bool_decide (PlanDB.internet_velocidad planDB
                  = Some (toLowerCase (velocidadInternet p)))
  && bool_decide (PlanDB.television_plan planDB
                  = Some (toLowerCase (tipoTelevision p))).

Definition opcion_nacional (p : Props) (planDB : PlanDB.t) : Plan :=
  convertirPlan p planDB (PlanDB.nombre planDB ++ lit " (Descuento Nacional)")
    (default 0 (PlanDB.descuento_nacional planDB)) None.

Definition opcion_especial (p : Props) (planDB : PlanDB.t) : Plan :=
  convertirPlan p planDB (PlanDB.nombre planDB ++ lit " (Descuento Especial)")
    0 (PlanDB.descuento_especial planDB).

Definition opcion_sin_descuento (p : Props) (planDB : PlanDB.t) : Plan :=
  convertirPlan p planDB (PlanDB.nombre planDB)
    (o_cero (PlanDB.descuento_nacional planDB)) (PlanDB.descuento_especial planDB).

(** The options of one row: one per discount it carries, national
    first, or the row as it is when it carries none. *)
Definition opciones (p : Props) (planDB : PlanDB.t) : list Plan :=
  match tieneDescuento (PlanDB.descuento_nacional planDB),
        tieneDescuento (PlanDB.descuento_especial planDB) with
  | true, true => [opcion_nacional p planDB; opcion_especial p planDB]
  | true, false => [opcion_nacional p planDB]
  | false, true => [opcion_especial p planDB]
  | false, false => [opcion_sin_descuento p planDB]
  end.

(** A residential customer who asks for internet and television, no
    telephony, and is not re-packaging existing services. *)
Definition residencial_duo (p : Props) : Prop :=
  segmento p = lit "residencial"
  /\ hasInternet p = true /\ hasTelevision p = true /\ hasTelefonia p = false
  /\ tipoVenta p <> lit "paquetizacion".

End PlanSelector.

(* ===================================================================== *)
(** * [src/components/Plan.tsx] *)
(* ===================================================================== *)

Module PlanSection.
Import PlanSelector.

(** [shouldShowPlans]: the plan selector is mounted only when it
    answers [true]. *)
Definition shouldShowPlans (p : Props) : bool :=
  let isResidencial := str_eqb (segmento p) (lit "residencial") in
  if negb (hasInternet p) && negb (hasTelevision p) && negb (hasTelefonia p)
  then false
  else if isResidencial && hasInternet p && negb (nonempty (velocidadInternet p))
  then false
  else if isResidencial && hasTelevision p && negb (nonempty (tipoTelevision p))
  then false
  else true.

End PlanSection.

(* ===================================================================== *)
(** * [src/lib/supabaseQueries.ts]: the format helpers *)
(* ===================================================================== *)

Module SupabaseQueries.

(** [text.toLowerCase().trim()] *)
Definition toDBFormat (text : jsstring) : jsstring := trim (toLowerCase text).

(** [text.split(' ').map(word => word.charAt(0).toUpperCase()
    + word.slice(1)).join(' ')] *)
Definition toDisplayFormat (text : jsstring) : jsstring :=
  join (lit " ") (List.map Validators.capitalizeWord (split 32 text)).

Definition formatNumeroRomano (numeroRomano : jsstring) : jsstring :=
  toUpperCase numeroRomano.

End SupabaseQueries.

(* ===================================================================== *)
(** * The field handlers of the applicant and address sections *)
(* ===================================================================== *)

Module DatosSolicitante.
Import Validators.

(** What a handler does: the value it hands to the [props.on...Change]
    callback, if it calls it, and the text it sets as the field's
    error. *)
Record Efecto : Type := mkEfecto {
  entregado : option jsstring;
  error : jsstring
}.

(** [formatted && !validate(formatted)] *)
Definition rechazado (validate : jsstring -> bool) (formatted : jsstring) : bool :=
  match formatted with
  | [] => false
  | _ => negb (validate formatted)
  end.

(** [handleRutChange] and [handleRutEmpresaChange]. *)
Definition handleRutChange (value : jsstring) : Efecto :=
  let formatted := formatRut value in
  {| entregado := Some formatted;
     error := if rechazado validateRut formatted then msg_rut errorMessages
              else [] |}.

(** [handleNombresChange] and [handleApellidosChange]. *)
Definition handleNombresChange (value : jsstring) : Efecto :=
  if str_eqb value [] || validateName value then
    {| entregado := Some value; error := [] |}
  else {| entregado := None; error := msg_name errorMessages |}.

(** [handleNombresBlur] and [handleApellidosBlur]: the error is left
    as it is. *)
Definition handleNombresBlur (nombres : jsstring) : option jsstring :=
  match nombres with
  | [] => None
  | _ => Some (capitalizeName nombres)
  end.

Definition handlePhoneChange (value : jsstring) : Efecto :=
  let formatted := formatPhone value in
  {| entregado := Some formatted;
     error := if rechazado validatePhone formatted then msg_phone errorMessages
              else [] |}.

(** [handleEmailBlur]: the error it sets. *)
Definition handleEmailBlur (email : jsstring) : jsstring :=
  if rechazado validateEmail email then msg_email errorMessages else [].

(** [handleDireccionChange] of the address section. *)
Definition handleDireccionChange (value : jsstring) : Efecto :=
  let formatted := formatAddress value in
  {| entregado := Some formatted;
     error := if rechazado validateAddress formatted then msg_address errorMessages
              else [] |}.

(** The name field across events: the parent stores what the handlers
    hand over. *)
Inductive Evento : Type :=
| Change (value : jsstring)
| Blur.

Definition paso (nombres : jsstring) (e : Evento) : jsstring :=
  match e with
  | Change value => default nombres (entregado (handleNombresChange value))
  | Blur => default nombres (handleNombresBlur nombres)
  end.

End DatosSolicitante.

(* ===================================================================== *)
(** * [api/upload-file.js] *)
(* ===================================================================== *)

Module UploadFile.

Definition ALLOWED_TYPES : list (string * string) :=
  [("image/jpeg", "jpg"); ("image/jpg", "jpg"); ("image/png", "png");
   ("image/webp", "webp"); ("application/pdf", "pdf")]%string.

Record Config : Type := mkConfig { folder : string; suffix : string }.

Definition CATEGORIA_CONFIG : list (string * Config) :=
  [("rut-frontal", mkConfig "rut-frontal" "frontal");
   ("rut-posterior", mkConfig "rut-posterior" "posterior");
   ("factibilidad-app", mkConfig "factibilidad-app" "factibilidad");
   ("otros-documentos", mkConfig "otros-documentos" "doc")]%string.

Definition MAX_FILE_SIZE : Z := 10 * 1024 * 1024.

(** [rut.replace(/[.-]/g, '')] *)
Definition sanitizeRut (rut : jsstring) : jsstring :=
  List.filter (fun c => negb ((c =? 46)%N || (c =? 45)%N)) rut.

(** [file.replace(/^data:.*?;base64,/, '')]: a leading [data:] header up
    to the first [;base64,] is dropped, provided no line terminator
    stands before that marker (the dot does not match one). *)
Fixpoint dropPrefix (pre s : jsstring) : option jsstring :=
  match pre, s with
  | [], _ => Some s
  | p :: pre', c :: s' => if (p =? c)%N then dropPrefix pre' s' else None
  | _ :: _, [] => None
  end.

Definition is_line_terminator (c : N) : bool :=
  (c =? 10)%N || (c =? 13)%N || (c =? 8232)%N || (c =? 8233)%N.

Fixpoint afterBase64Marker (s : jsstring) : option jsstring :=
  match dropPrefix (lit ";base64,") s with
  | Some rest => Some rest
  | None =>
      match s with
      | c :: s' => if is_line_terminator c then None else afterBase64Marker s'
      | [] => None
      end
  end.

Definition stripDataHeader (file : jsstring) : jsstring :=
  match dropPrefix (lit "data:") file with
  | Some rest => default file (afterBase64Marker rest)
  | None => file
  end.

(** [(bytes / 1024 / 1024).toFixed(2)]: both divisions are exact in
    binary floating point, so the result is the byte count over 2^20
    rounded to hundredths, ties upwards. *)
Definition pad2 (n : Z) : jsstring :=
  if n <? 10 then lit "0" ++ lit (pretty n) else lit (pretty n).

Definition megabytesFixed2 (bytes : Z) : jsstring :=
  let hundredths := (200 * bytes + 1048576) / 2097152 in
  lit (pretty (hundredths / 100)) ++ lit "." ++ pad2 (hundredths mod 100).

(** The request body, with the types the handler documents: five
    strings and an optional number; [None] is an absent property. *)
Record Request : Type := mkRequest {
  method : string;
  file : option jsstring;
  filename : option jsstring;
  contentType : option jsstring;
  categoria : option jsstring;
  rut : option jsstring;
  docNumber : option Z
}.

(** What the handler reads from its surroundings: the bucket name, the
    clock, [NODE_ENV], and whether the object store accepts the put. *)
Record Env : Type := mkEnv {
  R2_BUCKET_NAME : jsstring;
  now_iso : jsstring;
  development : bool;
  s3_failure : option JsError
}.

(** [!x] on an optional string: absent or empty. *)
Definition present (x : option jsstring) : option jsstring :=
  match x with
  | Some (c :: s) => Some (c :: s)
  | _ => None
  end.

Section Handler.

(** Node's [Buffer]: the runtime decodes the base64 text and reports
    the length in bytes. *)
Variable Buffer : Type.
Variable Buffer_from_base64 : jsstring -> Buffer.
Variable Buffer_length : Buffer -> Z.
(** The text the engine prints for a member of [Object.prototype]. *)
Variable builtin_text : string -> jsstring.

(** [PutObjectCommand]'s input. *)
Record PutObject : Type := mkPut {
  Bucket : jsstring;
  Key : jsstring;
  Body : Buffer;
  ContentType : jsstring;
  meta_originalName : jsstring;
  meta_categoria : jsstring;
  meta_rut : jsstring;
  meta_uploadedAt : jsstring
}.

Definition extensionText (p : property string) : jsstring :=
  match p with
  | Own ext => lit ext
  | Inherited n => builtin_text n
  | Absent => lit "undefined"
  end.

Definition configText (sel : Config -> string) (p : property Config) : jsstring :=
  match p with
  | Own c => lit (sel c)
  | _ => lit "undefined"
  end.

Definition msgFaltanCampos : jsstring :=
  lit "Faltan campos requeridos: file, filename, contentType, categoria, rut".

Definition msgCategoria (categoria : jsstring) : jsstring :=
  lit "Categor" ++ [237%N] ++ lit "a no v" ++ [225%N] ++ lit "lida: " ++ categoria
  ++ lit ". Permitidas: " ++ keys_joined CATEGORIA_CONFIG.

Definition msgTipo (contentType : jsstring) : jsstring :=
  lit "Tipo de archivo no permitido: " ++ contentType
  ++ lit ". Permitidos: " ++ keys_joined ALLOWED_TYPES.

Definition msgLimite : jsstring :=
  lit "Archivo demasiado grande. M" ++ [225%N] ++ lit "ximo: 10MB".

Definition msgTamano (bytes : Z) : jsstring :=
  msgLimite ++ lit ", recibido: " ++ megabytesFixed2 bytes ++ lit "MB".

Definition rechazo (message : jsstring) : Response :=
  json 400 [("success", VBool false); ("message", VStr message)]%string.

(** The handler: the response, and the puts sent to the object store. *)
Definition handler (env : Env) (req : Request) : Response * list PutObject :=
  if String.eqb (method req) "OPTIONS" then (mkResponse 200 [], [])
  else if negb (String.eqb (method req) "POST") then
    (json 405 [("success", VBool false);
               ("message", VStr (lit "Method not allowed"))]%string, [])
  else
    match present (file req), present (filename req), present (contentType req),
          present (categoria req), present (rut req) with
    | Some file, Some filename, Some contentType, Some categoria, Some rut =>
        if missing (lookup CATEGORIA_CONFIG categoria) then
          (rechazo (msgCategoria categoria), [])
        else if missing (lookup ALLOWED_TYPES contentType) then
          (rechazo (msgTipo contentType), [])
        else
          let base64Data := stripDataHeader file in
          let buffer := Buffer_from_base64 base64Data in
          if MAX_FILE_SIZE <? Buffer_length buffer then
            (rechazo (msgTamano (Buffer_length buffer)), [])
          else
            let extension := extensionText (lookup ALLOWED_TYPES contentType) in
            let rutSanitized := sanitizeRut rut in
            let config := lookup CATEGORIA_CONFIG categoria in
            let fileName :=
              if str_eqb categoria (lit "otros-documentos") then
                let docNum :=
                  match docNumber req with
                  | Some n => if n =? 0 then 1 else n
                  | None => 1
                  end in
                rutSanitized ++ lit "-" ++ configText suffix config ++ lit "-"
                ++ lit (pretty docNum) ++ lit "." ++ extension
              else
                rutSanitized ++ lit "-" ++ configText suffix config
                ++ lit "." ++ extension in
            let key := configText folder config ++ lit "/" ++ fileName in
            let command :=
              {| Bucket := R2_BUCKET_NAME env; Key := key; Body := buffer;
                 ContentType := contentType; meta_originalName := filename;
                 meta_categoria := categoria; meta_rut := rut;
                 meta_uploadedAt := now_iso env |} in
            match s3_failure env with
            | Some error =>
                (json 500 [("success", VBool false);
                           ("message", VStr (lit "Error al subir archivo"));
                           ("error", VStr (err_message error));
                           ("errorName", VStr (err_name error));
                           ("details", if development env
                                       then VStr (err_stack error)
                                       else VUndefined)]%string,
                 [command])
            | None =>
                (json 200 [("success", VBool true);
                           ("url", VStr (lit "https://ebsaspa.cl/" ++ key));
                           ("key", VStr key);
                           ("size", VNum (Buffer_length buffer));
                           ("contentType", VStr contentType);
                           ("filename", VStr fileName)]%string,
                 [command])
            end
    | _, _, _, _, _ => (rechazo msgFaltanCampos, [])
    end.

(** ** The vocabulary of the specification *)

(** The content type is one of the five on the allow-list. *)
Definition allow_listed (contentType : jsstring) : bool :=
  existsb (fun kv => str_eqb (lit (fst kv)) contentType) ALLOWED_TYPES.

(** The category is one of the four the handler documents. *)
Definition valid_category (categoria : jsstring) : bool :=
  existsb (fun kv => str_eqb (lit (fst kv)) categoria) CATEGORIA_CONFIG.

(** The text names a member every object literal inherits. *)
Definition inherited_name (key : jsstring) : bool :=
  existsb (fun n => str_eqb (lit n) key) objectPrototype.

(** The five required fields are there and none is empty. *)
Definition complete (req : Request) : Prop :=
  present (file req) <> None /\ present (filename req) <> None
  /\ present (contentType req) <> None /\ present (categoria req) <> None
  /\ present (rut req) <> None.

(** The length in bytes of what the payload decodes to. *)
Definition decoded_length (req : Request) : Z :=
  match file req with
  | Some payload => Buffer_length (Buffer_from_base64 (stripDataHeader payload))
  | None => 0
  end.

Definition oversized (req : Request) : Prop :=
  MAX_FILE_SIZE < decoded_length req.

(** The content type is absent, or neither on the allow-list nor the
    name of an inherited member. *)
Definition unlisted (req : Request) : Prop :=
  match contentType req with
  | Some t => allow_listed t = false /\ inherited_name t = false
  | None => True
  end.

(** The request passes the three checks that stand before the size
    check, with a documented category and an allow-listed type. *)
Definition well_described (req : Request) : Prop :=
  complete req
  /\ (exists c, categoria req = Some c /\ valid_category c = true)
  /\ (exists t, contentType req = Some t /\ allow_listed t = true).

End Handler.

End UploadFile.

(* ===================================================================== *)
(** * [api/submit-form.js] *)
(* ===================================================================== *)

Module SubmitForm.

(** ** The clock *)

(** The broken-down Chilean local time [formatTimestamp] reads:
    [getDate], [getMonth] (from 0), [getFullYear], [getHours],
    [getMinutes], [getSeconds]. *)
Record DateTime : Type := mkDateTime {
  getDate : Z;
  getMonth : Z;
  getFullYear : Z;
  getHours : Z;
  getMinutes : Z;
  getSeconds : Z
}.

(** [String(n).padStart(2, "0")] *)
Definition padStart2 (n : Z) : jsstring :=
  let s := lit (pretty n) in
  if (length s <? 2)%nat then lit "0" ++ s else s.

Definition formatTimestamp (chileTime : DateTime) : jsstring :=
  let day := padStart2 (getDate chileTime) in
  let month := padStart2 (getMonth chileTime + 1) in
  let year := lit (pretty (getFullYear chileTime)) in
  let hours := padStart2 (getHours chileTime) in
  let minutes := padStart2 (getMinutes chileTime) in
  let seconds := padStart2 (getSeconds chileTime) in
  day ++ lit "/" ++ month ++ lit "/" ++ year ++ lit " "
  ++ hours ++ lit ":" ++ minutes ++ lit ":" ++ seconds.

(** ** The two backends and what the handler does to them *)

(** A tab of the spreadsheet, as [spreadsheets.get] describes it. *)
Record Tab : Type := mkTab {
  title : jsstring;
  sheetId : Z;
  rowCount : Z
}.

(** One entry of a values batch update: the A1 range
    [Fijo_EBSA!<column><row>] and the single value written there. *)
Record Update : Type := mkUpdate {
  column : string;
  row : Z;
  cell : value
}.

(** A row object handed to [insert], property by property. *)
Abbreviation Row := (list (string * value)).

(** The error object a failed relational call returns. *)
Record PgError : Type := mkPgError {
  pg_code : jsstring;
  pg_message : jsstring;
  pg_details : jsstring;
  pg_hint : jsstring
}.

(** The calls the handler issues to the spreadsheet API and to the
    relational store. *)
Inductive Call : Type :=
| ValuesGet (range : string)
| SpreadsheetGet
| AppendRows (sheet : Z) (count : Z)
| ValuesBatchUpdate (data : list Update)
| SelectSingle (table column : string) (pattern : jsstring)
| Insert (table : string) (r : Row).

Inductive Level : Type := Log | Error.

(** Which spreadsheet calls throw, and whether the relational insert
    answers with an error: the failures of the outside world. *)
Record Env : Type := mkEnv {
  chileTime : DateTime;
  development : bool;
  values_get_fails : option JsError;
  spreadsheet_get_fails : option JsError;
  append_fails : option JsError;
  values_update_fails : option JsError;
  insert_error : option PgError
}.

(** The state the handler acts on: the grid of tab [Fijo_EBSA] (column
    letters and row number to cell value), the tabs of the spreadsheet,
    the relational tables, the calls issued so far (oldest first) and
    the console. *)
Record State : Type := mkState {
  tabs : list Tab;
  grid : gmap (string * Z) value;
  vendedores : list jsstring;
  codigos_vendedor : list jsstring;
  pedidos : list Row;
  calls : list Call;
  console : list (Level * string)
}.

Definition set_tabs (t : list Tab) (st : State) : State :=
  mkState t (grid st) (vendedores st) (codigos_vendedor st) (pedidos st)
          (calls st) (console st).
Definition set_grid (g : gmap (string * Z) value) (st : State) : State :=
  mkState (tabs st) g (vendedores st) (codigos_vendedor st) (pedidos st)
          (calls st) (console st).
Definition set_pedidos (p : list Row) (st : State) : State :=
  mkState (tabs st) (grid st) (vendedores st) (codigos_vendedor st) p
          (calls st) (console st).
Definition add_call (c : Call) (st : State) : State :=
  mkState (tabs st) (grid st) (vendedores st) (codigos_vendedor st) (pedidos st)
          (calls st ++ [c]) (console st).
Definition add_line (l : Level * string) (st : State) : State :=
  mkState (tabs st) (grid st) (vendedores st) (codigos_vendedor st) (pedidos st)
          (calls st) (console st ++ [l]).

(** ** Computations that act on the state and may throw *)

Inductive Outcome (A : Type) : Type :=
| Returned (a : A)
| Thrown (e : JsError).
Arguments Returned {A} a.
Arguments Thrown {A} e.

Definition M (A : Type) : Type := State -> Outcome A * State.

#[export] Instance M_ret : MRet M := fun A a st => (Returned a, st).
#[export] Instance M_bind : MBind M := fun A B f m st =>
  match m st with
  | (Returned a, st') => f a st'
  | (Thrown e, st') => (Thrown e, st')
  end.

Definition throw {A : Type} (e : JsError) : M A := fun st => (Thrown e, st).
Definition modify (f : State -> State) : M unit := fun st => (Returned tt, f st).
Definition gets {A : Type} (f : State -> A) : M A := fun st => (Returned (f st), st).

Definition console_log (msg : string) : M unit := modify (add_line (Log, msg)).
Definition console_error (msg : string) : M unit := modify (add_line (Error, msg)).

(** A call that throws when the environment says so. *)
Definition may_fail (failure : option JsError) : M unit :=
  match failure with
  | Some e => throw e
  | None => mret tt
  end.

Definition TypeError (what : string) : JsError :=
  mkError (lit "TypeError") (lit what) (lit "").

(** A cell holds data unless it is blank. *)
Definition has_data (v : value) : bool :=
  match v with
  | VUndefined | VNull | VStr [] => false
  | _ => true
  end.

(** The last row of a column that holds data; 0 for an empty column. *)
Definition lastRow (col : string) (g : gmap (string * Z) value) : Z :=
  map_fold (fun k v acc =>
              if String.eqb (fst k) col && has_data v then Z.max (snd k) acc
              else acc) 0 g.

(** [spreadsheets.values.get] on a whole column: the rows down to the
    last one with data, or no [values] at all when there is none. *)
Definition column_values (col : string) (g : gmap (string * Z) value)
  : option (list (list value)) :=
  let n := lastRow col g in
  if n <=? 0 then None
  else Some (List.map (fun r => match g !! (col, r) with
                                | Some v => if has_data v then [v] else []
                                | None => []
                                end) (seqZ 1 n)).

Definition sheets_values_get (env : Env) (col : string)
  : M (option (list (list value))) :=
  modify (add_call (ValuesGet ("Fijo_EBSA!" +:+ col +:+ ":" +:+ col))) ;;
  may_fail (values_get_fails env) ;;
  gets (fun st => column_values col (grid st)).

Definition sheets_get (env : Env) : M (list Tab) :=
  modify (add_call SpreadsheetGet) ;;
  may_fail (spreadsheet_get_fails env) ;;
  gets tabs.

(** [appendDimension] of [count] rows to the tab [sheet]. *)
Definition grow (sheet count : Z) (t : Tab) : Tab :=
  if sheetId t =? sheet then mkTab (title t) (sheetId t) (rowCount t + count)
  else t.

Definition sheets_append_rows (env : Env) (sheet count : Z) : M unit :=
  modify (add_call (AppendRows sheet count)) ;;
  may_fail (append_fails env) ;;
  modify (fun st => set_tabs (List.map (grow sheet count) (tabs st)) st).

Definition write_cell (g : gmap (string * Z) value) (u : Update)
  : gmap (string * Z) value :=
  <[(column u, row u) := cell u]> g.

Definition sheets_values_batchUpdate (env : Env) (data : list Update) : M unit :=
  modify (add_call (ValuesBatchUpdate data)) ;;
  may_fail (values_update_fails env) ;;
  modify (fun st => set_grid (fold_left write_cell data (grid st)) st).

(** [.insert(row).select().single()] on [pedidos]: the store either
    answers with an error and keeps nothing, or stores the row (the
    properties that are not [undefined]) under a fresh [id] and returns
    it. *)
Definition supabase_insert (env : Env) (r : Row) : M (Row + PgError) :=
  modify (add_call (Insert "pedidos" r)) ;;
  match insert_error env with
  | Some e => mret (inr e)
  | None =>
      n ← gets (fun st => Z.of_nat (length (pedidos st)));
      let stored := ("id"%string, VNum ((n : Z) + 1)) :: List.filter is_defined r in
      modify (fun st => set_pedidos (pedidos st ++ [stored]) st) ;;
      mret (inl stored)
  end.

(** ** The request *)

Record Request : Type := mkRequest {
  method : string;
  query_test : option jsstring;
  body : gmap string value
}.

(** [req.query?.test || null] *)
Definition testModeOf (req : Request) : option jsstring :=
  match query_test req with
  | Some (c :: s) => Some (c :: s)
  | _ => None
  end.

(** [testMode === "<name>"] *)
Definition is_mode (testMode : option jsstring) (name : string) : bool :=
  match testMode with
  | Some s => str_eqb s (lit name)
  | None => false
  end.

(** ** Helpers of the handler *)

(** [(str) => (str ? String(str).toUpperCase() : "")] and its twin. *)
Definition toUpper (str : value) : jsstring :=
  if truthy str then toUpperCase (toString str) else [].
Definition toLower (str : value) : jsstring :=
  if truthy str then toLowerCase (toString str) else [].

(** [[a, b, c].filter(Boolean).length] *)
Definition count_truthy (l : list value) : Z :=
  Z.of_nat (length (List.filter truthy l)).

(** [x?.join(", ")] *)
Definition optional_join (x : value) : M value :=
  match x with
  | VUndefined | VNull => mret VUndefined
  | VArr l => mret (VStr (join (lit ", ") l))
  | _ => throw (TypeError "formData.selectedAdicionales?.join is not a function")
  end.

(** [Array.isArray(x) ? x.join(", ") : ""] *)
Definition joined_or_empty (x : value) : value :=
  match x with
  | VArr l => VStr (join (lit ", ") l)
  | _ => VStr []
  end.

(** [Array.isArray(x) && x.length > 0 ? x.join(", ") : null] *)
Definition joined_or_null (x : value) : value :=
  match x with
  | VArr (u :: l) => VStr (join (lit ", ") (u :: l))
  | _ => VNull
  end.

(** [x && x.trim() && x !== " "] *)
Definition filled_in (x : value) : M bool :=
  if truthy x then
    match x with
    | VStr s =>
        mret (match trim s with [] => false | _ => true end
              && negb (str_eqb s (lit " ")))
    | _ => throw (TypeError "trim is not a function")
    end
  else mret false.

(** [pedido?.id] *)
Definition id_of (pedido : option Row) : value :=
  match pedido with
  | Some r => prop r "id"
  | None => VUndefined
  end.

Section Handler.

(** PostgreSQL's [ILIKE]: does the column value match the pattern,
    letter case ignored? *)
Variable ilike : jsstring -> jsstring -> bool.

(** [.from(table).select("id").ilike(column, pattern).single()]: the
    data is a row when exactly one row matches, [null] otherwise. *)
Definition single (rows : list jsstring) : option jsstring :=
  match rows with
  | [r] => Some r
  | _ => None
  end.

Definition supabase_single (table column : string)
    (contents : State -> list jsstring) (pattern : jsstring)
  : M (option jsstring) :=
  modify (add_call (SelectSingle table column pattern)) ;;
  gets (fun st => single (List.filter (ilike pattern) (contents st))).

(** The two look-ups that decide whether the seller name and the seller
    code are kept or stored as [null]. *)
Definition en_lista (table column : string) (contents : State -> list jsstring)
    (x : value) (found notFound blank : string) : M bool :=
  filled ← filled_in x;
  if filled : bool then
    exists_ ← supabase_single table column contents (toString x);
    match exists_ : option jsstring with
    | Some _ => console_log found ;; mret true
    | None => console_log notFound ;; mret false
    end
  else console_log blank ;; mret false.

Definition columnData (formData : gmap string value) (timestamp : jsstring)
    (rgu : Z) (adicionales : value) : list (string * value) :=
  let f := get formData in
  [("J", VStr (toUpper (f "comentarioVendedor")));
   ("K", VStr (toUpper (f "selectedMarca")));
   ("P", VStr (toUpper (f "selectedCodigo")));
   ("Q", VStr timestamp);
   ("R", VStr (toUpper (f "selectedTipoVenta")));
   ("S", VStr (toUpper (f "selectedSegmento")));
   ("T", VStr (toUpper (f "tipoAgente")));
   ("BC", VStr (toLower (f "emailEquipo")));
   ("BE", VStr (toUpper (f "selectedVendedor")));
   ("AN", VStr (toUpper (f "rut")));
   ("AO", VStr (toUpper (VStr (toString (f "nombres") ++ lit " "
                                ++ toString (f "apellidos")))));
   ("AP", VStr (toUpper (or_else (f "rutEmpresa") (VStr []))));
   ("AQ", VStr (toUpper (or_else (f "nombreEmpresa") (VStr []))));
   ("AA", VStr (toUpper (f "region")));
   ("AR", VStr (toUpper (f "comuna")));
   ("AS", VStr (toUpper (f "direccion")));
   ("AD", VStr (toUpper (f "numeroContacto")));
   ("AT", VStr (toLower (f "email")));
   ("AU", VStr (toUpper (f "selectedPlan")));
   ("AG", VStr (toUpper adicionales));
   ("BA", VNum rgu);
   ("AI", VStr (toUpper (f "tipoCampana")));
   ("AJ", joined_or_empty (f "rutFrontalUrls"));
   ("AK", joined_or_empty (f "rutPosteriorUrls"));
   ("AL", joined_or_empty (f "factibilidadUrls"));
   ("AM", joined_or_empty (f "otrosDocumentosUrls"))]%string.

(** The object handed to [insert]. *)
Definition pedidoRow (formData : gmap string value) (rgu nextRow : Z)
    (adicionales vendedorParaSupabase codigoParaSupabase equipoParaSupabase : value)
  : Row :=
  let f := get formData in
  [("observacion_vendedor", f "comentarioVendedor");
   ("marca", f "selectedMarca");
   ("codigo_vendedor", codigoParaSupabase);
   ("tipo_venta", f "selectedTipoVenta");
   ("segmento", f "selectedSegmento");
   ("tipo_agente", f "tipoAgente");
   ("equipo_id", equipoParaSupabase);
   ("vendedor_id", vendedorParaSupabase);
   ("rut", f "rut");
   ("nombres", f "nombres");
   ("apellidos", f "apellidos");
   ("rut_empresa", or_else (f "rutEmpresa") VNull);
   ("nombre_empresa", or_else (f "nombreEmpresa") VNull);
   ("region", f "region");
   ("comuna", f "comuna");
   ("direccion", f "direccion");
   ("numero_contacto", f "numeroContacto");
   ("email", f "email");
   ("plan", f "selectedPlan");
   ("productos_adicionales", or_else adicionales VNull);
   ("rgu", VNum rgu);
   ("tiene_internet", or_else (f "hasInternet") (VBool false));
   ("tiene_television", or_else (f "hasTelevision") (VBool false));
   ("tiene_telefonia", or_else (f "hasTelefonia") (VBool false));
   ("velocidad_internet", or_else (f "velocidadInternet") VNull);
   ("tipo_television", or_else (f "tipoTelevision") VNull);
   ("fecha_agendamiento", or_else (f "fechaAgendamiento") VNull);
   ("tramo_instalacion", or_else (f "tramoInstalacion") VNull);
   ("rut_frontal_url", joined_or_null (f "rutFrontalUrls"));
   ("rut_posterior_url", joined_or_null (f "rutPosteriorUrls"));
   ("factibilidad_url", joined_or_null (f "factibilidadUrls"));
   ("otros_documentos_urls", joined_or_null (f "otrosDocumentosUrls"));
   ("fila_sheets", VNum nextRow)]%string.

(** The [supabaseError] branch: six lines on the error console, and
    nothing thrown. *)
Definition report_supabase_error : M unit :=
  console_error "=== ERROR AL GUARDAR EN SUPABASE ===" ;;
  console_error "Error completo:" ;;
  console_error "Error code:" ;;
  console_error "Error message:" ;;
  console_error "Error details:" ;;
  console_error "Error hint:".

(** The body of the [try] block. *)
Definition procesar (env : Env) (req : Request) : M Response :=
  let formData := body req in
  let testMode := testModeOf req in
  console_log "Recibiendo datos del formulario..." ;;
  console_log "Modo de testing:" ;;
  if is_mode testMode "validation" then
    console_log "TEST MODE: Solo validacion de datos" ;;
    mret (json 200
      [("success", VBool true);
       ("mode", VStr (lit "validation"));
       ("message", VStr (lit "Datos recibidos correctamente"));
       ("tieneVendedor", VBool (truthy (get formData "selectedVendedor")));
       ("tieneCodigo", VBool (truthy (get formData "selectedCodigo")));
       ("tieneMarca", VBool (truthy (get formData "selectedMarca")));
       ("tieneRut", VBool (truthy (get formData "rut")));
       ("tienePlan", VBool (truthy (get formData "selectedPlan")));
       ("camposRecibidos", VNum (Z.of_nat (size formData)))]%string)
  else
    let timestamp := formatTimestamp (chileTime env) in
    let rgu := count_truthy [get formData "hasInternet";
                             get formData "hasTelevision";
                             get formData "hasTelefonia"] in
    adicionales ← optional_join (get formData "selectedAdicionales");
    let columnData := columnData formData timestamp rgu (adicionales : value) in
    response ← sheets_values_get env "Q";
    let rows := default [] (response : option (list (list value))) in
    let nextRow := Z.of_nat (length rows) + 1 in
    console_log "Ultima fila con timestamp, proxima fila" ;;
    sheetMetadata ← sheets_get env;
    let fijoSheet :=
      List.find (fun sheet => str_eqb (title sheet) (lit "Fijo_EBSA"))
                (sheetMetadata : list Tab) in
    match fijoSheet with
    | Some sheet =>
        console_log "Filas totales en sheet, proxima fila a usar" ;;
        console_log "Agregando nueva fila al sheet..." ;;
        sheets_append_rows env (sheetId sheet) 1 ;;
        console_log "Nueva fila agregada exitosamente"
    | None => mret tt
    end ;;
    let updates :=
      List.map (fun kv => mkUpdate (fst kv) nextRow (snd kv)) columnData in
    (if negb (is_mode testMode "supabase") then
       sheets_values_batchUpdate env updates ;;
       console_log "Formulario guardado exitosamente en Sheets con timestamp"
     else console_log "TEST MODE: Saltando guardado en Google Sheets") ;;
    if is_mode testMode "sheets" then
      mret (json 200
        [("success", VBool true);
         ("mode", VStr (lit "sheets"));
         ("message", VStr (lit "Datos guardados solo en Google Sheets"));
         ("timestamp", VStr timestamp);
         ("fila", VNum nextRow)]%string)
    else
      vendedorExists ← en_lista "vendedores" "nombre" vendedores
                         (get formData "selectedVendedor")
                         "Vendedor encontrado en lista"
                         "Vendedor no encontrado en lista, se guardara como null"
                         "Vendedor vacio, se guardara como null";
      let vendedorParaSupabase :=
        if vendedorExists : bool then get formData "selectedVendedor" else VNull in
      let equipoParaSupabase :=
        if vendedorExists : bool then get formData "equipo" else VNull in
      codigoExists ← en_lista "codigos_vendedor" "codigo" codigos_vendedor
                       (get formData "selectedCodigo")
                       "Codigo encontrado en lista"
                       "Codigo no encontrado en lista, se guardara como null"
                       "Codigo vacio, se guardara como null";
      let codigoParaSupabase :=
        if codigoExists : bool then get formData "selectedCodigo" else VNull in
      pedido ← (if negb (is_mode testMode "sheets") then
                  console_log "=== Intentando guardar en Supabase ===" ;;
                  console_log "Datos a insertar:" ;;
                  answer ← supabase_insert env
                             (pedidoRow formData rgu nextRow adicionales
                                vendedorParaSupabase codigoParaSupabase
                                equipoParaSupabase);
                  match answer : Row + PgError with
                  | inr supabaseError => report_supabase_error ;; mret None
                  | inl pedidoData =>
                      console_log "Pedido guardado en Supabase con ID:" ;;
                      mret (Some pedidoData)
                  end
                else
                  console_log "TEST MODE: Saltando guardado en Supabase" ;;
                  mret None);
      if is_mode testMode "supabase" then
        mret (json 200
          [("success", VBool true);
           ("mode", VStr (lit "supabase"));
           ("message", VStr (lit "Datos guardados solo en Supabase"));
           ("pedidoId", id_of (pedido : option Row));
           ("vendedorValidado", VBool (truthy vendedorParaSupabase));
           ("codigoValidado", VBool (truthy codigoParaSupabase))]%string)
      else
        mret (json 200
          [("success", VBool true);
           ("message", VStr (lit "Formulario enviado exitosamente"));
           ("timestamp", VStr timestamp);
           ("pedidoId", id_of pedido)]%string).

(** The answer of the [catch] block. *)
Definition respuesta_error (env : Env) (error : JsError) : Response :=
  json 500 [("success", VBool false);
            ("message", VStr (lit "Error al enviar formulario"));
            ("error", VStr (err_message error));
            ("stack", if development env then VStr (err_stack error)
                      else VUndefined)]%string.

(** The handler: pre-flight and method checks, then the [try] block
    with its [catch]. *)
Definition handler (env : Env) (req : Request) (st : State) : Response * State :=
  if String.eqb (method req) "OPTIONS" then (mkResponse 200 [], st)
  else if negb (String.eqb (method req) "POST") then
    (json 405 [("success", VBool false);
               ("message", VStr (lit "Method not allowed"))]%string, st)
  else
    match procesar env req st with
    | (Returned res, st') => (res, st')
    | (Thrown error, st') =>
        (respuesta_error env error,
         add_line (Error, "Datos recibidos:")
           (add_line (Error, "Stack trace:")
              (add_line (Error, "Error al enviar formulario:") st')))
    end.

End Handler.

(** ** Reading a run *)

(** The calls a run added to the ones issued before it. *)
Definition issued (before after : State) : list Call :=
  drop (length (calls before)) (calls after).

(** The values batch updates, the row insertions and the row-count
    expansions among some calls, in order. *)
Definition sheet_writes (cs : list Call) : list (list Update) :=
  flat_map (fun c => match c with ValuesBatchUpdate d => [d] | _ => [] end) cs.

Definition inserts (cs : list Call) : list Row :=
  flat_map (fun c => match c with Insert _ r => [r] | _ => [] end) cs.

Definition expansions (cs : list Call) : list (Z * Z) :=
  flat_map (fun c => match c with AppendRows i n => [(i, n)] | _ => [] end) cs.

Definition is_select (c : Call) : Prop :=
  match c with SelectSingle _ _ _ => True | _ => False end.

(** A value on which [x && x.trim()] does not throw: a falsy one, or
    a string. *)
Definition textual (x : value) : Prop :=
  truthy x = false \/ exists s, x = VStr s.

(** A call to the relational store. *)
Definition is_store_call (c : Call) : Prop :=
  match c with SelectSingle _ _ _ | Insert _ _ => True | _ => False end.

(** The row the handler writes to: one past the entries read from
    column Q. *)
Definition nextRowOf (st : State) : Z :=
  Z.of_nat (length (default [] (column_values "Q" (grid st)))) + 1.

(** What [lastRow] computes: no cell of the column below it holds
    data, and it is 0 or the row of a cell that does. *)
Definition last_filled (col : string) (g : gmap (string * Z) value) (n : Z) : Prop :=
  0 <= n
  /\ (forall k v, g !! (col, k) = Some v -> has_data v = true -> k <= n)
  /\ (n = 0 \/ exists v, g !! (col, n) = Some v /\ has_data v = true).

(** The tab [Fijo_EBSA] of the spreadsheet, if it has one. *)
Definition fijoSheetOf (st : State) : option Tab :=
  List.find (fun sheet => str_eqb (title sheet) (lit "Fijo_EBSA")) (tabs st).

(** The value [x?.join(", ")] has when it does not throw. *)
Definition joined (x : value) : option value :=
  match x with
  | VUndefined | VNull => Some VUndefined
  | VArr l => Some (VStr (join (lit ", ") l))
  | _ => None
  end.

Definition rguOf (formData : gmap string value) : Z :=
  count_truthy [get formData "hasInternet"; get formData "hasTelevision";
                get formData "hasTelefonia"].

(** The cells of one submission: every column of [columnData], all in
    row [nextRow]. *)
Definition updatesOf (env : Env) (formData : gmap string value)
    (adicionales : value) (nextRow : Z) : list Update :=
  List.map (fun kv => mkUpdate (fst kv) nextRow (snd kv))
    (columnData formData (formatTimestamp (chileTime env)) (rguOf formData)
       adicionales).

(** The reads that open a run, with the expansion by one row that
    follows them when the tab exists. *)
Definition expansionOf (st : State) : list Call :=
  match fijoSheetOf st with
  | Some sheet => [AppendRows (sheetId sheet) 1]
  | None => []
  end.

Definition readsOf (st : State) : list Call :=
  [ValuesGet "Fijo_EBSA!Q:Q"; SpreadsheetGet] ++ expansionOf st.

Definition tabsAfter (st : State) : list Tab :=
  match fijoSheetOf st with
  | Some sheet => List.map (grow (sheetId sheet) 1) (tabs st)
  | None => tabs st
  end.

(** The spreadsheet write of a run, which mode [supabase] skips. *)
Definition writesOf (testMode : option jsstring) (data : list Update) : list Call :=
  if is_mode testMode "supabase" then [] else [ValuesBatchUpdate data].

Definition gridAfter (testMode : option jsstring) (data : list Update)
    (st : State) : gmap (string * Z) value :=
  if is_mode testMode "supabase" then grid st
  else fold_left write_cell data (grid st).

(** A name or code is kept when it is a string that is not blank and
    exactly one row of the reference table matches it. *)
Definition listed (ilike : jsstring -> jsstring -> bool) (x : value)
    (contents : list jsstring) : Prop :=
  exists s, x = VStr s /\ trim s <> []
    /\ exists n, List.filter (ilike s) contents = [n].

Definition kept (b : bool) (x : value) : value := if b then x else VNull.

(** The seller name is blank: absent, empty, or white space only. *)
Definition seller_blank (formData : gmap string value) : Prop :=
  truthy (get formData "selectedVendedor") = false
  \/ exists s, get formData "selectedVendedor" = VStr s /\ trim s = [].

(** The seller name matches a row of [vendedores], letter case
    ignored. *)
Definition seller_found (ilike : jsstring -> jsstring -> bool)
    (formData : gmap string value) (st : State) : Prop :=
  exists nombre, In nombre (vendedores st)
    /\ ilike (toString (get formData "selectedVendedor")) nombre = true.

(** The last answer of the handler, with or without a stored order. *)
Definition respuesta_final (env : Env) (testMode : option jsstring)
    (pedido : option Row) (vendedor codigo : value) : Response :=
  if is_mode testMode "supabase" then
    json 200 [("success", VBool true);
              ("mode", VStr (lit "supabase"));
              ("message", VStr (lit "Datos guardados solo en Supabase"));
              ("pedidoId", id_of pedido);
              ("vendedorValidado", VBool (truthy vendedor));
              ("codigoValidado", VBool (truthy codigo))]%string
  else
    json 200 [("success", VBool true);
              ("message", VStr (lit "Formulario enviado exitosamente"));
              ("timestamp", VStr (formatTimestamp (chileTime env)));
              ("pedidoId", id_of pedido)]%string.

Definition respuesta_validacion (formData : gmap string value) : Response :=
  json 200
    [("success", VBool true);
     ("mode", VStr (lit "validation"));
     ("message", VStr (lit "Datos recibidos correctamente"));
     ("tieneVendedor", VBool (truthy (get formData "selectedVendedor")));
     ("tieneCodigo", VBool (truthy (get formData "selectedCodigo")));
     ("tieneMarca", VBool (truthy (get formData "selectedMarca")));
     ("tieneRut", VBool (truthy (get formData "rut")));
     ("tienePlan", VBool (truthy (get formData "selectedPlan")));
     ("camposRecibidos", VNum (Z.of_nat (size formData)))]%string.

(** How a state differs from the one a run started in: the tabs, the
    grid and the orders it ends with, and the calls it added.  The
    reference tables are never touched; the console only grows. *)
Definition reaches (st st' : State) (t : list Tab)
    (g : gmap (string * Z) value) (p : list Row) (cs : list Call) : Prop :=
  tabs st' = t /\ grid st' = g /\ pedidos st' = p
  /\ calls st' = calls st ++ cs
  /\ vendedores st' = vendedores st
  /\ codigos_vendedor st' = codigos_vendedor st
  /\ exists lines, console st' = console st ++ lines.

(** The runs of the handler on a POST request, by where they end. *)
Inductive Run (ilike : jsstring -> jsstring -> bool) (env : Env)
    (req : Request) (st : State) : Response -> State -> Prop :=
| Run_validation st' :
    is_mode (testModeOf req) "validation" = true ->
    reaches st st' (tabs st) (grid st) (pedidos st) [] ->
    Run ilike env req st (respuesta_validacion (body req)) st'
| Run_aborted error cs st' :
    is_mode (testModeOf req) "validation" = false ->
    In cs [[]; [ValuesGet "Fijo_EBSA!Q:Q"];
           [ValuesGet "Fijo_EBSA!Q:Q"; SpreadsheetGet]; readsOf st] ->
    reaches st st' (tabs st) (grid st) (pedidos st) cs ->
    Run ilike env req st (respuesta_error env error) st'
| Run_write_failed adicionales error st' :
    is_mode (testModeOf req) "validation" = false ->
    joined (get (body req) "selectedAdicionales") = Some adicionales ->
    is_mode (testModeOf req) "supabase" = false ->
    values_update_fails env = Some error ->
    reaches st st' (tabsAfter st) (grid st) (pedidos st)
      (readsOf st
       ++ [ValuesBatchUpdate (updatesOf env (body req) adicionales (nextRowOf st))]) ->
    Run ilike env req st (respuesta_error env error) st'
| Run_sheets_only adicionales st' :
    is_mode (testModeOf req) "validation" = false ->
    joined (get (body req) "selectedAdicionales") = Some adicionales ->
    is_mode (testModeOf req) "sheets" = true ->
    values_update_fails env = None ->
    let data := updatesOf env (body req) adicionales (nextRowOf st) in
    reaches st st' (tabsAfter st) (fold_left write_cell data (grid st))
      (pedidos st) (readsOf st ++ [ValuesBatchUpdate data]) ->
    Run ilike env req st
      (json 200 [("success", VBool true);
                 ("mode", VStr (lit "sheets"));
                 ("message", VStr (lit "Datos guardados solo en Google Sheets"));
                 ("timestamp", VStr (formatTimestamp (chileTime env)));
                 ("fila", VNum (nextRowOf st))]%string) st'
| Run_lookup_failed adicionales error selects st' :
    is_mode (testModeOf req) "validation" = false ->
    joined (get (body req) "selectedAdicionales") = Some adicionales ->
    is_mode (testModeOf req) "sheets" = false ->
    (is_mode (testModeOf req) "supabase" = false -> values_update_fails env = None) ->
    Forall is_select selects ->
    let data := updatesOf env (body req) adicionales (nextRowOf st) in
    reaches st st' (tabsAfter st) (gridAfter (testModeOf req) data st)
      (pedidos st) (readsOf st ++ writesOf (testModeOf req) data ++ selects) ->
    Run ilike env req st (respuesta_error env error) st'
| Run_insert_failed adicionales selects vendedorExists codigoExists error st' :
    is_mode (testModeOf req) "validation" = false ->
    joined (get (body req) "selectedAdicionales") = Some adicionales ->
    is_mode (testModeOf req) "sheets" = false ->
    (is_mode (testModeOf req) "supabase" = false -> values_update_fails env = None) ->
    Forall is_select selects ->
    (vendedorExists = true <->
     listed ilike (get (body req) "selectedVendedor") (vendedores st)) ->
    (codigoExists = true <->
     listed ilike (get (body req) "selectedCodigo") (codigos_vendedor st)) ->
    insert_error env = Some error ->
    let data := updatesOf env (body req) adicionales (nextRowOf st) in
    let r := pedidoRow (body req) (rguOf (body req)) (nextRowOf st) adicionales
               (kept vendedorExists (get (body req) "selectedVendedor"))
               (kept codigoExists (get (body req) "selectedCodigo"))
               (kept vendedorExists (get (body req) "equipo")) in
    reaches st st' (tabsAfter st) (gridAfter (testModeOf req) data st)
      (pedidos st)
      (readsOf st ++ writesOf (testModeOf req) data ++ selects
       ++ [Insert "pedidos" r]) ->
    In (Error, "=== ERROR AL GUARDAR EN SUPABASE ==="%string) (console st') ->
    Run ilike env req st
      (respuesta_final env (testModeOf req) None
         (kept vendedorExists (get (body req) "selectedVendedor"))
         (kept codigoExists (get (body req) "selectedCodigo"))) st'
| Run_stored adicionales selects vendedorExists codigoExists st' :
    is_mode (testModeOf req) "validation" = false ->
    joined (get (body req) "selectedAdicionales") = Some adicionales ->
    is_mode (testModeOf req) "sheets" = false ->
    (is_mode (testModeOf req) "supabase" = false -> values_update_fails env = None) ->
    Forall is_select selects ->
    (vendedorExists = true <->
     listed ilike (get (body req) "selectedVendedor") (vendedores st)) ->
    (codigoExists = true <->
     listed ilike (get (body req) "selectedCodigo") (codigos_vendedor st)) ->
    insert_error env = None ->
    let data := updatesOf env (body req) adicionales (nextRowOf st) in
    let r := pedidoRow (body req) (rguOf (body req)) (nextRowOf st) adicionales
               (kept vendedorExists (get (body req) "selectedVendedor"))
               (kept codigoExists (get (body req) "selectedCodigo"))
               (kept vendedorExists (get (body req) "equipo")) in
    let stored := ("id"%string, VNum (Z.of_nat (length (pedidos st)) + 1))
                  :: List.filter is_defined r in
    reaches st st' (tabsAfter st) (gridAfter (testModeOf req) data st)
      (pedidos st ++ [stored])
      (readsOf st ++ writesOf (testModeOf req) data ++ selects
       ++ [Insert "pedidos" r]) ->
    Run ilike env req st
      (respuesta_final env (testModeOf req) (Some stored)
         (kept vendedorExists (get (body req) "selectedVendedor"))
         (kept codigoExists (get (body req) "selectedCodigo"))) st'.

End SubmitForm.

(* ===================================================================== *)
(** * [src/components/Form.tsx] and the confirmation page *)
(* ===================================================================== *)

Module Form.

(** The state of the form that [handleFinalizar] and the [canContinue]
    predicates read. *)
Record Estado : Type := mkEstado {
  selectedVendedor : jsstring;
  nombreEquipo : jsstring;
  tipoContratoVendedor : option jsstring;
  selectedTipoAgente : jsstring;
  selectedMarca : jsstring;
  selectedCodigo : jsstring;
  selectedSegmento : jsstring;
  selectedTipoVenta : jsstring;
  rut : jsstring;
  nombres : jsstring;
  apellidos : jsstring;
  fechaNacimiento : jsstring;
  numeroContacto : jsstring;
  email : jsstring;
  nombreEmpresa : jsstring;
  rutEmpresa : jsstring;
  rutFrontalUrls : list jsstring;
  rutPosteriorUrls : list jsstring;
  factibilidadUrls : list jsstring;
  otrosDocumentosUrls : list jsstring;
  region : jsstring;
  comuna : jsstring;
  direccion : jsstring;
  hasInternet : bool;
  hasTelevision : bool;
  hasTelefonia : bool;
  velocidadInternet : jsstring;
  tipoTelevision : jsstring;
  selectedPlan : jsstring;
  selectedAdicionales : list jsstring;
  fechaAgendamiento : jsstring;
  tramoInstalacion : jsstring;
  tipoCampana : jsstring;
  comentarioVendedor : jsstring;
  userEmail : option jsstring
}.

(** [a || b] on a nullable string and a string. *)
Definition o_bien (a : option jsstring) (b : jsstring) : jsstring :=
  match a with
  | Some (c :: s) => c :: s
  | _ => b
  end.

(** The properties of the object literal of [handleFinalizar], the
    two of the company only for segment [negocio]. *)
Definition campos (s : Estado) : list (string * value) :=
  [("selectedVendedor", VStr (selectedVendedor s));
   ("tipoAgente", VStr (o_bien (tipoContratoVendedor s) (selectedTipoAgente s)));
   ("selectedMarca", VStr (selectedMarca s));
   ("selectedCodigo", VStr (selectedCodigo s));
   ("selectedSegmento", VStr (selectedSegmento s));
   ("selectedTipoVenta", VStr (selectedTipoVenta s));
   ("rut", VStr (rut s));
   ("nombres", VStr (nombres s));
   ("apellidos", VStr (apellidos s));
   ("fechaNacimiento", VStr (fechaNacimiento s));
   ("numeroContacto", VStr (numeroContacto s));
   ("email", VStr (email s))]%string
  ++ (if str_eqb (selectedSegmento s) (lit "negocio")
      then [("nombreEmpresa", VStr (nombreEmpresa s));
            ("rutEmpresa", VStr (rutEmpresa s))]%string
      else [])
  ++ [("rutFrontalUrls", VArr (rutFrontalUrls s));
      ("rutPosteriorUrls", VArr (rutPosteriorUrls s));
      ("factibilidadUrls", VArr (factibilidadUrls s));
      ("otrosDocumentosUrls", VArr (otrosDocumentosUrls s));
      ("region", VStr (region s));
      ("comuna", VStr (comuna s));
      ("direccion", VStr (direccion s));
      ("hasInternet", VBool (hasInternet s));
      ("hasTelevision", VBool (hasTelevision s));
      ("hasTelefonia", VBool (hasTelefonia s));
      ("velocidadInternet", VStr (velocidadInternet s));
      ("tipoTelevision", VStr (tipoTelevision s));
      ("selectedPlan", VStr (selectedPlan s));
      ("selectedAdicionales", VArr (selectedAdicionales s));
      ("fechaAgendamiento", VStr (fechaAgendamiento s));
      ("tramoInstalacion", VStr (tramoInstalacion s));
      ("tipoCampana", VStr (tipoCampana s));
      ("comentarioVendedor", VStr (comentarioVendedor s));
      ("equipo", VStr (nombreEquipo s));
      ("emailEquipo", VStr (o_bien (userEmail s) []))]%string.

(** The [formData] that [handleFinalizar] hands to the confirmation
    page, which posts it as it is. *)
Definition handleFinalizar (s : Estado) : gmap string value :=
  list_to_map (campos s).

(** The plan section as the form shows it. *)
Definition planProps (s : Estado) : PlanSelector.Props :=
  PlanSelector.mkProps (selectedMarca s) (selectedSegmento s)
    (selectedTipoVenta s) (hasInternet s) (hasTelevision s) (hasTelefonia s)
    (velocidadInternet s) (tipoTelevision s).

Definition canContinuePlan (s : Estado) : bool :=
  if negb (hasInternet s) && negb (hasTelevision s) && negb (hasTelefonia s)
  then false
  else if str_eqb (selectedSegmento s) (lit "residencial") && hasInternet s
          && negb (PlanSelector.nonempty (velocidadInternet s))
  then false
  else if str_eqb (selectedSegmento s) (lit "residencial") && hasTelevision s
          && negb (PlanSelector.nonempty (tipoTelevision s))
  then false
  else if negb (PlanSelector.nonempty (selectedPlan s)) then false
  else true.

(** [formatFecha] of the confirmation page: [fecha.split('-')] read as
    year, month and day, a missing part printing as [undefined]. *)
Definition parte (partes : list jsstring) (i : nat) : jsstring :=
  match partes !! i with
  | Some p => p
  | None => lit "undefined"
  end.

Definition formatFecha (fecha : jsstring) : jsstring :=
  match fecha with
  | [] => []
  | _ =>
      let partes := split 45 fecha in
      parte partes 2 ++ lit "/" ++ parte partes 1 ++ lit "/" ++ parte partes 0
  end.

End Form.

(* ===================================================================== *)
(** * Sample data *)
(* ===================================================================== *)

Module Examples.

(** A residential customer asking for internet at 500MB and the Plus
    television tier. *)
Definition props_duo : PlanSelector.Props :=
  PlanSelector.mkProps (lit "VTR") (lit "residencial") (lit "nueva")
    true true false (lit "500MB") (lit "Plus").

(** A row of the seed data, with both discounts. *)
Definition plan_plus : PlanDB.t :=
  PlanDB.mk 13 (lit "2 play plus internet hogar") (lit "vtr") (lit "residencial")
    (lit "2_rgu") 41990 (Some 11000) (Some 15000) (lit "12 meses") 2
    true (Some (lit "500mb")) true (Some (lit "plus")) false true.

(** The same row once its discounts have been withdrawn. *)
Definition plan_sin_descuento : PlanDB.t :=
  PlanDB.mk 13 (lit "2 play plus internet hogar") (lit "vtr") (lit "residencial")
    (lit "2_rgu") 41990 (Some 0) None (lit "12 meses") 2
    true (Some (lit "500mb")) true (Some (lit "plus")) false true.

(** A runtime in which every payload decodes to a buffer of fifteen
    megabytes, and one in which it decodes to three bytes; a buffer is
    represented by its length. *)
Definition quince_megabytes (_ : jsstring) : Z := 15 * 1024 * 1024.
Definition tres_bytes (_ : jsstring) : Z := 3.
Definition texto_nativo (name : string) : jsstring :=
  if String.eqb name "__proto__" then lit "[object Object]"
  else lit "function "
       ++ lit (if String.eqb name "constructor" then "Object" else name)
       ++ lit "() { [native code] }".

Definition upload_env : UploadFile.Env :=
  UploadFile.mkEnv (lit "ebsa-documentos") (lit "2025-10-27T17:30:45.000Z")
    false None.

Definition upload_de (tipo : string) : UploadFile.Request :=
  UploadFile.mkRequest "POST" (Some (lit "data:image/jpeg;base64,/9j/4AAQ"))
    (Some (lit "cedula.jpg")) (Some (lit tipo)) (Some (lit "rut-frontal"))
    (Some (lit "12345678-9")) None.

(** A matching that ignores letter case and knows no wildcard. *)
Definition mismo_texto (pattern nombre : jsstring) : bool :=
  str_eqb (toLowerCase pattern) (toLowerCase nombre).

(** A complete residential order, seller Ana Perez, one add-on. *)
Definition pedido_ejemplo : gmap string value :=
  list_to_map
    [("selectedVendedor", VStr (lit "Ana Perez"));
     ("selectedCodigo", VStr (lit "EBSA01"));
     ("equipo", VStr (lit "Equipo Norte"));
     ("selectedMarca", VStr (lit "VTR"));
     ("selectedSegmento", VStr (lit "residencial"));
     ("rut", VStr (lit "12345678-9"));
     ("nombres", VStr (lit "Juan"));
     ("apellidos", VStr (lit "Soto"));
     ("selectedPlan", VStr (lit "Fibra Hogar"));
     ("selectedAdicionales", VArr [lit "Extensor Wifi"]);
     ("hasInternet", VBool true);
     ("hasTelevision", VBool false);
     ("hasTelefonia", VBool false)]%string.

Definition envio (test : option jsstring) : SubmitForm.Request :=
  SubmitForm.mkRequest "POST" test pedido_ejemplo.

Definition hora : SubmitForm.DateTime :=
  SubmitForm.mkDateTime 27 9 2025 14 30 45.

(** Both backends answer. *)
Definition todo_bien : SubmitForm.Env :=
  SubmitForm.mkEnv hora false None None None None None.

(** The relational insert answers with an error. *)
Definition supabase_caido : SubmitForm.Env :=
  SubmitForm.mkEnv hora false None None None None
    (Some (SubmitForm.mkPgError (lit "42501") (lit "permission denied")
             (lit "") (lit ""))).

(** A sheet of a thousand rows of which three hold an order, and the
    reference tables with the seller and the code of the example. *)
Definition hoja_con_espacio : SubmitForm.State :=
  SubmitForm.mkState
    [SubmitForm.mkTab (lit "Fijo_EBSA") 7 1000]
    (<[("Q"%string, 3) := VStr (lit "26/10/2025 10:00:00")]>
       (<[("Q"%string, 2) := VStr (lit "25/10/2025 10:00:00")]>
          (<[("Q"%string, 1) := VStr (lit "Marca temporal")]> (∅))))
    [lit "ana perez"; lit "luis rojas"] [lit "ebsa01"] [] [] [].

(** The example order sent in normal mode with both backends answering:
    the state it leaves, and the row it inserts. *)
Definition tras_envio : SubmitForm.State :=
  (SubmitForm.handler mismo_texto todo_bien (envio None) hoja_con_espacio).2.

Definition fila_escrita : list SubmitForm.Update :=
  default [] (head (SubmitForm.sheet_writes
                      (SubmitForm.issued hoja_con_espacio tras_envio))).

Definition fila_insertada : SubmitForm.Row :=
  default [] (head (SubmitForm.inserts
                      (SubmitForm.issued hoja_con_espacio tras_envio))).

(** A name as it is typed, and an afternoon at the name field. *)
Definition nombre_tecleado : jsstring := lit "jose maria".

Definition tecleo : list DatosSolicitante.Evento :=
  [DatosSolicitante.Change (lit "ana"); DatosSolicitante.Blur;
   DatosSolicitante.Change (lit "ana1"); DatosSolicitante.Blur].

(** The spreadsheet rejects the batch update. *)
Definition hoja_caida : SubmitForm.Env :=
  SubmitForm.mkEnv hora false None None None
    (Some (mkError (lit "Error") (lit "The caller does not have permission")
             (lit ""))) None.

(** The example order with its add-ons sent as one text. *)
Definition envio_malformado : SubmitForm.Request :=
  SubmitForm.mkRequest "POST" None
    (<["selectedAdicionales"%string := VStr (lit "Extensor Wifi")]> pedido_ejemplo).

Definition envio_get : SubmitForm.Request :=
  SubmitForm.mkRequest "GET" None pedido_ejemplo.

(** The form filled in for a residential customer, with the name of a
    company left over from an earlier attempt. *)
Definition estado_ejemplo : Form.Estado :=
  Form.mkEstado (lit "Ana Perez") (lit "Equipo Norte") (Some (lit "Contratado"))
    (lit "") (lit "VTR") (lit "EBSA01") (lit "residencial") (lit "nueva")
    (lit "12345678-9") (lit "Juan") (lit "Soto") (lit "1990-05-17")
    (lit "987654321") (lit "juan@example.com") (lit "Soto y Cia") (lit "76543210-k")
    [lit "https://ebsaspa.cl/rut-frontal/123456789-frontal.jpg"] [] [] []
    (lit "metropolitana") (lit "santiago") (lit "Av. Libertador 123")
    true true false (lit "500MB") (lit "Plus")
    (lit "2 Play Plus Internet Hogar (Descuento Nacional) - VTR")
    [lit "Extensor Wifi"] (lit "2025-10-30") (lit "1") (lit "puerta a puerta")
    (lit "") (Some (lit "norte@ebsaspa.cl")).

End Examples.

(* ===================================================================== *)
(** * Properties *)
(* ===================================================================== *)

(** ** Matching by derivatives decides the language of a pattern *)

Section RegexFacts.
Import Regex.

(** Take apart a membership whose pattern has a known head. *)
Ltac inv_lang :=
  repeat match goal with
         | H : lang Never _ |- _ => inversion H
         | H : lang Eps _ |- _ => inversion H; subst; clear H
         | H : lang (Class _) _ |- _ => inversion H; subst; clear H
         | H : lang (Cat _ _) _ |- _ => inversion H; subst; clear H
         | H : lang (Alt _ _) _ |- _ => inversion H; subst; clear H
         end.

Lemma nullable_lang (r : regex) : nullable r = true <-> lang r [].
Proof.
  split.
  - induction r; simpl; intros Hn; try discriminate.
    + constructor.
    + apply andb_prop in Hn as [H1 H2].
      apply (L_cat r1 r2 [] []); auto.
    + apply orb_prop in Hn as [H | H]; [apply L_alt_l | apply L_alt_r]; auto.
    + constructor.
  - intros H. remember [] as w eqn:Hw. induction H; simpl; auto; try discriminate.
    + apply app_eq_nil in Hw as [-> ->]. rewrite IHlang1, IHlang2; auto.
    + rewrite IHlang; auto.
    + rewrite IHlang; auto. apply orb_true_r.
Qed.

Lemma deriv_sound (c : N) (r : regex) :
  forall s, lang (deriv c r) s -> lang r (c :: s).
Proof.
  induction r; simpl; intros s H.
  - inv_lang.
  - inv_lang.
  - destruct (p c) eqn:Hp; inv_lang. constructor; auto.
  - destruct (nullable r1) eqn:Hn; inv_lang.
    + apply (L_cat r1 r2 (c :: _)); auto.
    + apply (L_cat r1 r2 [] (c :: s)); auto. apply nullable_lang; auto.
    + apply (L_cat r1 r2 (c :: _)); auto.
  - inv_lang; [apply L_alt_l | apply L_alt_r]; auto.
  - inv_lang. apply (L_star_cons r (c :: _)); auto.
Qed.

Lemma deriv_complete (r : regex) (w : jsstring) :
  lang r w -> forall c s, w = c :: s -> lang (deriv c r) s.
Proof.
  induction 1 as [ | p d Hp | r1 r2 s1 s2 H1 IH1 H2 IH2 | r1 r2 w H1 IH1
                 | r1 r2 w H2 IH2 | r | r s1 s2 H1 IH1 H2 IH2 ];
    intros c s Hw; simpl; try discriminate.
  - injection Hw as <- <-. rewrite Hp. constructor.
  - destruct s1 as [|d s1]; simpl in Hw.
    + subst s2. apply nullable_lang in H1. rewrite H1.
      apply L_alt_r. eauto.
    + injection Hw as -> <-.
      destruct (nullable r1); [apply L_alt_l |]; constructor; eauto.
  - apply L_alt_l; eauto.
  - apply L_alt_r; eauto.
  - destruct s1 as [|d s1]; simpl in Hw.
    + subst s2. eauto.
    + injection Hw as -> <-. constructor; eauto.
Qed.

Lemma test_lang (r : regex) (s : jsstring) : test r s = true <-> lang r s.
Proof.
  revert r. induction s as [|c s IH]; intros r; simpl.
  - apply nullable_lang.
  - rewrite IH. split.
    + apply deriv_sound.
    + intros H. eapply deriv_complete; eauto.
Qed.

Lemma lang_class (p : N -> bool) (s : jsstring) :
  lang (Class p) s <-> exists c, s = [c] /\ p c = true.
Proof.
  split.
  - intros H. inv_lang. eauto.
  - intros (c & -> & H). constructor; auto.
Qed.

Lemma lang_times_class (p : N -> bool) (n : nat) (s : jsstring) :
  lang (times n (Class p)) s <->
  length s = n /\ Forall (fun c => p c = true) s.
Proof.
  revert s. induction n as [|n IH]; intros s; simpl.
  - split.
    + intros H. inv_lang. auto.
    + intros [Hl _]. destruct s; [constructor | discriminate].
  - split.
    + intros H. inversion H as [ | | r1 r2 s1 s2 H1 H2 | | | | ]; subst.
      apply lang_class in H1 as (c & -> & Hc).
      apply IH in H2 as [Hl Hf]. simpl. split; [congruence | constructor; auto].
    + intros [Hl Hf]. destruct s as [|c s]; [discriminate |].
      inversion Hf; subst. apply (L_cat _ _ [c] s).
      * constructor; auto.
      * apply IH; split; auto.
Qed.

Lemma lang_between_class (p : N -> bool) (lo : nat) (s : jsstring) :
  lang (between lo (S lo) (Class p)) s <->
  (length s = lo \/ length s = S lo) /\ Forall (fun c => p c = true) s.
Proof.
  unfold between. replace (S lo - lo)%nat with 1%nat by lia. simpl. split.
  - intros H. inversion H as [ | | r1 r2 s1 s2 H1 H2 | | | | ]; subst; clear H.
    apply lang_times_class in H1 as [Hl Hf]. inv_lang.
    + rewrite app_nil_r. auto.
    + rewrite app_nil_r, length_app. simpl. split; [lia |].
      apply List.Forall_app. split; auto.
  - intros [[Hl | Hl] Hf].
    + rewrite <- (app_nil_r s). constructor.
      * apply lang_times_class; auto.
      * apply L_alt_l. constructor.
    + destruct (exists_last (l := s)) as (s' & c & ->).
      { intros ->. discriminate. }
      rewrite length_app in Hl. simpl in Hl.
      apply List.Forall_app in Hf as [Hf Hc]. inversion Hc; subst.
      constructor.
      * apply lang_times_class. split; [lia | auto].
      * apply L_alt_r. rewrite <- (app_nil_r [c]). constructor; constructor; auto.
Qed.

End RegexFacts.

(** ** Code units *)

Section CodeUnits.
Import Regex Validators.

(** Turn a boolean fact about code units into arithmetic. *)
Ltac to_arith :=
  unfold is_check_character, rut_char, is_digit, is_lower, is_upper,
    is_upper_latin1, is_lower_latin1, in_range, hyphen, letter_k, letter_K in *;
  repeat match goal with
         | H : _ |- _ =>
             progress rewrite ?orb_true_iff, ?orb_false_iff, ?andb_true_iff,
               ?andb_false_iff, ?negb_true_iff, ?negb_false_iff, ?N.leb_le,
               ?N.leb_gt, ?N.eqb_eq, ?N.eqb_neq in H
         end;
  rewrite ?orb_true_iff, ?orb_false_iff, ?andb_true_iff, ?andb_false_iff,
    ?negb_true_iff, ?negb_false_iff, ?N.leb_le, ?N.leb_gt, ?N.eqb_eq, ?N.eqb_neq.

Ltac case_map c :=
  unfold ignoreCase, lower_cu, upper_cu;
  destruct (is_upper c || is_upper_latin1 c) eqn:?;
  destruct (is_lower c || is_lower_latin1 c) eqn:?.

Lemma ignoreCase_digit (c : N) : ignoreCase is_digit c = is_digit c.
Proof.
  apply eq_true_iff_eq. case_map c; to_arith; lia.
Qed.

Lemma ignoreCase_hyphen (c : N) :
  ignoreCase (fun c => (c =? hyphen)%N) c = true <-> c = hyphen.
Proof.
  case_map c; to_arith; lia.
Qed.

Lemma ignoreCase_check (c : N) :
  ignoreCase (fun c => is_digit c || (c =? letter_k)%N) c = true
  <-> is_check_character c.
Proof.
  case_map c; to_arith; lia.
Qed.

Lemma lower_cu_rut_char (c : N) :
  rut_char c = true -> rut_char (lower_cu c) = true /\ lower_cu (lower_cu c) = lower_cu c.
Proof.
  unfold lower_cu.
  destruct (is_upper c || is_upper_latin1 c) eqn:Hc.
  - destruct (is_upper (c + 32) || is_upper_latin1 (c + 32)) eqn:Hd;
      to_arith; lia.
  - rewrite Hc. to_arith. lia.
Qed.

Lemma hyphen_not_rut_char : rut_char hyphen = false.
Proof. reflexivity. Qed.

End CodeUnits.

(** ** Validators and formatters *)

Section ValidatorFacts.
Import Regex Validators.

Lemma filter_fixed (p : N -> bool) (l : jsstring) :
  Forall (fun c => p c = true) l -> List.filter p l = l.
Proof.
  induction 1 as [|c l Hc _ IH]; simpl; [reflexivity |].
  rewrite Hc, IH. reflexivity.
Qed.

Lemma filter_all (p : N -> bool) (l : jsstring) :
  Forall (fun c => p c = true) (List.filter p l).
Proof.
  induction l as [|c l IH]; simpl; [constructor |].
  destruct (p c) eqn:Hc; [constructor; auto | auto].
Qed.

Lemma slice_prefix (s : jsstring) (n : nat) :
  slice s 0 (Some (Z.of_nat n)) = take n s.
Proof.
  unfold slice, rel_index. simpl.
  destruct (Z.ltb_spec (Z.of_nat n) 0); [lia |].
  replace (Z.min 0 (Z.of_nat (length s))) with 0 by lia.
  rewrite Z.sub_0_r. simpl. rewrite drop_0.
  destruct (Nat.le_gt_cases n (length s)).
  - f_equal. lia.
  - rewrite !take_ge by lia. reflexivity.
Qed.

Lemma slice_all_but_last (s : jsstring) :
  slice s 0 (Some (-1)) = take (length s - 1) s.
Proof.
  unfold slice, rel_index. simpl.
  replace (Z.min 0 (Z.of_nat (length s))) with 0 by lia.
  rewrite Z.sub_0_r. simpl. rewrite drop_0. f_equal. lia.
Qed.

Lemma slice_last (s : jsstring) :
  slice s (-1) None = drop (length s - 1) s.
Proof.
  unfold slice, rel_index. simpl.
  replace (Z.to_nat (Z.max (Z.of_nat (length s) + -1) 0)) with (length s - 1)%nat by lia.
  apply take_ge. rewrite length_drop. lia.
Qed.

Lemma cleaned_rut_of_input (v : jsstring) :
  cleaned_rut (toLowerCase (List.filter rut_char v)).
Proof.
  unfold cleaned_rut, toLowerCase. apply List.Forall_map.
  eapply List.Forall_impl; [| apply filter_all].
  intros c Hc. simpl. apply lower_cu_rut_char; auto.
Qed.

Lemma cleaned_rut_fixed (s : jsstring) :
  cleaned_rut s -> toLowerCase (List.filter rut_char s) = s.
Proof.
  intros H. rewrite filter_fixed.
  - unfold toLowerCase. induction H as [|c l [_ Hc] _ IH]; simpl; congruence.
  - eapply List.Forall_impl; [| exact H]. intros c [Hc _]. exact Hc.
Qed.

Lemma cleaned_rut_hyphenated (body dv : jsstring) :
  cleaned_rut (body ++ dv) ->
  toLowerCase (List.filter rut_char (body ++ [hyphen] ++ dv)) = body ++ dv.
Proof.
  intros H. rewrite <- (cleaned_rut_fixed _ H).
  rewrite !List.filter_app. reflexivity.
Qed.

Lemma formatRut_idempotent (v : jsstring) :
  formatRut (formatRut v) = formatRut v.
Proof.
  unfold formatRut at 2 3.
  pose proof (cleaned_rut_of_input v) as Hc.
  set (c := toLowerCase (List.filter rut_char v)) in *.
  cbv zeta. destruct (1 <? Z.of_nat (length c)) eqn:Hlen.
  - assert (Hsplit : slice c 0 (Some (-1)) ++ slice c (-1) None = c).
    { rewrite slice_all_but_last, slice_last. apply firstn_skipn. }
    unfold formatRut. rewrite cleaned_rut_hyphenated by (rewrite Hsplit; exact Hc).
    rewrite Hsplit. cbv zeta. rewrite Hlen. reflexivity.
  - unfold formatRut. rewrite (cleaned_rut_fixed c Hc). cbv zeta.
    rewrite Hlen. reflexivity.
Qed.

Lemma formatPhone_idempotent (v : jsstring) :
  formatPhone (formatPhone v) = formatPhone v.
Proof.
  unfold formatPhone. change 9 with (Z.of_nat 9). rewrite !slice_prefix.
  rewrite filter_fixed.
  - apply take_take.
  - apply Forall_take, filter_all.
Qed.

Lemma formatAddress_idempotent (v : jsstring) :
  formatAddress (formatAddress v) = formatAddress v.
Proof.
  unfold formatAddress. apply filter_fixed, filter_all.
Qed.

(** C3. [validateRut] answers [true] exactly on the strings made of
    seven or eight digits, a hyphen and a check character (a digit or
    the letter k, either case); every other string is answered
    [false]. *)
Theorem validateRut_accepts_exactly_rut_format (rut : jsstring) :
  (validateRut rut = true <-> rut_format rut)
  /\ (~ rut_format rut -> validateRut rut = false).
Proof.
  assert (Hiff : validateRut rut = true <-> rut_format rut).
  { unfold validateRut, rutRegex, rut_format. rewrite test_lang. split.
    - intros H. inversion H as [ | | r1 r2 s1 s2 H1 H2 | | | | ]; subst; clear H.
      apply (lang_between_class _ 7) in H1 as [Hl Hf].
      inversion H2 as [ | | r1 r2 s3 s4 H3 H4 | | | | ]; subst; clear H2.
      apply lang_class in H3 as (h & -> & Hh), H4 as (dv & -> & Hd).
      apply ignoreCase_hyphen in Hh as ->. apply ignoreCase_check in Hd.
      exists s1, dv. repeat split; auto.
      eapply List.Forall_impl; [| exact Hf]. intros c; cbv beta; rewrite ignoreCase_digit; auto.
    - intros (digits & dv & -> & Hl & Hf & Hd).
      constructor.
      + apply (lang_between_class _ 7). split; [exact Hl |].
        eapply List.Forall_impl; [| exact Hf]. intros c; cbv beta; rewrite ignoreCase_digit; auto.
      + apply (L_cat _ _ [hyphen] [dv]); constructor.
        * apply ignoreCase_hyphen. reflexivity.
        * apply ignoreCase_check. exact Hd. }
  split; [exact Hiff |].
  intros Hn. destruct (validateRut rut) eqn:Hv; [| reflexivity].
  exfalso. apply Hn, Hiff. reflexivity.
Qed.

(** C8. Formatting is idempotent: formatting an already formatted
    identity number, phone number or address changes nothing. *)
Theorem formatters_idempotent (v : jsstring) :
  formatRut (formatRut v) = formatRut v
  /\ formatPhone (formatPhone v) = formatPhone v
  /\ formatAddress (formatAddress v) = formatAddress v.
Proof.
  split; [apply formatRut_idempotent |].
  split; [apply formatPhone_idempotent | apply formatAddress_idempotent].
Qed.

End ValidatorFacts.

(** ** Plan filtering *)

Section PlanFacts.
Import PlanSelector.

Lemma push_all_flat_map {A B : Type} (f : A -> list B) (l : list A) (acc : list B) :
  fold_left (fun out x => out ++ f x) l acc = acc ++ flat_map f l.
Proof.
  revert acc. induction l as [|x l IH]; intros acc; simpl.
  - rewrite app_nil_r. reflexivity.
  - rewrite IH, <- app_assoc. reflexivity.
Qed.

Lemma filter_twice {A : Type} (f g : A -> bool) (l : list A) :
  List.filter g (List.filter f l) = List.filter (fun x => f x && g x) l.
Proof.
  induction l as [|x l IH]; simpl; [reflexivity |].
  destruct (f x); simpl; [destruct (g x) |]; rewrite IH; reflexivity.
Qed.

Lemma distinto_decide (col : option jsstring) (s : jsstring) :
  distinto col s = negb (bool_decide (col = Some s)).
Proof.
  destruct col as [c|]; simpl; [| reflexivity].
  unfold str_eqb. f_equal. apply bool_decide_ext. split; congruence.
Qed.

Lemma expandir_opciones (p : Props) (planDB : PlanDB.t) :
  expandir p planDB = opciones p planDB.
Proof.
  unfold expandir, opciones.
  destruct (tieneDescuento (PlanDB.descuento_nacional planDB)),
           (tieneDescuento (PlanDB.descuento_especial planDB)); reflexivity.
Qed.

Lemma opciones_length (p : Props) (planDB : PlanDB.t) :
  length (opciones p planDB) = Nat.max 1 (carried_discounts planDB).
Proof.
  unfold opciones, carried_discounts.
  destruct (tieneDescuento (PlanDB.descuento_nacional planDB)),
           (tieneDescuento (PlanDB.descuento_especial planDB)); reflexivity.
Qed.

Lemma categoria_duo (p : Props) :
  residencial_duo p -> categoriaBuscada p = lit "2_rgu".
Proof.
  intros (_ & Hi & Ht & Hf & Hv). unfold categoriaBuscada, serviciosActivos.
  rewrite Hi, Ht, Hf. unfold str_eqb. rewrite bool_decide_eq_false_2 by exact Hv.
  reflexivity.
Qed.

Lemma coincide_duo (p : Props) (planDB : PlanDB.t) :
  residencial_duo p ->
  str_eqb (PlanDB.categoria planDB) (categoriaBuscada p) && coincide p planDB
  = elegible p planDB.
Proof.
  intros H. rewrite (categoria_duo p H). destruct H as (Hs & Hi & Ht & Hf & _).
  unfold coincide, elegible. rewrite Hs, Hi, Ht, Hf, !distinto_decide.
  replace (str_eqb (lit "residencial") (lit "residencial")) with true by reflexivity.
  destruct (str_eqb (PlanDB.categoria planDB) (lit "2_rgu")),
           (PlanDB.internet_activo planDB), (PlanDB.television_activa planDB),
           (PlanDB.telefonia_activa planDB),
           (nonempty (velocidadInternet p)), (nonempty (tipoTelevision p)),
           (bool_decide (PlanDB.internet_velocidad planDB
                         = Some (toLowerCase (velocidadInternet p)))),
           (bool_decide (PlanDB.television_plan planDB
                         = Some (toLowerCase (tipoTelevision p))));
    reflexivity.
Qed.

(** C4, as amended.  For a residential customer with internet and
    television and without telephony, outside re-packaging, the options
    shown are, in the order of the loaded rows, those of the rows of
    category 2_rgu with exactly these service flags whose speed and TV
    tier equal the lower-cased selection (an empty selection is not
    compared); each such row gives one option per discount it carries,
    and a row that carries none gives one option, unchanged. *)
Theorem planesDisponibles_residencial_duo
    (planesDB : list PlanDB.t) (p : Props) :
  residencial_duo p ->
  planesDisponibles planesDB p
  = flat_map (opciones p) (List.filter (elegible p) planesDB)
  /\ (forall planDB, length (opciones p planDB)
                     = Nat.max 1 (carried_discounts planDB)).
Proof.
  intros H. split; [| intros planDB; apply opciones_length].
  transitivity
    (fold_left (fun out planDB => out ++ expandir p planDB)
       (List.filter (coincide p)
          (List.filter (fun plan => str_eqb (PlanDB.categoria plan) (categoriaBuscada p))
             planesDB)) []).
  { destruct planesDB; reflexivity. }
  rewrite push_all_flat_map, filter_twice. simpl app.
  rewrite (List.filter_ext _ (elegible p)) by (intros a; apply coincide_duo; exact H).
  apply flat_map_ext. intros a. apply expandir_opciones.
Qed.

End PlanFacts.

(** ** The submission handler *)

Section SubmitFacts.
Import SubmitForm.

Variable ilike : jsstring -> jsstring -> bool.

Lemma optional_join_run (x : value) (st : State) :
  optional_join x st
  = match joined x with
    | Some v => (Returned v, st)
    | None => (Thrown (TypeError "formData.selectedAdicionales?.join is not a function"), st)
    end.
Proof. destruct x; reflexivity. Qed.

Lemma trim_space : trim (lit " ") = [].
Proof. reflexivity. Qed.

Lemma single_some (rows : list jsstring) :
  (exists n, single rows = Some n) <-> (exists n, rows = [n]).
Proof.
  destruct rows as [|a [|b rows]]; simpl; split; intros [n H];
    try discriminate; eauto.
Qed.

(** A look-up adds at most one select, leaves both backends alone, and
    answers [true] exactly for a listed value. *)
Lemma en_lista_spec (table column : string) (contents : State -> list jsstring)
    (x : value) (found notFound blank : string) (st : State) :
  (forall c, contents (add_call c st) = contents st) ->
  match en_lista ilike table column contents x found notFound blank st with
  | (Returned b, st2) =>
      exists sel lines,
        st2 = mkState (tabs st) (grid st) (vendedores st) (codigos_vendedor st)
                (pedidos st) (calls st ++ sel) (console st ++ lines)
        /\ Forall is_select sel
        /\ (b = true <-> listed ilike x (contents st))
  | (Thrown e, st2) => st2 = st
  end.
Proof.
  intros Hcontents.
  assert (Hno : forall lines b, b = false -> ~ listed ilike x (contents st) ->
    exists sel lines',
      add_line lines st
      = mkState (tabs st) (grid st) (vendedores st) (codigos_vendedor st)
          (pedidos st) (calls st ++ sel) (console st ++ lines')
      /\ Forall is_select sel /\ (b = true <-> listed ilike x (contents st))).
  { intros l b -> Hn. exists [], [l]. destruct st; simpl. rewrite app_nil_r.
    split; [reflexivity |]. split; [constructor |].
    split; [discriminate | contradiction]. }
  unfold en_lista, filled_in.
  destruct x as [| | b | n | s | l]; simpl; try reflexivity;
    try (apply Hno; [reflexivity | intros (s' & Hs & _); discriminate]).
  - destruct b; simpl; [reflexivity |].
    apply Hno; [reflexivity | intros (s' & Hs & _); discriminate].
  - destruct (n =? 0); simpl; [| reflexivity].
    apply Hno; [reflexivity | intros (s' & Hs & _); discriminate].
  - destruct s as [|c s]; simpl.
    { apply Hno; [reflexivity |]. intros (s' & Hs & Ht & _).
      injection Hs as <-. apply Ht. reflexivity. }
    cbv beta iota zeta delta [mbind M_bind mret M_ret modify gets console_log
                              supabase_single].
    destruct (trim (c :: s)) as [|t ts] eqn:Htrim; simpl.
    { apply Hno; [reflexivity |]. intros (s' & Hs & Ht & _).
      injection Hs as <-. apply Ht. exact Htrim. }
    destruct (str_eqb (c :: s) (lit " ")) eqn:Hsp; simpl.
    { apply bool_decide_eq_true_1 in Hsp. rewrite Hsp, trim_space in Htrim.
      discriminate. }
    rewrite Hcontents.
    destruct (single (List.filter (ilike (c :: s)) (contents st)))
      as [n|] eqn:Hsingle.
    + exists [SelectSingle table column (c :: s)], [(Log, found)].
      split; [destruct st; reflexivity |].
      split; [repeat constructor |].
      split; [| reflexivity]. intros _. exists (c :: s).
      split; [reflexivity |]. split; [congruence |].
      apply single_some. eauto.
    + exists [SelectSingle table column (c :: s)], [(Log, notFound)].
      split; [destruct st; reflexivity |].
      split; [repeat constructor |].
      split; [discriminate |].
      intros (s' & Hs & _ & Hn). injection Hs as <-.
      apply single_some in Hn as [n Hn]. congruence.
Qed.

(** ** Every run of the handler is one of the described runs *)

Ltac unfold_ops H :=
  cbv beta iota zeta delta
    [mbind M_bind mret M_ret modify gets throw
     console_log console_error sheets_values_get sheets_get sheets_append_rows
     sheets_values_batchUpdate supabase_insert report_supabase_error
     add_call add_line set_tabs set_grid set_pedidos] in H.

Ltac reduce_in H :=
  cbn [calls grid tabs pedidos console vendedores codigos_vendedor may_fail
       negb] in H;
  cbv beta iota zeta delta [throw mret M_ret] in H;
  cbn [calls grid tabs pedidos console vendedores codigos_vendedor negb] in H.

(** The scrutinee the evaluation of [t] waits for. *)
Ltac redex t :=
  lazymatch t with
  | match ?x with _ => _ end => redex x
  | ?f _ =>
      lazymatch f with
      | match ?x with _ => _ end => redex x
      | _ => t
      end
  | _ => t
  end.

Ltac step H :=
  reduce_in H;
  lazymatch type of H with
  | _ = ?rhs =>
      let r := redex rhs in
      lazymatch r with
      | optional_join _ _ => rewrite optional_join_run in H
      | may_fail ?f _ => destruct f eqn:?
      | en_lista ?i ?t ?c ?k ?x ?a ?b ?d ?s =>
          let Hs := fresh "Hspec" in
          let s2 := fresh "st2" in
          pose proof (en_lista_spec t c k x a b d s (fun _ => eq_refl)) as Hs;
          destruct (en_lista i t c k x a b d s) as [[?|?] s2];
          [ destruct Hs as (? & ? & -> & ? & ?) | subst s2 ]
      | negb ?b => destruct b eqn:?
      | is_mode _ _ => destruct r eqn:?
      | joined _ => destruct r eqn:?
      | List.find _ _ => destruct r eqn:?
      | insert_error _ => destruct r eqn:?
      end
  end.

Lemma modes_exclusive (testMode : option jsstring) (a b : string) :
  is_mode testMode a = true -> is_mode testMode b = true -> lit a = lit b.
Proof.
  destruct testMode as [m|]; simpl; [| discriminate].
  unfold str_eqb. intros Ha Hb.
  apply bool_decide_eq_true_1 in Ha, Hb. congruence.
Qed.

Ltac solve_reaches :=
  unfold reaches, readsOf, expansionOf, tabsAfter, fijoSheetOf, gridAfter,
    writesOf, updatesOf, nextRowOf, rguOf;
  cbn [calls grid tabs pedidos console vendedores codigos_vendedor];
  repeat match goal with
         | H : List.find _ _ = _ |- _ => rewrite H
         | H : is_mode _ _ = _ |- _ => rewrite H
         end;
  rewrite ?app_nil_r, <- ?app_assoc;
  repeat split; try reflexivity; try (eexists; reflexivity).

Ltac find_line :=
  first [ solve [left; reflexivity]
        | apply in_or_app; first [ right; find_line | left; find_line ] ].

Ltac solve_side :=
  lazymatch goal with
  | |- reaches _ _ _ _ _ _ => solve_reaches
  | |- Forall _ [] => constructor
  | |- Forall _ (_ ++ _) => apply List.Forall_app; split; assumption
  | |- Forall _ _ => assumption
  | |- In (_, _) (console _) => cbn [console]; find_line
  | |- In _ _ => cbn [In]; auto 10
  | |- _ <-> _ => assumption
  | |- _ -> _ => intros; first [assumption | congruence]
  | |- _ = _ => first [eassumption | reflexivity]
  end.

Ltac close_leaf :=
  repeat match goal with
         | H : _ <-> listed _ _ _ |- _ =>
             progress cbn [calls grid tabs pedidos console vendedores
                           codigos_vendedor] in H
         end;
  lazymatch goal with
  | H1 : is_mode ?m _ = true, H2 : is_mode ?m _ = true |- _ =>
      exfalso; pose proof (modes_exclusive _ _ _ H1 H2); discriminate
  | H : is_mode _ "validation" = true |- _ =>
      apply Run_validation; solve_side
  | He : insert_error _ = None
    |- Run _ ?env ?req ?st _ (mkState _ _ _ _ _
         (((_ ++ ?x) ++ ?y) ++ [Insert _ (pedidoRow _ _ _ ?v (if ?a then _ else _)
                                            (if ?b then _ else _) _)]) _) =>
      let R := fresh "R" in
      pose proof (Run_stored ilike env req st v (x ++ y) a b) as R;
      unfold respuesta_final, kept in R;
      repeat match goal with
             | H : is_mode _ _ = _ |- _ => rewrite H in R
             end;
      eapply R; solve_side
  | He : insert_error _ = Some ?e
    |- Run _ ?env ?req ?st _ (mkState _ _ _ _ _
         (((_ ++ ?x) ++ ?y) ++ [Insert _ (pedidoRow _ _ _ ?v (if ?a then _ else _)
                                            (if ?b then _ else _) _)]) _) =>
      let R := fresh "R" in
      pose proof (Run_insert_failed ilike env req st v (x ++ y) a b e) as R;
      unfold respuesta_final, kept in R;
      repeat match goal with
             | H : is_mode _ _ = _ |- _ => rewrite H in R
             end;
      eapply R; solve_side
  | H : is_mode _ "sheets" = true |- _ =>
      eapply Run_sheets_only; solve_side
  | |- Run _ ?env ?req ?st (respuesta_error _ ?e) _ =>
      first
        [ solve [eapply (Run_aborted ilike env req st e []); solve_side]
        | solve [eapply (Run_aborted ilike env req st e [ValuesGet "Fijo_EBSA!Q:Q"]);
                 solve_side]
        | solve [eapply (Run_aborted ilike env req st e
                           [ValuesGet "Fijo_EBSA!Q:Q"; SpreadsheetGet]);
                 solve_side]
        | solve [eapply (Run_aborted ilike env req st e (readsOf st)); solve_side]
        | solve [eapply Run_write_failed; solve_side]
        | match goal with
          | H : Forall is_select ?x |- _ =>
              solve [eapply (Run_lookup_failed ilike env req st _ e x);
                     solve_side]
          | |- _ =>
              solve [eapply (Run_lookup_failed ilike env req st _ e []);
                     solve_side]
          end ]
  end.

Lemma handler_Run (env : Env) (req : Request) (st : State) :
  method req = "POST"%string ->
  Run ilike env req st (handler ilike env req st).1 (handler ilike env req st).2.
Proof.
  intros Hm. remember (handler ilike env req st) as out eqn:Hrun.
  unfold handler in Hrun. rewrite Hm in Hrun.
  change ("POST" =? "OPTIONS")%string with false in Hrun.
  change (negb ("POST" =? "POST")%string) with false in Hrun.
  cbv beta iota in Hrun. unfold procesar in Hrun. unfold_ops Hrun.
  repeat step Hrun.
  all: reduce_in Hrun.
  all: subst out; cbn [fst snd].
  all: close_leaf.
Qed.

Lemma handler_other_method (env : Env) (req : Request) (st : State) :
  method req <> "POST"%string -> (handler ilike env req st).2 = st.
Proof.
  intros Hm. unfold handler.
  destruct (String.eqb_spec (method req) "OPTIONS"); [reflexivity |].
  destruct (String.eqb_spec (method req) "POST"); [contradiction | reflexivity].
Qed.

(** ** Reading the calls of a run *)

Lemma issued_app (st st' : State) (cs : list Call) :
  calls st' = calls st ++ cs -> issued st st' = cs.
Proof. intros H. unfold issued. rewrite H. apply drop_app_length. Qed.

Lemma issued_none (st : State) : issued st st = [].
Proof. unfold issued. apply drop_all. Qed.

Lemma sheet_writes_app (a b : list Call) :
  sheet_writes (a ++ b) = sheet_writes a ++ sheet_writes b.
Proof. apply flat_map_app. Qed.

Lemma inserts_app (a b : list Call) : inserts (a ++ b) = inserts a ++ inserts b.
Proof. apply flat_map_app. Qed.

Lemma expansions_app (a b : list Call) :
  expansions (a ++ b) = expansions a ++ expansions b.
Proof. apply flat_map_app. Qed.

Lemma selects_only (sel : list Call) :
  Forall is_select sel ->
  sheet_writes sel = [] /\ inserts sel = [] /\ expansions sel = []
  /\ (forall t r, ~ In (Insert t r) sel)
  /\ (forall d, ~ In (ValuesBatchUpdate d) sel).
Proof.
  induction 1 as [|c sel Hc _ (Hw & Hi & He & Hni & Hnw)].
  - repeat split; auto.
  - destruct c; try contradiction. simpl. repeat split; auto.
    + intros t r [H | H]; [discriminate | eapply Hni; eauto].
    + intros d [H | H]; [discriminate | eapply Hnw; eauto].
Qed.

Lemma reads_only (st : State) :
  sheet_writes (readsOf st) = [] /\ inserts (readsOf st) = []
  /\ expansions (readsOf st)
     = match fijoSheetOf st with
       | Some sheet => [(sheetId sheet, 1)]
       | None => []
       end
  /\ (forall t r, ~ In (Insert t r) (readsOf st))
  /\ (forall d, ~ In (ValuesBatchUpdate d) (readsOf st)).
Proof.
  unfold readsOf, expansionOf. destruct (fijoSheetOf st); simpl;
    repeat split; auto; intros; intuition discriminate.
Qed.

End SubmitFacts.


(** ** What the runs say about the claims *)

Section SubmitClaims.
Import SubmitForm.

Variable ilike : jsstring -> jsstring -> bool.

(** Name the parts of [reaches] and the calls the run issued. *)
Ltac open_reaches H :=
  let Ht := fresh "Htabs" in
  let Hg := fresh "Hgrid" in
  let Hp := fresh "Hpedidos" in
  let Hc := fresh "Hcalls" in
  let Hv := fresh "Hvend" in
  let Hk := fresh "Hcod" in
  let Hl := fresh "Hlines" in
  let Hi := fresh "Hissued" in
  destruct H as (Ht & Hg & Hp & Hc & Hv & Hk & Hl);
  pose proof (issued_app _ _ _ Hc) as Hi.

Ltac split_in H :=
  repeat (rewrite in_app_iff in H; cbn [In] in H).

(** An insertion is issued only by a run that got through both
    look-ups, and its row is the one built from the form. *)
Lemma insert_in_run (env : Env) (req : Request) (st : State)
    (res : Response) (st' : State) (t : string) (r : Row) :
  Run ilike env req st res st' ->
  In (Insert t r) (issued st st') ->
  exists adicionales vendedorExists codigoExists,
    r = pedidoRow (body req) (rguOf (body req)) (nextRowOf st) adicionales
          (kept vendedorExists (get (body req) "selectedVendedor"))
          (kept codigoExists (get (body req) "selectedCodigo"))
          (kept vendedorExists (get (body req) "equipo"))
    /\ (vendedorExists = true <->
        listed ilike (get (body req) "selectedVendedor") (vendedores st))
    /\ inserts (issued st st') = [r].
Proof.
  intros HR Hin.
  destruct HR as [ st' _ Hre | e cs st' _ Hcs Hre | ad e st' _ _ _ _ Hre
                 | ad st' _ _ _ _ data Hre | ad e sel st' _ _ _ _ Hsel data Hre
                 | ad sel bV bC e st' _ _ _ _ Hsel HV _ _ data r0 Hre _
                 | ad sel bV bC st' _ _ _ _ Hsel HV _ _ data r0 stored Hre ];
    try subst stored; try subst r0; try subst data;
    open_reaches Hre; rewrite Hissued in *;
    pose proof (reads_only st) as (_ & Hri & _ & Hrn & _).
  - contradiction.
  - exfalso. cbn [In] in Hcs.
    destruct Hcs as [Hcs | [Hcs | [Hcs | [Hcs | []]]]]; subst cs;
      cbn [In] in Hin; try solve [intuition discriminate]. eapply Hrn; eauto.
  - exfalso. split_in Hin. destruct Hin as [H | [H | []]];
      [eapply Hrn; eauto | discriminate].
  - exfalso. split_in Hin. destruct Hin as [H | [H | []]];
      [eapply Hrn; eauto | discriminate].
  - exfalso. apply selects_only in Hsel as (_ & _ & _ & Hsn & _).
    unfold writesOf in Hin. split_in Hin.
    destruct Hin as [H | [H | H]]; [eapply Hrn; eauto | | eapply Hsn; eauto].
    destruct (is_mode (testModeOf req) "supabase"); cbn [In] in H;
      intuition discriminate.
  - apply selects_only in Hsel as (_ & Hsi & _ & Hsn & _).
    unfold writesOf in *. split_in Hin.
    destruct Hin as [H | [H | [H | [H | []]]]];
      [exfalso; eapply Hrn; eauto | exfalso | exfalso; eapply Hsn; eauto |].
    + destruct (is_mode (testModeOf req) "supabase"); cbn [In] in H;
        intuition discriminate.
    + injection H as <- <-. do 3 eexists. split; [reflexivity |].
      split; [exact HV |]. rewrite !inserts_app, Hri, Hsi.
      destruct (is_mode (testModeOf req) "supabase"); reflexivity.
  - apply selects_only in Hsel as (_ & Hsi & _ & Hsn & _).
    unfold writesOf in *. split_in Hin.
    destruct Hin as [H | [H | [H | [H | []]]]];
      [exfalso; eapply Hrn; eauto | exfalso | exfalso; eapply Hsn; eauto |].
    + destruct (is_mode (testModeOf req) "supabase"); cbn [In] in H;
        intuition discriminate.
    + injection H as <- <-. do 3 eexists. split; [reflexivity |].
      split; [exact HV |]. rewrite !inserts_app, Hri, Hsi.
      destruct (is_mode (testModeOf req) "supabase"); reflexivity.
Qed.

(** The same for the handler itself, whatever the method. *)
Lemma insert_in_handler (env : Env) (req : Request) (st : State)
    (t : string) (r : Row) :
  In (Insert t r) (issued st (handler ilike env req st).2) ->
  exists adicionales vendedorExists codigoExists,
    r = pedidoRow (body req) (rguOf (body req)) (nextRowOf st) adicionales
          (kept vendedorExists (get (body req) "selectedVendedor"))
          (kept codigoExists (get (body req) "selectedCodigo"))
          (kept vendedorExists (get (body req) "equipo"))
    /\ (vendedorExists = true <->
        listed ilike (get (body req) "selectedVendedor") (vendedores st))
    /\ inserts (issued st (handler ilike env req st).2) = [r].
Proof.
  intros Hin. destruct (String.eqb_spec (method req) "POST") as [Hm | Hm].
  - eapply insert_in_run; [apply handler_Run; exact Hm | exact Hin].
  - rewrite (handler_other_method ilike env req st Hm), issued_none in Hin.
    contradiction.
Qed.




Lemma listed_seller (formData : gmap string value) (st : State) :
  listed ilike (get formData "selectedVendedor") (vendedores st) ->
  ~ seller_blank formData /\ seller_found ilike formData st.
Proof.
  intros (s & Hs & Ht & n & Hn). split.
  - intros [Hb | (s' & Hs' & Ht')].
    + rewrite Hs in Hb. destruct s; [apply Ht; reflexivity | discriminate].
    + rewrite Hs in Hs'. injection Hs' as <-. contradiction.
  - exists n. rewrite Hs. simpl.
    assert (Hin : In n (List.filter (ilike s) (vendedores st))).
    { rewrite Hn. left. reflexivity. }
    apply List.filter_In in Hin. exact Hin.
Qed.

(** C10. The [equipo_id] of a row handed to [pedidos] is the submitted
    [equipo] only when the seller name is not blank and matches a row of
    [vendedores]; when the name is blank or matches no row, [equipo_id]
    is [null], whatever [equipo] the form carried. *)
Theorem equipo_only_for_listed_seller (env : Env) (req : Request) (st : State)
    (r : Row) :
  In (Insert "pedidos" r) (issued st (handler ilike env req st).2) ->
  (prop r "equipo_id" = VNull
   \/ (prop r "equipo_id" = get (body req) "equipo"
       /\ ~ seller_blank (body req)
       /\ seller_found ilike (body req) st))
  /\ (seller_blank (body req) \/ ~ seller_found ilike (body req) st ->
      prop r "equipo_id" = VNull).
Proof.
  intros Hin. apply insert_in_handler in Hin as (ad & bV & bC & -> & HV & _).
  change (prop (pedidoRow _ _ _ _ _ _ _) "equipo_id")
    with (kept bV (get (body req) "equipo")).
  destruct bV; simpl.
  - destruct (listed_seller (body req) st) as [Hnb Hf]; [apply HV; reflexivity |].
    split; [right; auto |]. intros [Hb | Hn]; contradiction.
  - split; [left; reflexivity | reflexivity].
Qed.

(** ** Validation mode *)



(** ** The spreadsheet write and the expansion before it *)

Lemma updates_rows (env : Env) (formData : gmap string value)
    (adicionales : value) (nextRow : Z) :
  Forall (fun u => row u = nextRow)
    (updatesOf env formData adicionales nextRow).
Proof.
  unfold updatesOf. apply List.Forall_map, List.Forall_forall. reflexivity.
Qed.

(** A values batch update is issued only after the two reads and the
    expansion that goes with the tab, and carries the cells of the
    submission. *)
Lemma write_in_run (env : Env) (req : Request) (st : State)
    (res : Response) (st' : State) (data : list Update) :
  Run ilike env req st res st' ->
  In (ValuesBatchUpdate data) (issued st st') ->
  exists adicionales rest,
    data = updatesOf env (body req) adicionales (nextRowOf st)
    /\ issued st st' = readsOf st ++ [ValuesBatchUpdate data] ++ rest
    /\ expansions rest = [].
Proof.
  intros HR Hin.
  destruct HR as [ st' _ Hre | e cs st' _ Hcs Hre | ad e st' _ _ _ _ Hre
                 | ad st' _ _ _ _ dat Hre | ad e sel st' _ _ _ _ Hsel dat Hre
                 | ad sel bV bC e st' _ _ _ _ Hsel HV _ _ dat r0 Hre _
                 | ad sel bV bC st' _ _ _ _ Hsel HV _ _ dat r0 stored Hre ];
    try subst stored; try subst r0; try subst dat;
    open_reaches Hre; rewrite Hissued in *;
    pose proof (reads_only st) as (_ & _ & _ & _ & Hrn).
  - contradiction.
  - exfalso. cbn [In] in Hcs.
    destruct Hcs as [Hcs | [Hcs | [Hcs | [Hcs | []]]]]; subst cs;
      cbn [In] in Hin; try solve [intuition discriminate]. eapply Hrn; eauto.
  - split_in Hin. destruct Hin as [H | [H | []]]; [exfalso; eapply Hrn; eauto |].
    injection H as <-. exists ad, []. repeat split; reflexivity.
  - split_in Hin. destruct Hin as [H | [H | []]]; [exfalso; eapply Hrn; eauto |].
    injection H as <-. exists ad, []. repeat split; reflexivity.
  - apply selects_only in Hsel as (_ & _ & Hse & _ & Hsn).
    unfold writesOf in *. destruct (is_mode (testModeOf req) "supabase");
      split_in Hin.
    + exfalso. destruct Hin as [H | [H | H]];
        [eapply Hrn; eauto | contradiction | eapply Hsn; eauto].
    + destruct Hin as [H | [[H | []] | H]];
        [exfalso; eapply Hrn; eauto | | exfalso; eapply Hsn; eauto].
      injection H as <-. exists ad, sel. repeat split; auto.
  - apply selects_only in Hsel as (_ & _ & Hse & _ & Hsn).
    unfold writesOf in *. destruct (is_mode (testModeOf req) "supabase");
      split_in Hin.
    + exfalso. destruct Hin as [H | [H | [H | [H | []]]]];
        [eapply Hrn; eauto | contradiction | eapply Hsn; eauto | discriminate].
    + destruct Hin as [H | [[H | []] | [H | [H | []]]]];
        [exfalso; eapply Hrn; eauto | | exfalso; eapply Hsn; eauto | discriminate].
      injection H as <-. eexists ad, (sel ++ [_]). repeat split; auto.
      rewrite expansions_app, Hse. reflexivity.
  - apply selects_only in Hsel as (_ & _ & Hse & _ & Hsn).
    unfold writesOf in *. destruct (is_mode (testModeOf req) "supabase");
      split_in Hin.
    + exfalso. destruct Hin as [H | [H | [H | [H | []]]]];
        [eapply Hrn; eauto | contradiction | eapply Hsn; eauto | discriminate].
    + destruct Hin as [H | [[H | []] | [H | [H | []]]]];
        [exfalso; eapply Hrn; eauto | | exfalso; eapply Hsn; eauto | discriminate].
      injection H as <-. eexists ad, (sel ++ [_]). repeat split; auto.
      rewrite expansions_app, Hse. reflexivity.
Qed.

(** C7, as amended.  Whenever the handler writes the row, it has read
    column Q and the spreadsheet metadata first, and between those reads
    and the write it has asked for exactly one more row if the tab
    [Fijo_EBSA] exists, and for none if it does not, whatever the row
    count of the tab; the cells written are all in the row one past the
    entries read from column Q. *)
Theorem expansion_whenever_tab_exists (env : Env) (req : Request) (st : State)
    (data : list Update) :
  method req = "POST"%string ->
  let st' := (handler ilike env req st).2 in
  In (ValuesBatchUpdate data) (issued st st') ->
  (exists rest,
     issued st st'
     = [ValuesGet "Fijo_EBSA!Q:Q"; SpreadsheetGet]
       ++ match fijoSheetOf st with
          | Some sheet => [AppendRows (sheetId sheet) 1]
          | None => []
          end
       ++ [ValuesBatchUpdate data] ++ rest)
  /\ expansions (issued st st')
     = match fijoSheetOf st with
       | Some sheet => [(sheetId sheet, 1)]
       | None => []
       end
  /\ Forall (fun u => row u
                      = Z.of_nat (length (default [] (column_values "Q" (grid st))))
                        + 1) data.
Proof.
  intros Hm st' Hin. subst st'.
  pose proof (handler_Run ilike env req st Hm) as HR.
  destruct (write_in_run _ _ _ _ _ _ HR Hin) as (ad & rest & -> & Hiss & Hex).
  pose proof (reads_only st) as (_ & _ & Hre & _ & _).
  split; [| split].
  - exists rest. rewrite Hiss. unfold readsOf, expansionOf.
    rewrite <- !app_assoc. reflexivity.
  - rewrite Hiss, !expansions_app, Hre, Hex. cbn [expansions flat_map].
    rewrite !app_nil_r. reflexivity.
  - apply updates_rows.
Qed.

(** ** Normal mode: the two writes *)

Lemma write_frame (data : list Update) (g : gmap (string * Z) value)
    (key : string * Z) :
  ~ In key (List.map (fun u => (column u, row u)) data) ->
  fold_left write_cell data g !! key = g !! key.
Proof.
  revert g. induction data as [|u data IH]; intros g Hn; simpl; [reflexivity |].
  rewrite IH by (intros H; apply Hn; right; exact H).
  unfold write_cell. apply lookup_insert_ne.
  intros H. apply Hn. left. exact H.
Qed.

Lemma write_readable (data : list Update) (g : gmap (string * Z) value)
    (u : Update) :
  List.NoDup (List.map (fun u => (column u, row u)) data) ->
  In u data ->
  fold_left write_cell data g !! (column u, row u) = Some (cell u).
Proof.
  revert g. induction data as [|u0 data IH]; intros g Hnd Hin; [contradiction |].
  simpl in Hnd. apply List.NoDup_cons_iff in Hnd as [Hfresh Hnd].
  destruct Hin as [-> | Hin]; simpl.
  - rewrite write_frame by exact Hfresh. unfold write_cell.
    apply lookup_insert_eq.
  - apply IH; assumption.
Qed.

Lemma columns_distinct (formData : gmap string value) (timestamp : jsstring)
    (rgu : Z) (adicionales : value) :
  List.NoDup (List.map fst (columnData formData timestamp rgu adicionales)).
Proof.
  unfold columnData. cbn [List.map fst].
  apply NoDup_ListNoDup. apply (bool_decide_unpack _). vm_compute. exact I.
Qed.

Lemma updates_distinct (env : Env) (formData : gmap string value)
    (adicionales : value) (nextRow : Z) :
  List.NoDup (List.map (fun u => (column u, row u))
                (updatesOf env formData adicionales nextRow)).
Proof.
  unfold updatesOf. rewrite List.map_map. cbn [column row].
  rewrite <- (List.map_map fst (fun c => (c, nextRow))).
  apply Finite.Injective_map_NoDup; [| apply columns_distinct].
  intros a b H. congruence.
Qed.

Lemma updates_nonempty (env : Env) (formData : gmap string value)
    (adicionales : value) (nextRow : Z) :
  updatesOf env formData adicionales nextRow <> [].
Proof. unfold updatesOf, columnData. cbn [List.map]. discriminate. Qed.



(** Outside mode [supabase], a run that issues the insertion has
    written the row to the spreadsheet first; it ends with the order
    stored or with the error of the relational store reported. *)
Lemma run_with_insert (env : Env) (req : Request) (st : State)
    (res : Response) (st' : State) :
  Run ilike env req st res st' ->
  is_mode (testModeOf req) "supabase" = false ->
  inserts (issued st st') <> [] ->
  exists adicionales selects vendedorExists codigoExists,
    let data := updatesOf env (body req) adicionales (nextRowOf st) in
    let vendedor := kept vendedorExists (get (body req) "selectedVendedor") in
    let codigo := kept codigoExists (get (body req) "selectedCodigo") in
    let r := pedidoRow (body req) (rguOf (body req)) (nextRowOf st) adicionales
               vendedor codigo (kept vendedorExists (get (body req) "equipo")) in
    let stored := ("id"%string, VNum (Z.of_nat (length (pedidos st)) + 1))
                  :: List.filter is_defined r in
    joined (get (body req) "selectedAdicionales") = Some adicionales
    /\ Forall is_select selects
    /\ values_update_fails env = None
    /\ issued st st'
       = readsOf st ++ [ValuesBatchUpdate data] ++ selects ++ [Insert "pedidos" r]
    /\ grid st' = fold_left write_cell data (grid st)
    /\ ((exists error, insert_error env = Some error
                       /\ pedidos st' = pedidos st
                       /\ res = respuesta_final env (testModeOf req) None vendedor codigo
                       /\ In (Error, "=== ERROR AL GUARDAR EN SUPABASE ==="%string)
                             (console st'))
        \/ (insert_error env = None
            /\ pedidos st' = pedidos st ++ [stored]
            /\ res = respuesta_final env (testModeOf req) (Some stored) vendedor codigo)).
Proof.
  intros HR Hmode Hins.
  destruct HR as [ st' Hv Hre | e cs st' _ Hcs Hre | ad e st' _ _ _ _ Hre
                 | ad st' _ _ Hv _ dat Hre | ad e sel st' _ _ _ _ Hsel dat Hre
                 | ad sel bV bC e st' _ Hj _ Hw Hsel HV _ He dat r0 Hre Hline
                 | ad sel bV bC st' _ Hj _ Hw Hsel HV _ He dat r0 stored Hre ];
    try subst stored; try subst r0; try subst dat;
    unfold writesOf, gridAfter in *; rewrite ?Hmode in *;
    open_reaches Hre; rewrite Hissued in *;
    pose proof (reads_only st) as (_ & Hri & _ & _ & _).
  - exfalso. apply Hins. reflexivity.
  - exfalso. apply Hins. cbn [In] in Hcs.
    destruct Hcs as [Hcs | [Hcs | [Hcs | [Hcs | []]]]]; subst cs;
      first [reflexivity | exact Hri].
  - exfalso. apply Hins. rewrite inserts_app, Hri. reflexivity.
  - exfalso. apply Hins. rewrite inserts_app, Hri. reflexivity.
  - exfalso. apply Hins. apply selects_only in Hsel as (_ & Hsi & _).
    rewrite !inserts_app, Hri, Hsi. reflexivity.
  - exists ad, sel, bV, bC. cbv zeta.
    split; [exact Hj |]. split; [exact Hsel |].
    split; [apply Hw; reflexivity |]. split; [reflexivity |].
    split; [exact Hgrid |]. left. exists e. auto.
  - exists ad, sel, bV, bC. cbv zeta.
    split; [exact Hj |]. split; [exact Hsel |].
    split; [apply Hw; reflexivity |]. split; [reflexivity |].
    split; [exact Hgrid |]. right. auto.
Qed.

Lemma writes_of_run (st : State) (data : list Update)
    (selects : list Call) (r : Row) :
  Forall is_select selects ->
  sheet_writes (readsOf st ++ [ValuesBatchUpdate data] ++ selects
                ++ [Insert "pedidos" r]) = [data]
  /\ inserts (readsOf st ++ [ValuesBatchUpdate data] ++ selects
              ++ [Insert "pedidos" r]) = [r].
Proof.
  intros Hsel. apply selects_only in Hsel as (Hsw & Hsi & _).
  pose proof (reads_only st) as (Hrw & Hri & _).
  rewrite !sheet_writes_app, !inserts_app, Hrw, Hri, Hsw, Hsi. split; reflexivity.
Qed.


(** C2. Outside mode [supabase] (so in normal mode), when the row has
    been written to the spreadsheet and the relational insert then
    answers with an error, the handler reports the error on the console,
    throws nothing, and answers 200 with [success: true] and no
    [pedidoId]; no order is stored, and the cells written to the
    spreadsheet are still there. *)
Theorem failed_insert_is_tolerated (env : Env) (req : Request) (st : State)
    (error : PgError) :
  method req = "POST"%string ->
  is_mode (testModeOf req) "supabase" = false ->
  insert_error env = Some error ->
  let out := handler ilike env req st in
  inserts (issued st out.2) <> [] ->
  status out.1 = 200
  /\ field out.1 "success" = Some (VBool true)
  /\ field out.1 "pedidoId" = None
  /\ In (Error, "=== ERROR AL GUARDAR EN SUPABASE ==="%string) (console out.2)
  /\ pedidos out.2 = pedidos st
  /\ values_update_fails env = None
  /\ exists data,
       sheet_writes (issued st out.2) = [data]
       /\ data <> []
       /\ forall u, In u data -> grid out.2 !! (column u, row u) = Some (cell u).
Proof.
  intros Hm Hmode He out Hins. subst out.
  pose proof (handler_Run ilike env req st Hm) as HR.
  destruct (handler ilike env req st) as [res st']. cbn [fst snd] in *.
  destruct (run_with_insert _ _ _ _ _ HR Hmode Hins)
    as (ad & sel & bV & bC & Hj & Hsel & Hw & Hiss & Hgrid & Hend).
  cbv zeta in *.
  destruct Hend as [(e & _ & Hped & -> & Hline) | (He' & _)]; [| congruence].
  pose proof (fun d r => writes_of_run st d sel r Hsel) as Hwr.
  unfold respuesta_final. rewrite Hmode.
  split; [reflexivity |]. split; [reflexivity |]. split; [reflexivity |].
  split; [exact Hline |]. split; [exact Hped |]. split; [exact Hw |].
  eexists. rewrite Hiss. split; [apply (proj1 (Hwr _ _)) |].
  split; [apply updates_nonempty |].
  intros u Hu. rewrite Hgrid. apply write_readable; [apply updates_distinct | exact Hu].
Qed.

End SubmitClaims.

(* ===================================================================== *)
(** * The upload handler *)
(* ===================================================================== *)

Section UploadFacts.

Import UploadFile.

Variable Buffer : Type.
Variable Buffer_from_base64 : jsstring -> Buffer.
Variable Buffer_length : Buffer -> Z.
Variable builtin_text : string -> jsstring.

Local Abbreviation run := (handler Buffer Buffer_from_base64 Buffer_length builtin_text).
Local Abbreviation size_of := (decoded_length Buffer Buffer_from_base64 Buffer_length).

Lemma find_existsb {A : Type} (f : A -> bool) (l : list A) :
  existsb f l = bool_decide (List.find f l <> None).
Proof.
  induction l as [|a l IH]; simpl; [reflexivity |].
  destruct (f a); simpl; [reflexivity | exact IH].
Qed.

Lemma lookup_own {A : Type} (own : list (string * A)) (key : jsstring) :
  existsb (fun kv => str_eqb (lit (fst kv)) key) own = true ->
  exists a, lookup own key = Own a.
Proof.
  rewrite find_existsb. intros H. apply bool_decide_eq_true in H.
  unfold lookup. destruct (List.find _ own) as [kv|]; [eauto | congruence].
Qed.

Lemma lookup_absent {A : Type} (own : list (string * A)) (key : jsstring) :
  existsb (fun kv => str_eqb (lit (fst kv)) key) own = false ->
  inherited_name key = false ->
  lookup own key = Absent.
Proof.
  unfold inherited_name. rewrite !find_existsb.
  intros H1 H2. apply bool_decide_eq_false in H1, H2. unfold lookup.
  destruct (List.find _ own); [exfalso; apply H1; discriminate |].
  destruct (List.find _ objectPrototype); [exfalso; apply H2; discriminate |].
  reflexivity.
Qed.

Lemma present_some (x : option jsstring) :
  present x <> None -> exists s, x = Some s /\ present x = Some s.
Proof. destruct x as [[|c s]|]; simpl; intros H; try congruence. eauto. Qed.

Lemma present_inv (x : option jsstring) (s : jsstring) :
  present x = Some s -> x = Some s.
Proof. destruct x as [[|c t]|]; simpl; congruence. Qed.

(** C5, as amended.  A POST request whose payload decodes to more than
    ten megabytes, or whose content type is neither on the allow-list
    nor the name of an inherited member, is answered 400 and nothing is
    put in the object store.  The message is the one on the size limit
    when the payload is oversized and the request has its five fields, a
    documented category and an allow-listed content type. *)
Theorem oversized_or_unlisted_upload_is_rejected (env : Env) (req : Request) :
  method req = "POST"%string ->
  oversized Buffer Buffer_from_base64 Buffer_length req \/ unlisted req ->
  status (run env req).1 = 400
  /\ (run env req).2 = []
  /\ (oversized Buffer Buffer_from_base64 Buffer_length req ->
      well_described req ->
      (run env req).1 = rechazo (msgTamano (size_of req))
      /\ exists rest, msgTamano (size_of req) = msgLimite ++ rest).
Proof.
  intros Hm Hor.
  assert (Hstatus : status (run env req).1 = 400 /\ (run env req).2 = []).
  { unfold handler. rewrite Hm. cbn [String.eqb Ascii.eqb Bool.eqb negb].
    destruct (present (file req)) as [f|] eqn:Hf; [| split; reflexivity].
    destruct (present (filename req)) as [fn|]; [| split; reflexivity].
    destruct (present (contentType req)) as [ct|] eqn:Hct; [| split; reflexivity].
    destruct (present (categoria req)) as [cat|]; [| split; reflexivity].
    destruct (present (rut req)) as [r|]; [| split; reflexivity].
    destruct (missing (lookup CATEGORIA_CONFIG cat)); [split; reflexivity |].
    destruct (missing (lookup ALLOWED_TYPES ct)) eqn:Hmiss; [split; reflexivity |].
    apply present_inv in Hf, Hct. cbv zeta.
    destruct Hor as [Hbig | Hun].
    - unfold oversized, decoded_length in Hbig. rewrite Hf in Hbig.
      apply Z.ltb_lt in Hbig. rewrite Hbig. split; reflexivity.
    - unfold unlisted in Hun. rewrite Hct in Hun. destruct Hun as [Ha Hi].
      rewrite (lookup_absent ALLOWED_TYPES ct Ha Hi) in Hmiss. discriminate. }
  destruct Hstatus as [Hs Hp]. split; [exact Hs |]. split; [exact Hp |].
  intros Hbig ((Hf & Hfn & Hct & Hcat & Hr) & (cat & Hcat' & Hvalid)
               & (ct & Hct' & Hallowed)).
  split; [| eexists; reflexivity].
  apply present_some in Hf as (f & Hf1 & Hf2), Hfn as (fn & _ & Hfn2),
      Hct as (ct0 & Hct1 & Hct2), Hcat as (cat0 & Hcat1 & Hcat2),
      Hr as (r & _ & Hr2).
  assert (ct0 = ct) by congruence. assert (cat0 = cat) by congruence. subst ct0 cat0.
  unfold handler. rewrite Hm. cbn [String.eqb Ascii.eqb Bool.eqb negb].
  rewrite Hf2, Hfn2, Hct2, Hcat2, Hr2.
  destruct (lookup_own CATEGORIA_CONFIG cat Hvalid) as (c & ->).
  destruct (lookup_own ALLOWED_TYPES ct Hallowed) as (e & ->).
  cbn [missing]. cbv zeta.
  unfold oversized, decoded_length in *. rewrite Hf1 in *.
  apply Z.ltb_lt in Hbig. rewrite Hbig. reflexivity.
Qed.

End UploadFacts.

(* ===================================================================== *)
(** * The properties on the examples *)
(* ===================================================================== *)

Section OnExamples.

Import Examples.

Ltac pick := repeat first [left; reflexivity | right].

(** ** Plans *)

Lemma planesDisponibles_residencial_duo_witness :
  PlanSelector.residencial_duo props_duo
  /\ PlanSelector.planesDisponibles [plan_plus] props_duo
     = [PlanSelector.opcion_nacional props_duo plan_plus;
        PlanSelector.opcion_especial props_duo plan_plus].
Proof.
  assert (H : PlanSelector.residencial_duo props_duo).
  { unfold PlanSelector.residencial_duo. repeat split; try reflexivity.
    vm_compute. discriminate. }
  split; [exact H |].
  rewrite (proj1 (planesDisponibles_residencial_duo [plan_plus] props_duo H)).
  reflexivity.
Defined.

(** C4, as the claim words it, fails on a matching plan that carries no
    discount: the selector still offers it, once and without discount,
    where one option per carried discount would be none. *)
Lemma plan_without_discount_is_still_offered :
  PlanSelector.residencial_duo props_duo
  /\ PlanSelector.elegible_estricto props_duo plan_sin_descuento = true
  /\ PlanSelector.carried_discounts plan_sin_descuento = 0%nat
  /\ PlanSelector.planesDisponibles [plan_sin_descuento] props_duo
     = [PlanSelector.opcion_sin_descuento props_duo plan_sin_descuento]
  /\ length (PlanSelector.planesDisponibles [plan_sin_descuento] props_duo)
     <> PlanSelector.carried_discounts plan_sin_descuento.
Proof.
  split.
  { unfold PlanSelector.residencial_duo. repeat split; try reflexivity.
    vm_compute. discriminate. }
  split; [vm_compute; reflexivity |]. split; [reflexivity |].
  split; [vm_compute; reflexivity |]. vm_compute. discriminate.
Qed.

(** ** Uploads *)

Lemma oversized_or_unlisted_upload_is_rejected_witness :
  UploadFile.oversized Z quince_megabytes (fun n => n) (upload_de "image/jpeg")
  /\ status (UploadFile.handler Z quince_megabytes (fun n => n) texto_nativo
               upload_env (upload_de "image/jpeg")).1 = 400
  /\ (UploadFile.handler Z quince_megabytes (fun n => n) texto_nativo
        upload_env (upload_de "image/jpeg")).2 = [].
Proof.
  assert (H : UploadFile.oversized Z quince_megabytes (fun n => n)
                (upload_de "image/jpeg")) by (vm_compute; reflexivity).
  split; [exact H |].
  destruct (oversized_or_unlisted_upload_is_rejected Z quince_megabytes
              (fun n => n) texto_nativo upload_env (upload_de "image/jpeg")
              eq_refl (or_introl H)) as (Hs & Hp & _).
  split; [exact Hs | exact Hp].
Defined.

(** C5, as the claim words it, fails on a payload of fifteen megabytes
    sent as [image/gif]: the type check answers first, and its message
    is about the type, not about the size limit. *)
Lemma oversized_gif_is_told_about_its_type :
  UploadFile.method (upload_de "image/gif") = "POST"%string
  /\ UploadFile.oversized Z quince_megabytes (fun n => n) (upload_de "image/gif")
  /\ (UploadFile.handler Z quince_megabytes (fun n => n) texto_nativo
        upload_env (upload_de "image/gif")).1
     = UploadFile.rechazo (UploadFile.msgTipo (lit "image/gif"))
  /\ (UploadFile.handler Z quince_megabytes (fun n => n) texto_nativo
        upload_env (upload_de "image/gif")).1
     <> UploadFile.rechazo (UploadFile.msgTamano (15 * 1024 * 1024))
  /\ take (length UploadFile.msgLimite) (UploadFile.msgTipo (lit "image/gif"))
     <> UploadFile.msgLimite.
Proof.
  split; [reflexivity |]. split; [vm_compute; reflexivity |].
  split; [vm_compute; reflexivity |].
  split; vm_compute; discriminate.
Qed.

(** A content type that names a member inherited from
    [Object.prototype] passes the type check: the file is stored under
    an extension that is the text of that member. *)
Lemma inherited_name_passes_the_type_check :
  UploadFile.allow_listed (lit "constructor") = false
  /\ status (UploadFile.handler Z tres_bytes (fun n => n) texto_nativo
               upload_env (upload_de "constructor")).1 = 200
  /\ List.map (UploadFile.Key Z)
       (UploadFile.handler Z tres_bytes (fun n => n) texto_nativo
          upload_env (upload_de "constructor")).2
     = [lit "rut-frontal/123456789-frontal.function Object() { [native code] }"].
Proof. repeat split; vm_compute; reflexivity. Qed.

(** ** Submissions *)

Lemma tras_envio_calls :
  SubmitForm.issued hoja_con_espacio tras_envio
  = [SubmitForm.ValuesGet "Fijo_EBSA!Q:Q"; SubmitForm.SpreadsheetGet;
     SubmitForm.AppendRows 7 1; SubmitForm.ValuesBatchUpdate fila_escrita;
     SubmitForm.SelectSingle "vendedores" "nombre" (lit "Ana Perez");
     SubmitForm.SelectSingle "codigos_vendedor" "codigo" (lit "EBSA01");
     SubmitForm.Insert "pedidos" fila_insertada].
Proof. vm_compute. reflexivity. Qed.

Lemma envio_inserta :
  In (SubmitForm.Insert "pedidos" fila_insertada)
     (SubmitForm.issued hoja_con_espacio
        (SubmitForm.handler mismo_texto todo_bien (envio None) hoja_con_espacio).2).
Proof. fold tras_envio. rewrite tras_envio_calls. pick. Qed.


Lemma failed_insert_is_tolerated_witness :
  SubmitForm.inserts
    (SubmitForm.issued hoja_con_espacio
       (SubmitForm.handler mismo_texto supabase_caido (envio None)
          hoja_con_espacio).2) <> []
  /\ status (SubmitForm.handler mismo_texto supabase_caido (envio None)
               hoja_con_espacio).1 = 200
  /\ field (SubmitForm.handler mismo_texto supabase_caido (envio None)
              hoja_con_espacio).1 "pedidoId" = None
  /\ SubmitForm.pedidos
       (SubmitForm.handler mismo_texto supabase_caido (envio None)
          hoja_con_espacio).2 = [].
Proof.
  assert (H : SubmitForm.inserts
                (SubmitForm.issued hoja_con_espacio
                   (SubmitForm.handler mismo_texto supabase_caido (envio None)
                      hoja_con_espacio).2) <> []).
  { vm_compute. discriminate. }
  split; [exact H |].
  destruct (failed_insert_is_tolerated mismo_texto supabase_caido (envio None)
              hoja_con_espacio _ eq_refl eq_refl eq_refl H)
    as (Hs & _ & Hid & _ & Hp & _).
  repeat split; assumption.
Defined.


Lemma expansion_whenever_tab_exists_witness :
  In (SubmitForm.ValuesBatchUpdate fila_escrita)
     (SubmitForm.issued hoja_con_espacio tras_envio)
  /\ SubmitForm.expansions (SubmitForm.issued hoja_con_espacio tras_envio)
     = [(7, 1)]
  /\ Forall (fun u => SubmitForm.row u = 4) fila_escrita.
Proof.
  assert (H : In (SubmitForm.ValuesBatchUpdate fila_escrita)
                (SubmitForm.issued hoja_con_espacio tras_envio)).
  { rewrite tras_envio_calls. pick. }
  split; [exact H |].
  destruct (expansion_whenever_tab_exists mismo_texto todo_bien (envio None)
              hoja_con_espacio fila_escrita eq_refl H) as (_ & He & Hr).
  split; [exact He | exact Hr].
Defined.

(** C7, as the claim words it, fails on a sheet of a thousand rows of
    which three are filled: the next row is the fourth, the sheet has
    room for it, and the handler asks for one more row all the same. *)
Lemma expansion_despite_room :
  SubmitForm.fijoSheetOf hoja_con_espacio
  = Some (SubmitForm.mkTab (lit "Fijo_EBSA") 7 1000)
  /\ SubmitForm.nextRowOf hoja_con_espacio = 4
  /\ 4 <= 1000
  /\ SubmitForm.expansions
       (SubmitForm.issued hoja_con_espacio
          (SubmitForm.handler mismo_texto todo_bien (envio None)
             hoja_con_espacio).2) = [(7, 1)]
  /\ SubmitForm.tabs
       (SubmitForm.handler mismo_texto todo_bien (envio None)
          hoja_con_espacio).2
     = [SubmitForm.mkTab (lit "Fijo_EBSA") 7 1001].
Proof.
  split; [reflexivity |]. split; [reflexivity |]. split; [lia |].
  split; vm_compute; reflexivity.
Qed.


Lemma equipo_only_for_listed_seller_witness :
  In (SubmitForm.Insert "pedidos" fila_insertada)
     (SubmitForm.issued hoja_con_espacio
        (SubmitForm.handler mismo_texto todo_bien (envio None) hoja_con_espacio).2)
  /\ (prop fila_insertada "equipo_id" = VNull
      \/ prop fila_insertada "equipo_id" = VStr (lit "Equipo Norte")
         /\ SubmitForm.seller_found mismo_texto pedido_ejemplo hoja_con_espacio).
Proof.
  split; [exact envio_inserta |].
  destruct (equipo_only_for_listed_seller mismo_texto todo_bien (envio None)
              hoja_con_espacio fila_insertada envio_inserta)
    as ([Hnull | (He & _ & Hf)] & _).
  - left. exact Hnull.
  - right. split; [exact He | exact Hf].
Defined.

End OnExamples.

(* ===================================================================== *)
(** * Further properties of the validators and of the field handlers *)
(* ===================================================================== *)

Section ValidatorShapes.
Import Regex Validators.

Lemma lang_star_class (p : N -> bool) (s : jsstring) :
  lang (Star (Class p)) s <-> Forall (fun c => p c = true) s.
Proof.
  split.
  - intros H. remember (Star (Class p)) as r eqn:Hr.
    induction H as [ | | | | | r0 | r0 s1 s2 H1 _ H2 IH2 ]; try discriminate.
    + constructor.
    + injection Hr as ->. apply lang_class in H1 as (c & -> & Hc).
      constructor; [exact Hc | apply IH2; reflexivity].
  - induction 1 as [|c s Hc _ IH]; [constructor |].
    apply (L_star_cons _ [c] s); [constructor; exact Hc | exact IH].
Qed.

Lemma lang_plus_class (p : N -> bool) (s : jsstring) :
  lang (plus (Class p)) s <-> s <> [] /\ Forall (fun c => p c = true) s.
Proof.
  unfold plus. split.
  - intros H. inversion H as [ | | r1 r2 s1 s2 H1 H2 | | | | ]; subst; clear H.
    apply lang_class in H1 as (c & -> & Hc). apply lang_star_class in H2.
    split; [discriminate | constructor; assumption].
  - intros [Hne Hf]. destruct s as [|c s]; [congruence |].
    inversion Hf; subst. apply (L_cat _ _ [c] s).
    + constructor; assumption.
    + apply lang_star_class; assumption.
Qed.

Lemma test_plus_class (p : N -> bool) (s : jsstring) :
  test (plus (Class p)) s = true <-> s <> [] /\ Forall (fun c => p c = true) s.
Proof. rewrite test_lang. apply lang_plus_class. Qed.

(** [validateName] accepts exactly the non-empty strings made of
    unaccented letters, the accented vowels, the letter enne and white
    space. *)
Theorem validateName_shape (name : jsstring) :
  validateName name = true
  <-> name <> [] /\ Forall (fun c => name_char c = true) name.
Proof. apply test_plus_class. Qed.

(** [validateAddress] accepts exactly the non-empty strings made of
    letters, digits, white space and the four signs [. ' # -]. *)
Theorem validateAddress_shape (address : jsstring) :
  validateAddress address = true
  <-> address <> [] /\ Forall (fun c => address_char c = true) address.
Proof. apply test_plus_class. Qed.

Lemma test_phoneRegex (phone : jsstring) :
  test phoneRegex phone = true
  <-> exists rest, phone = 57%N :: rest /\ length rest = 8%nat
                   /\ Forall (fun c => is_digit c = true) rest.
Proof.
  unfold phoneRegex. rewrite test_lang. split.
  - intros H. inversion H as [ | | r1 r2 s1 s2 H1 H2 | | | | ]; subst; clear H.
    apply lang_class in H1 as (c & -> & Hc). apply N.eqb_eq in Hc as ->.
    apply (lang_times_class is_digit 8) in H2 as [Hl Hf]. exists s2. auto.
  - intros (rest & -> & Hl & Hf). apply (L_cat _ _ [57%N] rest).
    + constructor. reflexivity.
    + apply (lang_times_class is_digit 8). auto.
Qed.

(** [validatePhone] accepts exactly the strings of nine digits whose
    first digit is 9. *)
Theorem validatePhone_shape (phone : jsstring) :
  validatePhone phone = true
  <-> exists rest, phone = 57%N :: rest /\ length rest = 8%nat
                   /\ Forall (fun c => is_digit c = true) rest.
Proof.
  apply test_phoneRegex.
Qed.

(** [validateEmail] accepts exactly the strings [local@domain.tld] in
    which the three parts are non-empty and hold neither white space
    nor another [@]; the domain may hold further dots. *)
Theorem validateEmail_shape (email : jsstring) :
  validateEmail email = true
  <-> exists local domain tld,
        email = local ++ [64%N] ++ domain ++ [46%N] ++ tld
        /\ local <> [] /\ domain <> [] /\ tld <> []
        /\ Forall (fun c => email_char c = true) (local ++ domain ++ tld).
Proof.
  unfold validateEmail, emailRegex. rewrite test_lang. split.
  - intros H.
    inversion H as [ | | r1 r2 l s2 Hl H2 | | | | ]; subst; clear H.
    inversion H2 as [ | | r1 r2 a s3 Ha H3 | | | | ]; subst; clear H2.
    inversion H3 as [ | | r1 r2 d s4 Hd H4 | | | | ]; subst; clear H3.
    inversion H4 as [ | | r1 r2 dot t Hdot Ht | | | | ]; subst; clear H4.
    apply lang_class in Ha as (c & -> & Hc). apply N.eqb_eq in Hc as ->.
    apply lang_class in Hdot as (c & -> & Hc). apply N.eqb_eq in Hc as ->.
    apply lang_plus_class in Hl as [Hl1 Hl2], Hd as [Hd1 Hd2], Ht as [Ht1 Ht2].
    exists l, d, t. repeat split; auto.
    rewrite !List.Forall_app. auto.
  - intros (l & d & t & -> & Hl & Hd & Ht & Hf).
    rewrite !List.Forall_app in Hf. destruct Hf as (Hfl & Hfd & Hft).
    constructor; [apply lang_plus_class; auto |].
    constructor; [constructor; reflexivity |].
    constructor; [apply lang_plus_class; auto |].
    constructor; [constructor; reflexivity | apply lang_plus_class; auto].
Qed.

End ValidatorShapes.

Section FieldHandlers.
Import Regex Validators DatosSolicitante.

(** Turn boolean facts about classes of code units into arithmetic. *)
Ltac class_arith :=
  unfold name_char, address_char, email_char, is_spanish_letter, is_space,
    rut_char, is_digit, is_lower, is_upper, is_upper_latin1, is_lower_latin1,
    case_exact, in_range, hyphen, letter_k, letter_K in *;
  cbn [existsb] in *;
  repeat match goal with
         | H : _ |- _ =>
             progress rewrite ?orb_true_iff, ?orb_false_iff, ?andb_true_iff,
               ?andb_false_iff, ?negb_true_iff, ?negb_false_iff, ?N.leb_le,
               ?N.leb_gt, ?N.ltb_lt, ?N.ltb_ge, ?N.eqb_eq, ?N.eqb_neq in H
         end;
  rewrite ?orb_true_iff, ?orb_false_iff, ?andb_true_iff, ?andb_false_iff,
    ?negb_true_iff, ?negb_false_iff, ?N.leb_le, ?N.leb_gt, ?N.ltb_lt,
    ?N.ltb_ge, ?N.eqb_eq, ?N.eqb_neq.

Lemma lower_upper_cu (c : N) : lower_cu (upper_cu c) = lower_cu c.
Proof.
  unfold upper_cu. destruct (is_lower c || is_lower_latin1 c) eqn:Hl;
    [| reflexivity].
  unfold lower_cu.
  destruct (is_upper (c - 32) || is_upper_latin1 (c - 32)) eqn:Hu;
    destruct (is_upper c || is_upper_latin1 c) eqn:Hc; class_arith; lia.
Qed.

Lemma name_char_lower (c : N) : name_char (lower_cu c) = name_char c.
Proof.
  apply eq_true_iff_eq. unfold lower_cu.
  destruct (is_upper c || is_upper_latin1 c) eqn:Hc; [| reflexivity].
  class_arith. lia.
Qed.

(** ** Words: [split] on the space and [join] with it *)

Lemma split_nonempty (sep : N) (s : jsstring) : split sep s <> [].
Proof.
  induction s as [|c s IH]; simpl; [discriminate |].
  destruct (c =? sep)%N; [discriminate |].
  destruct (split sep s); [contradiction | discriminate].
Qed.

Lemma join_cons (sep x : jsstring) (rest : list jsstring) :
  rest <> [] -> join sep (x :: rest) = x ++ sep ++ join sep rest.
Proof. destruct rest; [contradiction | reflexivity]. Qed.

Lemma join_split (sep : N) (s : jsstring) : join [sep] (split sep s) = s.
Proof.
  induction s as [|c s IH]; simpl; [reflexivity |].
  destruct (N.eqb_spec c sep) as [-> | Hne].
  - rewrite join_cons by apply split_nonempty. rewrite IH. reflexivity.
  - pose proof (split_nonempty sep s) as Hs.
    destruct (split sep s) as [|w ws]; [contradiction |].
    destruct ws as [|w' ws].
    + cbn [join] in *. rewrite IH. reflexivity.
    + rewrite join_cons in IH by discriminate.
      rewrite join_cons by discriminate. rewrite <- IH. reflexivity.
Qed.

Lemma map_join (f : N -> N) (sep : jsstring) (ws : list jsstring) :
  List.map f (join sep ws) = join (List.map f sep) (List.map (List.map f) ws).
Proof.
  induction ws as [|w ws IH]; [reflexivity |].
  destruct ws as [|w' ws]; [reflexivity |].
  rewrite (join_cons sep w (w' :: ws)) by discriminate.
  rewrite !List.map_app, IH. reflexivity.
Qed.

(** A word-by-word rewriting that changes nothing but letter case
    changes nothing but letter case of the whole text. *)
Lemma words_only_case (g : jsstring -> jsstring) (s : jsstring) :
  (forall w, toLowerCase (g w) = toLowerCase w) ->
  toLowerCase (join (lit " ") (List.map g (split 32 s))) = toLowerCase s.
Proof.
  intros Hg. unfold toLowerCase at 1. rewrite map_join, List.map_map.
  rewrite (List.map_ext _ (List.map lower_cu)) by exact Hg.
  rewrite <- (List.map_map (fun w => w) (List.map lower_cu)), List.map_id.
  rewrite <- map_join. change (lit " ") with [32%N]. rewrite join_split.
  reflexivity.
Qed.

Lemma capitalizeWord_case (w : jsstring) :
  toLowerCase (capitalizeWord w) = toLowerCase w.
Proof.
  destruct w as [|c w]; [reflexivity |].
  unfold capitalizeWord, charAt0, slice, rel_index, toLowerCase, toUpperCase.
  simpl take at 1. simpl List.map at 2.
  replace (Z.to_nat _) with (length w) at 1.
  2:{ cbn [length]. destruct (Z.ltb_spec 1 0); lia. }
  replace (drop _ (c :: w)) with w.
  2:{ cbn [length]. destruct (Z.ltb_spec 1 0); [lia |].
      replace (Z.to_nat (Z.min 1 (Z.of_nat (S (length w))))) with 1%nat by lia.
      reflexivity. }
  rewrite firstn_all. simpl. rewrite lower_upper_cu. reflexivity.
Qed.

Lemma capitalizeName_case (name : jsstring) :
  toLowerCase (capitalizeName name) = toLowerCase name.
Proof.
  unfold capitalizeName. rewrite (words_only_case _ _ capitalizeWord_case).
  unfold toLowerCase. rewrite List.map_map. apply List.map_ext_in.
  intros c _. unfold lower_cu at 1.
  destruct (is_upper (lower_cu c) || is_upper_latin1 (lower_cu c)) eqn:H;
    [| reflexivity].
  unfold lower_cu in *. destruct (is_upper c || is_upper_latin1 c) eqn:Hc;
    class_arith; lia.
Qed.

Lemma name_chars_case (s : jsstring) :
  Forall (fun c => name_char c = true) (toLowerCase s)
  <-> Forall (fun c => name_char c = true) s.
Proof.
  unfold toLowerCase. rewrite List.Forall_map.
  split; apply List.Forall_impl; intros c; rewrite name_char_lower; auto.
Qed.

Lemma capitalizeName_length (name : jsstring) :
  length (capitalizeName name) = length name.
Proof.
  pose proof (f_equal (@length N) (capitalizeName_case name)) as H.
  unfold toLowerCase in H. rewrite !List.length_map in H. exact H.
Qed.

Lemma capitalizeName_valid (name : jsstring) :
  validateName name = true -> validateName (capitalizeName name) = true.
Proof.
  unfold validateName. rewrite !test_plus_class. intros [Hne Hf]. split.
  - intros Hnil. apply Hne.
    apply (f_equal (@length N)) in Hnil. rewrite capitalizeName_length in Hnil.
    destruct name; [reflexivity | discriminate].
  - apply name_chars_case. rewrite capitalizeName_case.
    apply name_chars_case. exact Hf.
Qed.

(** ** The handlers *)

Lemma error_blank (b : bool) (msg : jsstring) :
  msg <> [] -> (if b then msg else []) = [] <-> b = false.
Proof. intros Hm. destruct b; split; congruence. Qed.

Lemma rechazado_false (validate : jsstring -> bool) (formatted : jsstring) :
  rechazado validate formatted = false
  <-> formatted = [] \/ validate formatted = true.
Proof.
  destruct formatted as [|c s]; simpl.
  - split; auto.
  - rewrite negb_false_iff. split; [auto | intros [H | H]; [discriminate | exact H]].
Qed.

Lemma test_rutRegex (s : jsstring) : test rutRegex s = true <-> rut_format s.
Proof.
  unfold rutRegex, rut_format. rewrite test_lang. split.
  - intros H. inversion H as [ | | r1 r2 s1 s2 H1 H2 | | | | ]; subst; clear H.
    apply (lang_between_class _ 7) in H1 as [Hl Hf].
    inversion H2 as [ | | r1 r2 s3 s4 H3 H4 | | | | ]; subst; clear H2.
    apply lang_class in H3 as (h & -> & Hh), H4 as (dv & -> & Hd).
    apply ignoreCase_hyphen in Hh as ->. apply ignoreCase_check in Hd.
    exists s1, dv. repeat split; auto.
    eapply List.Forall_impl; [| exact Hf].
    intros c; cbv beta; rewrite ignoreCase_digit; auto.
  - intros (digits & dv & -> & Hl & Hf & Hd). constructor.
    + apply (lang_between_class _ 7). split; [exact Hl |].
      eapply List.Forall_impl; [| exact Hf].
      intros c; cbv beta; rewrite ignoreCase_digit; auto.
    + apply (L_cat _ _ [hyphen] [dv]); constructor.
      * apply ignoreCase_hyphen. reflexivity.
      * apply ignoreCase_check. exact Hd.
Qed.

Lemma is_digit_lower (c : N) : is_digit (lower_cu c) = is_digit c.
Proof.
  apply eq_true_iff_eq. unfold lower_cu.
  destruct (is_upper c || is_upper_latin1 c) eqn:Hc; [| reflexivity].
  class_arith. lia.
Qed.

Lemma check_of_rut_char (c : N) :
  rut_char c = true -> is_check_character (lower_cu c).
Proof.
  unfold is_check_character, lower_cu.
  destruct (is_upper c || is_upper_latin1 c) eqn:Hc; class_arith; lia.
Qed.

Lemma formatRut_valid (value : jsstring) :
  validateRut (formatRut value) = true
  <-> (length (List.filter rut_char value) = 8%nat
       \/ length (List.filter rut_char value) = 9%nat)
      /\ Forall (fun c => is_digit c = true)
           (take (length (List.filter rut_char value) - 1)
                 (List.filter rut_char value)).
Proof.
  unfold validateRut. rewrite test_rutRegex. unfold formatRut.
  pose proof (filter_all rut_char value) as Hk.
  set (kept := List.filter rut_char value) in *. cbv zeta.
  assert (Hlen : length (toLowerCase kept) = length kept)
    by apply List.length_map.
  rewrite slice_all_but_last, slice_last, Hlen.
  destruct (Z.ltb_spec 1 (Z.of_nat (length kept))) as [Hlong | Hshort].
  - destruct (exists_last (l := kept)) as (front & dv & Hsplit).
    { intros E. rewrite E in Hlong. simpl in Hlong. lia. }
    rewrite Hsplit in *. clear Hsplit.
    rewrite List.Forall_app in Hk. destruct Hk as [_ Hdv].
    inversion Hdv as [|? ? Hdv' _]; subst.
    rewrite length_app. cbn [length].
    replace (length front + 1 - 1)%nat with (length front) by lia.
    unfold toLowerCase. rewrite List.map_app. cbn [List.map].
    rewrite take_app_length', drop_app_length' by (rewrite List.length_map; reflexivity).
    rewrite take_app_length' by reflexivity.
    unfold rut_format. split.
    + intros (digits & d & Heq & Hl & Hf & _).
      change (List.map lower_cu front ++ [hyphen] ++ [lower_cu dv])
        with (List.map lower_cu front ++ [hyphen; lower_cu dv]) in Heq.
      replace (digits ++ [hyphen; d]) with ((digits ++ [hyphen]) ++ [d]) in Heq
        by (rewrite <- app_assoc; reflexivity).
      replace (List.map lower_cu front ++ [hyphen; lower_cu dv])
        with ((List.map lower_cu front ++ [hyphen]) ++ [lower_cu dv]) in Heq
        by (rewrite <- app_assoc; reflexivity).
      apply app_inj_tail in Heq as [Heq _]. apply app_inj_tail in Heq as [Heq _].
      subst digits. rewrite List.length_map in Hl. split; [lia |].
      rewrite List.Forall_map in Hf. eapply List.Forall_impl; [| exact Hf].
      intros c. cbv beta. rewrite is_digit_lower. auto.
    + intros [Hl Hf]. exists (List.map lower_cu front), (lower_cu dv).
      split; [reflexivity |]. rewrite List.length_map. split; [lia |].
      split; [| apply check_of_rut_char; exact Hdv'].
      rewrite List.Forall_map. eapply List.Forall_impl; [| exact Hf].
      intros c. cbv beta. rewrite is_digit_lower. auto.
  - split.
    + intros (digits & d & Heq & _).
      apply (f_equal (@length N)) in Heq. rewrite Hlen, length_app in Heq.
      simpl in Heq. lia.
    + intros [Hl _]. lia.
Qed.

Lemma formatRut_empty (value : jsstring) :
  formatRut value = [] <-> List.filter rut_char value = [].
Proof.
  unfold formatRut. set (kept := List.filter rut_char value). cbv zeta.
  destruct (Z.ltb_spec 1 (Z.of_nat (length (toLowerCase kept)))) as [Hlong | Hshort].
  - split.
    + intros H. apply (f_equal (@length N)) in H.
      rewrite !length_app in H. simpl in H. lia.
    + intros E. rewrite E in Hlong. simpl in Hlong. lia.
  - unfold toLowerCase. destruct kept; simpl; split; congruence.
Qed.

Lemma formatPhone_valid (value : jsstring) :
  validatePhone (formatPhone value) = true
  <-> exists rest, List.filter is_digit value = 57%N :: rest
                   /\ (8 <= length rest)%nat.
Proof.
  unfold validatePhone, formatPhone. rewrite test_phoneRegex.
  change 9 with (Z.of_nat 9). rewrite slice_prefix.
  pose proof (filter_all is_digit value) as Hd.
  set (digits := List.filter is_digit value) in *. split.
  - intros (rest & Heq & Hl & _). destruct digits as [|c ds]; [discriminate |].
    simpl in Heq. injection Heq as -> Heq. exists ds. split; [reflexivity |].
    apply (f_equal (@length N)) in Heq. rewrite length_take in Heq. lia.
  - intros (rest & -> & Hl). exists (take 8 rest). split; [reflexivity |].
    split; [rewrite length_take; lia |].
    apply Forall_take. inversion Hd; assumption.
Qed.

(** The value typed in the identity-number field is handed over
    formatted, and the error is blank exactly when nothing of it is
    kept, or eight or nine characters are kept of which all but the
    last are digits. *)
Theorem handleRutChange_effect (value : jsstring) :
  entregado (handleRutChange value) = Some (formatRut value)
  /\ (error (handleRutChange value) = []
      <-> List.filter rut_char value = []
          \/ ((length (List.filter rut_char value) = 8%nat
               \/ length (List.filter rut_char value) = 9%nat)
              /\ Forall (fun c => is_digit c = true)
                   (take (length (List.filter rut_char value) - 1)
                         (List.filter rut_char value)))).
Proof.
  split; [reflexivity |]. unfold handleRutChange. cbn [error].
  rewrite error_blank by (vm_compute; discriminate).
  rewrite rechazado_false, formatRut_empty, formatRut_valid. reflexivity.
Qed.

(** The phone field hands over the first nine digits of what was
    typed, and its error is blank exactly when no digit was typed, or
    at least nine were and the first of them is 9. *)
Theorem handlePhoneChange_effect (value : jsstring) :
  entregado (handlePhoneChange value) = Some (take 9 (List.filter is_digit value))
  /\ (error (handlePhoneChange value) = []
      <-> List.filter is_digit value = []
          \/ exists rest, List.filter is_digit value = 57%N :: rest
                          /\ (8 <= length rest)%nat).
Proof.
  split.
  - unfold handlePhoneChange, formatPhone. cbn [entregado].
    change 9 with (Z.of_nat 9). rewrite slice_prefix. reflexivity.
  - unfold handlePhoneChange. cbn [error].
    rewrite error_blank by (vm_compute; discriminate).
    rewrite rechazado_false, formatPhone_valid.
    unfold formatPhone. change 9 with (Z.of_nat 9). rewrite slice_prefix.
    destruct (List.filter is_digit value); simpl; split; intros [H | H]; auto;
      discriminate.
Qed.

(** The address field never shows its error: what [formatAddress]
    keeps is always accepted by [validateAddress], unless nothing is
    kept, and then no validation is made. *)
Theorem handleDireccionChange_never_errs (value : jsstring) :
  entregado (handleDireccionChange value) = Some (formatAddress value)
  /\ error (handleDireccionChange value) = []
  /\ (formatAddress value <> [] -> validateAddress (formatAddress value) = true).
Proof.
  assert (Hv : formatAddress value <> []
               -> validateAddress (formatAddress value) = true).
  { intros Hne. unfold validateAddress. apply test_plus_class.
    split; [exact Hne | apply filter_all]. }
  split; [reflexivity |]. split; [| exact Hv].
  unfold handleDireccionChange. cbn [error].
  apply error_blank; [vm_compute; discriminate |].
  apply rechazado_false.
  destruct (formatAddress value) eqn:E; [left; reflexivity |].
  right. apply Hv. discriminate.
Qed.

(** Capitalising a valid name gives a valid name of the same length
    that differs from it in letter case only, and capitalising again
    changes nothing. *)
Theorem capitalizeName_of_valid_name (name : jsstring) :
  validateName name = true ->
  validateName (capitalizeName name) = true
  /\ length (capitalizeName name) = length name
  /\ toLowerCase (capitalizeName name) = toLowerCase name
  /\ capitalizeName (capitalizeName name) = capitalizeName name.
Proof.
  intros Hv. split; [apply capitalizeName_valid; exact Hv |].
  split; [apply capitalizeName_length |].
  split; [apply capitalizeName_case |].
  unfold capitalizeName at 1. rewrite capitalizeName_case. reflexivity.
Qed.

(** Whatever is typed in the name field and however often the field
    is left, the stored name stays empty or valid, if it was so at the
    start. *)
Theorem name_field_stays_valid (events : list Evento) (nombres : jsstring) :
  nombres = [] \/ validateName nombres = true ->
  fold_left paso events nombres = []
  \/ validateName (fold_left paso events nombres) = true.
Proof.
  revert nombres. induction events as [|e events IH]; intros nombres H;
    [exact H |].
  simpl. apply IH. destruct e as [value |]; simpl.
  - unfold handleNombresChange.
    destruct (str_eqb value []) eqn:He; simpl.
    + left. apply bool_decide_eq_true in He. exact He.
    + destruct (validateName value) eqn:Hv; simpl; [right; exact Hv | exact H].
  - destruct nombres as [|c s]; [left; reflexivity |]. simpl.
    destruct H as [H | H]; [discriminate |].
    right. apply capitalizeName_valid. exact H.
Qed.

End FieldHandlers.

(* ===================================================================== *)
(** * Further properties of the plan catalogue *)
(* ===================================================================== *)

Section CatalogueFacts.
Import PlanSelector PlanSection.

(** An option is offered exactly when a loaded row of the category
    looked for passes the second filter and expands into it. *)
Lemma planesDisponibles_in (planesDB : list PlanDB.t) (p : Props) (o : Plan) :
  In o (planesDisponibles planesDB p)
  <-> exists planDB, In planDB planesDB
        /\ PlanDB.categoria planDB = categoriaBuscada p
        /\ coincide p planDB = true
        /\ In o (expandir p planDB).
Proof.
  assert (E : planesDisponibles planesDB p
              = flat_map (expandir p)
                  (List.filter (coincide p)
                     (List.filter (fun plan => str_eqb (PlanDB.categoria plan)
                                                       (categoriaBuscada p))
                        planesDB))).
  { unfold planesDisponibles. destruct planesDB; [reflexivity |].
    cbv zeta. rewrite push_all_flat_map. reflexivity. }
  rewrite E, in_flat_map. split.
  - intros (planDB & Hin & Ho). apply List.filter_In in Hin as [Hin Hc].
    apply List.filter_In in Hin as [Hin Hcat].
    apply bool_decide_eq_true in Hcat. eauto.
  - intros (planDB & Hin & Hcat & Hc & Ho). exists planDB. split; [| exact Ho].
    apply List.filter_In. split; [| exact Hc].
    apply List.filter_In. split; [exact Hin |].
    apply bool_decide_eq_true. exact Hcat.
Qed.

Lemma expandir_in (p : Props) (planDB : PlanDB.t) (o : Plan) :
  In o (expandir p planDB) ->
  exists nombre dn de, o = convertirPlan p planDB nombre dn de.
Proof.
  unfold expandir. cbv zeta. rewrite !in_app_iff.
  destruct (tieneDescuento (PlanDB.descuento_nacional planDB)),
           (tieneDescuento (PlanDB.descuento_especial planDB)); simpl;
    intros H; repeat destruct H as [H | H]; try contradiction; subst; eauto.
Qed.

Lemma coincide_flags (p : Props) (planDB : PlanDB.t) :
  coincide p planDB = true ->
  PlanDB.internet_activo planDB = hasInternet p
  /\ PlanDB.television_activa planDB = hasTelevision p
  /\ PlanDB.telefonia_activa planDB = hasTelefonia p.
Proof.
  unfold coincide.
  destruct (PlanDB.internet_activo planDB), (hasInternet p); simpl;
    try discriminate;
    destruct (PlanDB.television_activa planDB), (hasTelevision p); simpl;
    try discriminate;
    destruct (PlanDB.telefonia_activa planDB), (hasTelefonia p); simpl;
    try discriminate; auto.
Qed.

(** Every option offered comes from a loaded row of the category
    looked for and has exactly the services the customer asked for,
    with the price, duration and service count of that row. *)
Theorem offered_options_match_services
    (planesDB : list PlanDB.t) (p : Props) (o : Plan) :
  In o (planesDisponibles planesDB p) ->
  internet_activo o = hasInternet p
  /\ television_activo o = hasTelevision p
  /\ telefonia_activo o = hasTelefonia p
  /\ exists planDB, In planDB planesDB
       /\ PlanDB.categoria planDB = categoriaBuscada p
       /\ precio o = PlanDB.precio planDB
       /\ duracion o = PlanDB.duracion planDB
       /\ rgu o = PlanDB.rgu planDB.
Proof.
  intros H. apply planesDisponibles_in in H as (planDB & Hin & Hcat & Hc & Ho).
  apply expandir_in in Ho as (n & dn & de & ->).
  apply coincide_flags in Hc as (Hi & Ht & Hf). cbn.
  repeat split; try assumption. exists planDB. repeat split; assumption.
Qed.

Lemma nonempty_lower (s : jsstring) : nonempty (toLowerCase s) = nonempty s.
Proof. destruct s; reflexivity. Qed.

Lemma distinto_false (col : option jsstring) (s : jsstring) :
  distinto col s = false -> col = Some s.
Proof.
  destruct col as [c|]; simpl; [| discriminate].
  rewrite negb_false_iff. intros H. apply bool_decide_eq_true in H. congruence.
Qed.

(** When the plan section shows the selector to a residential
    customer, every option offered has the speed and the television
    tier that were selected, written the way the selector prints
    them. *)
Theorem shown_residential_options_match_selection
    (planesDB : list PlanDB.t) (p : Props) (o : Plan) :
  shouldShowPlans p = true ->
  segmento p = lit "residencial" ->
  In o (planesDisponibles planesDB p) ->
  (hasInternet p = true ->
   internet_velocidad o
   = Some (toUpperCase (toLowerCase (velocidadInternet p))))
  /\ (hasTelevision p = true ->
      television_plan_tv o
      = Some (Validators.capitalizeWord (toLowerCase (tipoTelevision p)))).
Proof.
  intros Hshow Hseg H.
  apply planesDisponibles_in in H as (planDB & _ & _ & Hc & Ho).
  apply expandir_in in Ho as (n & dn & de & ->). cbn.
  unfold shouldShowPlans in Hshow. unfold coincide in Hc.
  rewrite Hseg in Hshow, Hc.
  replace (str_eqb (lit "residencial") (lit "residencial")) with true in *
    by reflexivity.
  cbv zeta in Hshow.
  destruct (Bool.eqb (PlanDB.internet_activo planDB) (hasInternet p));
    [| discriminate].
  destruct (Bool.eqb (PlanDB.television_activa planDB) (hasTelevision p));
    [| discriminate].
  destruct (Bool.eqb (PlanDB.telefonia_activa planDB) (hasTelefonia p));
    [| discriminate].
  cbn [negb] in Hc. split.
  - intros Hi. rewrite Hi in *.
    destruct (nonempty (velocidadInternet p)) eqn:Hv.
    2:{ destruct (hasTelevision p), (hasTelefonia p); discriminate. }
    cbn [andb] in Hc.
    destruct (distinto (PlanDB.internet_velocidad planDB)
                (toLowerCase (velocidadInternet p))) eqn:Hd; [discriminate |].
    apply distinto_false in Hd. rewrite Hd. unfold mapTruthy.
    rewrite nonempty_lower, Hv. reflexivity.
  - intros Ht. rewrite Ht in *.
    destruct (nonempty (tipoTelevision p)) eqn:Hv.
    2:{ destruct (hasInternet p), (nonempty (velocidadInternet p));
          discriminate. }
    cbn [andb] in Hc.
    destruct (hasInternet p && true && nonempty (velocidadInternet p)
              && distinto (PlanDB.internet_velocidad planDB)
                   (toLowerCase (velocidadInternet p))); [discriminate |].
    destruct (distinto (PlanDB.television_plan planDB)
                (toLowerCase (tipoTelevision p))) eqn:Hd; [discriminate |].
    apply distinto_false in Hd. rewrite Hd. unfold mapTruthy.
    rewrite nonempty_lower, Hv. reflexivity.
Qed.

(** The total shown for an option is the price of its row less the
    discount the option is named after; a row that carries no discount
    is shown at its price, provided its discount columns are not
    negative. *)
Theorem precio_final_of_options (p : Props) (planDB : PlanDB.t) (o : Plan) :
  In o (expandir p planDB) ->
  (exists d, PlanDB.descuento_nacional planDB = Some d /\ 0 < d
             /\ o = opcion_nacional p planDB
             /\ calcularPrecioFinal o = PlanDB.precio planDB - d)
  \/ (exists d, PlanDB.descuento_especial planDB = Some d /\ 0 < d
                /\ o = opcion_especial p planDB
                /\ calcularPrecioFinal o = PlanDB.precio planDB - d)
  \/ (carried_discounts planDB = 0%nat
      /\ o = opcion_sin_descuento p planDB
      /\ ((forall d, PlanDB.descuento_nacional planDB = Some d -> 0 <= d) ->
          (forall d, PlanDB.descuento_especial planDB = Some d -> 0 <= d) ->
          calcularPrecioFinal o = PlanDB.precio planDB)).
Proof.
  unfold expandir, carried_discounts. cbv zeta. rewrite !in_app_iff.
  unfold opcion_nacional, opcion_especial, opcion_sin_descuento.
  destruct (PlanDB.descuento_nacional planDB) as [dn|] eqn:Hn;
    destruct (PlanDB.descuento_especial planDB) as [de|] eqn:He;
    unfold tieneDescuento;
    repeat match goal with
           | |- context [0 <? ?d] => destruct (Z.ltb_spec 0 d) as [?Hpos | ?Hnp]
           end;
    simpl; intros Ho; repeat destruct Ho as [Ho | Ho]; try contradiction;
    subst o.
  all: unfold calcularPrecioFinal, descuentoAplicado, convertirPlan; cbn;
    rewrite ?Hn, ?He; cbn.
  all: try (left; exists dn; repeat split; auto; fail).
  all: try (right; left; exists de; repeat split; auto;
            destruct (Z.eqb_spec de 0); [lia | reflexivity]).
  all: right; right; split; [reflexivity |]; split; [reflexivity |];
    intros Hnn Hne;
    try (specialize (Hnn _ eq_refl)); try (specialize (Hne _ eq_refl));
    repeat match goal with
           | |- context [?d =? 0] => destruct (Z.eqb_spec d 0) as [?Hz | ?Hnz]
           end; lia.
Qed.

(** Normalising a plan name changes nothing but letter case, and
    normalising again changes nothing. *)
Theorem normalizarNombre_only_case (nombre : jsstring) :
  Forall (fun c => case_exact c = true) nombre ->
  toLowerCase (normalizarNombre nombre) = toLowerCase nombre
  /\ length (normalizarNombre nombre) = length nombre
  /\ normalizarNombre (normalizarNombre nombre) = normalizarNombre nombre.
Proof.
  intros _.
  assert (Hw : forall w, toLowerCase (normalizarPalabra w) = toLowerCase w).
  { intros w. unfold normalizarPalabra.
    destruct (Regex.test siglaRegex w && existsb (str_eqb (toLowerCase w)) siglas).
    - unfold toLowerCase, toUpperCase. rewrite List.map_map.
      apply List.map_ext. apply lower_upper_cu.
    - apply capitalizeWord_case. }
  assert (Hl : forall s, toLowerCase (toLowerCase s) = toLowerCase s).
  { intros s. unfold toLowerCase. rewrite List.map_map. apply List.map_ext.
    intros c. unfold lower_cu at 1.
    destruct (is_upper (lower_cu c) || is_upper_latin1 (lower_cu c)) eqn:H;
      [| reflexivity].
    unfold lower_cu in *. destruct (is_upper c || is_upper_latin1 c) eqn:Hc;
      unfold is_upper, is_upper_latin1, in_range in *;
      rewrite ?orb_true_iff, ?orb_false_iff, ?andb_true_iff, ?andb_false_iff,
        ?negb_true_iff, ?negb_false_iff, ?N.leb_le, ?N.leb_gt, ?N.eqb_eq,
        ?N.eqb_neq in *; lia. }
  assert (Hcase : toLowerCase (normalizarNombre nombre) = toLowerCase nombre).
  { unfold normalizarNombre. rewrite (words_only_case _ _ Hw). apply Hl. }
  split; [exact Hcase |]. split.
  - pose proof (f_equal (@length N) Hcase) as H.
    unfold toLowerCase in H. rewrite !List.length_map in H. exact H.
  - unfold normalizarNombre at 1. rewrite Hcase. reflexivity.
Qed.

End CatalogueFacts.

(* ===================================================================== *)
(** * The format helpers of the queries *)
(* ===================================================================== *)

Section FormatHelpers.
Import Validators SupabaseQueries.

Lemma split_plain (sep : N) (w : jsstring) :
  ~ In sep w -> split sep w = [w].
Proof.
  induction w as [|c w IH]; intros Hn; [reflexivity |]. simpl.
  destruct (N.eqb_spec c sep) as [-> | Hne]; [exfalso; apply Hn; left; reflexivity |].
  rewrite IH by (intros H; apply Hn; right; exact H). reflexivity.
Qed.

Lemma split_app_sep (sep : N) (w rest : jsstring) :
  ~ In sep w -> split sep (w ++ sep :: rest) = w :: split sep rest.
Proof.
  induction w as [|c w IH]; intros Hn; simpl.
  - rewrite N.eqb_refl. reflexivity.
  - destruct (N.eqb_spec c sep) as [-> | Hne];
      [exfalso; apply Hn; left; reflexivity |].
    rewrite IH by (intros H; apply Hn; right; exact H). reflexivity.
Qed.

Lemma split_join (sep : N) (ws : list jsstring) :
  ws <> [] -> Forall (fun w => ~ In sep w) ws ->
  split sep (join [sep] ws) = ws.
Proof.
  induction ws as [|w ws IH]; intros Hne Hf; [contradiction |].
  inversion Hf as [|? ? Hw Hws]; subst.
  destruct ws as [|w' ws]; [apply split_plain; exact Hw |].
  rewrite join_cons by discriminate.
  change (w ++ [sep] ++ join [sep] (w' :: ws))
    with (w ++ sep :: join [sep] (w' :: ws)).
  rewrite split_app_sep by exact Hw. rewrite IH by (discriminate || exact Hws).
  reflexivity.
Qed.

Lemma split_words (sep : N) (s : jsstring) :
  Forall (fun w => ~ In sep w) (split sep s).
Proof.
  induction s as [|c s IH]; simpl; [repeat constructor; auto |].
  destruct (N.eqb_spec c sep) as [-> | Hne]; [constructor; auto |].
  destruct (split sep s) as [|w ws]; [repeat constructor; simpl; intuition |].
  inversion IH; subst. constructor; [| assumption].
  intros [H | H]; [congruence | contradiction].
Qed.

Lemma capitalizeWord_cons (c : N) (w : jsstring) :
  capitalizeWord (c :: w) = upper_cu c :: w.
Proof.
  unfold capitalizeWord, charAt0, slice, rel_index, toUpperCase.
  cbn [take List.map app length].
  change (1 <? 0) with false. cbv iota.
  replace (Z.to_nat (Z.min 1 (Z.of_nat (S (length w))))) with 1%nat by lia.
  rewrite take_0. cbn [drop List.map app]. rewrite drop_0.
  rewrite take_ge by lia. reflexivity.
Qed.

Lemma upper_upper_cu (c : N) : upper_cu (upper_cu c) = upper_cu c.
Proof.
  unfold upper_cu at 1.
  destruct (is_lower (upper_cu c) || is_lower_latin1 (upper_cu c)) eqn:H;
    [| reflexivity].
  unfold upper_cu in *. destruct (is_lower c || is_lower_latin1 c) eqn:Hc;
    unfold is_lower, is_lower_latin1, in_range in *;
    rewrite ?orb_true_iff, ?orb_false_iff, ?andb_true_iff, ?andb_false_iff,
      ?negb_true_iff, ?negb_false_iff, ?N.leb_le, ?N.leb_gt, ?N.eqb_eq,
      ?N.eqb_neq in *; lia.
Qed.

Lemma upper_cu_space (c : N) : upper_cu c = 32%N -> c = 32%N.
Proof.
  unfold upper_cu. destruct (is_lower c || is_lower_latin1 c) eqn:Hc; [| auto].
  unfold is_lower, is_lower_latin1, in_range in *.
  rewrite ?orb_true_iff, ?andb_true_iff, ?negb_true_iff, ?N.leb_le,
    ?N.eqb_neq in *. lia.
Qed.

Lemma capitalizeWord_words (ws : list jsstring) :
  Forall (fun w => ~ In 32%N w) ws ->
  Forall (fun w => ~ In 32%N w) (List.map capitalizeWord ws).
Proof.
  intros H. apply List.Forall_map. eapply List.Forall_impl; [| exact H].
  intros [|c w] Hw; [auto |]. rewrite capitalizeWord_cons.
  intros [E | E]; apply Hw; [left | right; exact E].
  apply upper_cu_space. exact E.
Qed.

Lemma capitalizeWord_twice (w : jsstring) :
  capitalizeWord (capitalizeWord w) = capitalizeWord w.
Proof.
  destruct w as [|c w]; [reflexivity |].
  rewrite !capitalizeWord_cons, upper_upper_cu. reflexivity.
Qed.

(** Display formatting changes nothing but letter case, so the
    database format of a displayed text is that of the text itself; and
    formatting a displayed text again changes nothing. *)
Theorem toDisplayFormat_round_trip (text : jsstring) :
  Forall (fun c => case_exact c = true) text ->
  toDBFormat (toDisplayFormat text) = toDBFormat text
  /\ length (toDisplayFormat text) = length text
  /\ toDisplayFormat (toDisplayFormat text) = toDisplayFormat text.
Proof.
  intros _.
  assert (Hcase : toLowerCase (toDisplayFormat text) = toLowerCase text).
  { unfold toDisplayFormat. apply words_only_case, capitalizeWord_case. }
  split; [unfold toDBFormat; rewrite Hcase; reflexivity |]. split.
  - pose proof (f_equal (@length N) Hcase) as H.
    unfold toLowerCase in H. rewrite !List.length_map in H. exact H.
  - unfold toDisplayFormat. change (lit " ") with [32%N].
    rewrite split_join.
    + rewrite List.map_map. f_equal. apply List.map_ext.
      apply capitalizeWord_twice.
    + pose proof (split_nonempty 32 text) as H.
      destruct (split 32 text); [contradiction | discriminate].
    + apply capitalizeWord_words, split_words.
Qed.

End FormatHelpers.

(* ===================================================================== *)
(** * Further properties of the upload handler *)
(* ===================================================================== *)

Section UploadMore.
Import UploadFile.

Variable Buffer : Type.
Variable Buffer_from_base64 : jsstring -> Buffer.
Variable Buffer_length : Buffer -> Z.
Variable builtin_text : string -> jsstring.

Local Abbreviation subir :=
  (handler Buffer Buffer_from_base64 Buffer_length builtin_text).



(** The key, and so the whole answer, depends on the identity number
    only through its digits and letters: two uploads that differ only
    in the dots and hyphens of the identity number get the same answer
    and are put under the same key. *)
Theorem key_ignores_rut_punctuation (env : Env) (m : string)
    (f name tipo cat : option jsstring) (r1 r2 : jsstring) (n : option Z) :
  r1 <> [] -> r2 <> [] -> sanitizeRut r1 = sanitizeRut r2 ->
  (subir env (mkRequest m f name tipo cat (Some r1) n)).1
  = (subir env (mkRequest m f name tipo cat (Some r2) n)).1
  /\ List.map (Key Buffer) (subir env (mkRequest m f name tipo cat (Some r1) n)).2
     = List.map (Key Buffer) (subir env (mkRequest m f name tipo cat (Some r2) n)).2.
Proof.
  intros H1 H2 Hs. unfold handler. cbn [method file filename contentType
    categoria rut docNumber].
  destruct (String.eqb m "OPTIONS"); [split; reflexivity |].
  destruct (negb (String.eqb m "POST")); [split; reflexivity |].
  destruct (present f) as [payload|]; [| split; reflexivity].
  destruct (present name) as [nm|]; [| split; reflexivity].
  destruct (present tipo) as [t|]; [| split; reflexivity].
  destruct (present cat) as [c|]; [| split; reflexivity].
  destruct r1 as [|a1 r1]; [contradiction |].
  destruct r2 as [|a2 r2]; [contradiction |].
  cbn [present].
  destruct (missing (lookup CATEGORIA_CONFIG c)); [split; reflexivity |].
  destruct (missing (lookup ALLOWED_TYPES t)); [split; reflexivity |].
  cbv zeta. destruct (MAX_FILE_SIZE <? _); [split; reflexivity |].
  rewrite Hs. destruct (s3_failure env); split; reflexivity.
Qed.

Lemma dropPrefix_app (pre s : jsstring) : dropPrefix pre (pre ++ s) = Some s.
Proof.
  induction pre as [|c pre IH]; simpl; [destruct s; reflexivity |].
  rewrite N.eqb_refl. exact IH.
Qed.

Lemma afterBase64Marker_skip (c : N) (s : jsstring) :
  is_line_terminator c = false -> c <> 59%N ->
  afterBase64Marker (c :: s) = afterBase64Marker s.
Proof.
  intros Hlt Hc.
  change (afterBase64Marker (c :: s))
    with (match dropPrefix (lit ";base64,") (c :: s) with
          | Some rest => Some rest
          | None => if is_line_terminator c then None else afterBase64Marker s
          end).
  replace (dropPrefix (lit ";base64,") (c :: s)) with (@None jsstring).
  - rewrite Hlt. reflexivity.
  - change (lit ";base64,") with (59%N :: lit "base64,"). cbn [dropPrefix].
    replace (59 =? c)%N with false; [reflexivity |].
    symmetry. apply N.eqb_neq. congruence.
Qed.

Lemma afterBase64Marker_here (payload : jsstring) :
  afterBase64Marker (lit ";base64," ++ payload) = Some payload.
Proof.
  assert (H : dropPrefix (lit ";base64,") (lit ";base64," ++ payload)
              = Some payload) by apply dropPrefix_app.
  change (lit ";base64," ++ payload)
    with (59%N :: (lit "base64," ++ payload)) in *.
  cbn [afterBase64Marker]. rewrite H. reflexivity.
Qed.

Lemma afterBase64Marker_found (mime payload : jsstring) :
  Forall (fun c => is_line_terminator c = false /\ c <> 59%N) mime ->
  afterBase64Marker (mime ++ lit ";base64," ++ payload) = Some payload.
Proof.
  induction 1 as [|c mime [Hlt Hc] _ IH].
  - apply afterBase64Marker_here.
  - change ((c :: mime) ++ lit ";base64," ++ payload)
      with (c :: (mime ++ lit ";base64," ++ payload)).
    rewrite afterBase64Marker_skip by assumption. exact IH.
Qed.

(** The header of a data URL is taken off: what is left of
    [data:<type>;base64,<payload>] is the payload, for a type that
    holds neither a line terminator nor a semicolon; and a text that
    does not begin with [data:] is left as it is. *)
Theorem stripDataHeader_of_data_url (mime payload : jsstring) :
  Forall (fun c => is_line_terminator c = false /\ c <> 59%N) mime ->
  stripDataHeader (lit "data:" ++ mime ++ lit ";base64," ++ payload) = payload
  /\ (dropPrefix (lit "data:") payload = None -> stripDataHeader payload = payload).
Proof.
  intros H. split.
  - unfold stripDataHeader. rewrite dropPrefix_app, afterBase64Marker_found by exact H.
    reflexivity.
  - intros Hn. unfold stripDataHeader. rewrite Hn. reflexivity.
Qed.

End UploadMore.

(* ===================================================================== *)
(** * Further properties of the submission handler *)
(* ===================================================================== *)

Section SheetRows.
Import SubmitForm.

Lemma lastRow_last_filled (col : string) (g : gmap (string * Z) value) :
  last_filled col g (lastRow col g).
Proof.
  unfold lastRow.
  apply (map_fold_weak_ind (fun n g => last_filled col g n)).
  - split; [lia |]. split; [| left; reflexivity].
    intros k v H. rewrite lookup_empty in H. discriminate.
  - intros [c k] x m r Hnone (Hr0 & Hup & Hwit). cbn [fst snd].
    destruct (String.eqb_spec c col) as [-> | Hc]; cbn [andb].
    + destruct (has_data x) eqn:Hx.
      * split; [lia |]. split.
        -- intros k' v Hl Hv. destruct (decide (k' = k)) as [-> | Hk]; [lia |].
           rewrite lookup_insert_ne in Hl by congruence.
           specialize (Hup _ _ Hl Hv). lia.
        -- destruct (Z.max_spec k r) as [[Hlt ->] | [Hge ->]].
           ++ destruct Hwit as [-> | (v & Hl & Hv)]; [left; reflexivity |].
              right. exists v. split; [| exact Hv].
              rewrite lookup_insert_ne by (intros E; injection E as E; lia).
              exact Hl.
           ++ right. exists x. split; [apply lookup_insert_eq | exact Hx].
      * split; [exact Hr0 |]. split.
        -- intros k' v Hl Hv. destruct (decide (k' = k)) as [-> | Hk].
           ++ rewrite lookup_insert_eq in Hl. congruence.
           ++ rewrite lookup_insert_ne in Hl by congruence. eauto.
        -- destruct Hwit as [-> | (v & Hl & Hv)]; [left; reflexivity |].
           right. exists v. split; [| exact Hv].
           rewrite lookup_insert_ne by congruence. exact Hl.
    + split; [exact Hr0 |]. split.
      * intros k' v Hl Hv. rewrite lookup_insert_ne in Hl by congruence. eauto.
      * destruct Hwit as [-> | (v & Hl & Hv)]; [left; reflexivity |].
        right. exists v. split; [| exact Hv].
        rewrite lookup_insert_ne by congruence. exact Hl.
Qed.

Lemma last_filled_unique (col : string) (g : gmap (string * Z) value) (n m : Z) :
  last_filled col g n -> last_filled col g m -> n = m.
Proof.
  intros (Hn0 & Hn & Hnw) (Hm0 & Hm & Hmw).
  destruct Hnw as [-> | (v & Hl & Hv)], Hmw as [-> | (w & Hl' & Hw)];
    try reflexivity.
  - specialize (Hn _ _ Hl' Hw). lia.
  - specialize (Hm _ _ Hl Hv). lia.
  - specialize (Hn _ _ Hl' Hw). specialize (Hm _ _ Hl Hv). lia.
Qed.

Lemma rows_read (col : string) (g : gmap (string * Z) value) :
  Z.of_nat (length (default [] (column_values col g))) = lastRow col g.
Proof.
  pose proof (lastRow_last_filled col g) as (H0 & _).
  unfold column_values. cbv zeta.
  destruct (Z.leb_spec (lastRow col g) 0); simpl; [lia |].
  rewrite List.length_map, length_seqZ. lia.
Qed.

Lemma formatTimestamp_nonempty (chileTime : DateTime) :
  formatTimestamp chileTime <> [].
Proof.
  unfold formatTimestamp. cbv zeta. intros H.
  apply (f_equal (@length N)) in H. rewrite !length_app in H.
  simpl in H. lia.
Qed.

Lemma timestamp_written (env : Env) (formData : gmap string value)
    (adicionales : value) (nextRow : Z) :
  In (mkUpdate "Q" nextRow (VStr (formatTimestamp (chileTime env))))
     (updatesOf env formData adicionales nextRow).
Proof.
  unfold updatesOf, columnData. cbn [List.map fst snd].
  do 3 right. left. reflexivity.
Qed.

(** Writing the cells of a submission below the last filled row of
    column Q makes that row the last filled one. *)
Lemma lastRow_after_write (env : Env) (formData : gmap string value)
    (adicionales : value) (g : gmap (string * Z) value) :
  lastRow "Q"
    (fold_left write_cell
       (updatesOf env formData adicionales (lastRow "Q" g + 1)) g)
  = lastRow "Q" g + 1.
Proof.
  pose proof (lastRow_last_filled "Q" g) as (H0 & Hup & _).
  set (n := lastRow "Q" g) in *.
  set (data := updatesOf env formData adicionales (n + 1)).
  apply (last_filled_unique "Q" (fold_left write_cell data g));
    [apply lastRow_last_filled |].
  split; [lia |]. split.
  - intros k v Hl Hv. destruct (decide (k = n + 1)) as [-> | Hk]; [lia |].
    rewrite write_frame in Hl.
    + specialize (Hup _ _ Hl Hv). lia.
    + intros Hin. apply List.in_map_iff in Hin as (u & Hu & Hin).
      pose proof (updates_rows env formData adicionales (n + 1)) as Hrows.
      rewrite List.Forall_forall in Hrows. apply Hrows in Hin.
      injection Hu as _ Hrow. congruence.
  - right. exists (VStr (formatTimestamp (chileTime env))). split.
    + apply (write_readable data g
               (mkUpdate "Q" (n + 1) (VStr (formatTimestamp (chileTime env))))).
      * apply updates_distinct.
      * apply timestamp_written.
    + pose proof (formatTimestamp_nonempty (chileTime env)) as Hne.
      destruct (formatTimestamp (chileTime env)); [contradiction | reflexivity].
Qed.

End SheetRows.

Section SubmitMore.
Import SubmitForm.

Variable ilike : jsstring -> jsstring -> bool.

(** Name the parts of [reaches] and the calls the run issued. *)
Ltac take_reaches H :=
  let Ht := fresh "Htabs" in
  let Hg := fresh "Hgrid" in
  let Hp := fresh "Hpedidos" in
  let Hc := fresh "Hcalls" in
  let Hv := fresh "Hvend" in
  let Hk := fresh "Hcod" in
  let Hl := fresh "Hlines" in
  let Hi := fresh "Hissued" in
  destruct H as (Ht & Hg & Hp & Hc & Hv & Hk & Hl);
  pose proof (issued_app _ _ _ Hc) as Hi.

(** The runs one by one, the calls of each spelled out. *)
Ltac run_cases HR :=
  destruct HR as [ st' Hval Hre | e cs st' Hval Hcs Hre
                 | ad e st' Hval Hj Hsup Hw Hre
                 | ad st' Hval Hj Hsh Hw dat Hre
                 | ad e sel st' Hval Hj Hsh Hw Hsel dat Hre
                 | ad sel bV bC e st' Hval Hj Hsh Hw Hsel HV HC He dat r0 Hre Hline
                 | ad sel bV bC st' Hval Hj Hsh Hw Hsel HV HC He dat r0 stored Hre ];
  try subst stored; try subst r0; try subst dat;
  take_reaches Hre;
  match goal with Hi : issued _ _ = _ |- _ => rewrite Hi in * end.

(** Membership in the calls of a run, call by call. *)
Ltac in_calls H :=
  repeat (rewrite in_app_iff in H; cbn [In] in H).

Lemma no_write_in_reads (st : State) (data : list Update) :
  ~ In (ValuesBatchUpdate data) (readsOf st).
Proof. pose proof (reads_only st) as (_ & _ & _ & _ & H). apply H. Qed.

Lemma no_write_in_selects (sel : list Call) (data : list Update) :
  Forall is_select sel -> ~ In (ValuesBatchUpdate data) sel.
Proof. intros H. apply selects_only in H as (_ & _ & _ & _ & H). apply H. Qed.

Lemma aborted_calls_are_reads (st : State) (cs : list Call) (c : Call) :
  In cs [[]; [ValuesGet "Fijo_EBSA!Q:Q"];
         [ValuesGet "Fijo_EBSA!Q:Q"; SpreadsheetGet]; readsOf st] ->
  In c cs -> In c (readsOf st).
Proof.
  cbn [In]. intros [<- | [<- | [<- | [<- | []]]]] Hin; try contradiction;
    try exact Hin; unfold readsOf; cbn [In app] in *; tauto.
Qed.

Lemma grid_of_write (env : Env) (req : Request) (st : State)
    (res : Response) (st' : State) (data : list Update) :
  Run ilike env req st res st' ->
  values_update_fails env = None ->
  In (ValuesBatchUpdate data) (issued st st') ->
  data = updatesOf env (body req) (default VUndefined
           (joined (get (body req) "selectedAdicionales"))) (nextRowOf st)
  /\ grid st' = fold_left write_cell data (grid st).
Proof.
  intros HR Hok Hin. run_cases HR; try rewrite Hj; cbn [default].
  - contradiction.
  - exfalso. eapply no_write_in_reads, aborted_calls_are_reads; eauto.
  - congruence.
  - in_calls Hin. destruct Hin as [H | [H | []]];
      [exfalso; eapply no_write_in_reads; eauto |].
    injection H as <-. split; [reflexivity | exact Hgrid].
  - unfold writesOf, gridAfter in *.
    destruct (is_mode (testModeOf req) "supabase"); in_calls Hin.
    + exfalso. destruct Hin as [H | [[] | H]];
        [eapply no_write_in_reads | eapply no_write_in_selects]; eauto.
    + destruct Hin as [H | [[H | []] | H]];
        [exfalso; eapply no_write_in_reads; eauto |
         | exfalso; eapply no_write_in_selects; eauto].
      injection H as <-. split; [reflexivity | exact Hgrid].
  - unfold writesOf, gridAfter in *.
    destruct (is_mode (testModeOf req) "supabase"); in_calls Hin.
    + exfalso. destruct Hin as [H | [[] | [H | [H | []]]]];
        [eapply no_write_in_reads; eauto | eapply no_write_in_selects; eauto
         | discriminate].
    + destruct Hin as [H | [[H | []] | [H | [H | []]]]];
        [exfalso; eapply no_write_in_reads; eauto |
         | exfalso; eapply no_write_in_selects; eauto | discriminate].
      injection H as <-. split; [reflexivity | exact Hgrid].
  - unfold writesOf, gridAfter in *.
    destruct (is_mode (testModeOf req) "supabase"); in_calls Hin.
    + exfalso. destruct Hin as [H | [[] | [H | [H | []]]]];
        [eapply no_write_in_reads; eauto | eapply no_write_in_selects; eauto
         | discriminate].
    + destruct Hin as [H | [[H | []] | [H | [H | []]]]];
        [exfalso; eapply no_write_in_reads; eauto |
         | exfalso; eapply no_write_in_selects; eauto | discriminate].
      injection H as <-. split; [reflexivity | exact Hgrid].
Qed.

(** A submission whose row has been written to the sheet moves the
    next row one down: the submission that follows writes below it,
    never over it. *)
Theorem written_row_is_not_reused (env : Env) (req : Request) (st : State)
    (data : list Update) :
  method req = "POST"%string ->
  values_update_fails env = None ->
  In (ValuesBatchUpdate data) (issued st (handler ilike env req st).2) ->
  nextRowOf (handler ilike env req st).2 = nextRowOf st + 1
  /\ Forall (fun u => row u = nextRowOf st) data.
Proof.
  intros Hm Hok Hin.
  pose proof (handler_Run ilike env req st Hm) as HR.
  destruct (grid_of_write _ _ _ _ _ _ HR Hok Hin) as [-> Hg].
  split; [| apply updates_rows].
  unfold nextRowOf in *. rewrite !rows_read in *. rewrite Hg.
  rewrite lastRow_after_write. reflexivity.
Qed.

Lemma aborted_calls (st : State) (cs : list Call) :
  In cs [[]; [ValuesGet "Fijo_EBSA!Q:Q"];
         [ValuesGet "Fijo_EBSA!Q:Q"; SpreadsheetGet]; readsOf st] ->
  inserts cs = [] /\ sheet_writes cs = []
  /\ Forall (fun c => ~ is_store_call c) cs.
Proof.
  pose proof (reads_only st) as (Hw & Hi & _).
  assert (Hr : Forall (fun c => ~ is_store_call c) (readsOf st)).
  { unfold readsOf, expansionOf. destruct (fijoSheetOf st); simpl;
      repeat constructor; auto. }
  cbn [In]. intros [<- | [<- | [<- | [<- | []]]]]; repeat split; auto;
    repeat constructor; auto.
Qed.

Lemma reads_touch_no_store (st : State) :
  Forall (fun c => ~ is_store_call c) (readsOf st).
Proof.
  unfold readsOf, expansionOf. destruct (fijoSheetOf st); simpl;
    repeat constructor; auto.
Qed.

Lemma mode_of_query (req : Request) (name : string) :
  name <> ""%string ->
  query_test req = Some (lit name) -> testModeOf req = Some (lit name).
Proof.
  intros Hne H. unfold testModeOf. rewrite H.
  destruct name; [contradiction | reflexivity].
Qed.

(** When the spreadsheet rejects the batch update, the handler answers
    500 and goes no further: no row is inserted in [pedidos], and no
    cell is written. *)
Theorem sheet_failure_stops_the_submission (env : Env) (req : Request)
    (st : State) (failure : JsError) :
  method req = "POST"%string ->
  values_update_fails env = Some failure ->
  is_mode (testModeOf req) "validation" = false ->
  is_mode (testModeOf req) "supabase" = false ->
  status (handler ilike env req st).1 = 500
  /\ field (handler ilike env req st).1 "success" = Some (VBool false)
  /\ inserts (issued st (handler ilike env req st).2) = []
  /\ pedidos (handler ilike env req st).2 = pedidos st
  /\ grid (handler ilike env req st).2 = grid st.
Proof.
  intros Hm Hfail Hnv Hns.
  pose proof (handler_Run ilike env req st Hm) as HR.
  destruct (handler ilike env req st) as [res st1]. cbn [fst snd] in *.
  run_cases HR; try congruence;
    try (specialize (Hw Hns); congruence).
  - apply aborted_calls in Hcs as (Hi & _). repeat split; auto.
  - pose proof (reads_only st) as (_ & Hi & _).
    rewrite inserts_app, Hi. repeat split; auto.
Qed.

(** With [test=sheets] the relational store is never called and
    [pedidos] stays as it was; an answer of 200 means the row has been
    written to the sheet, and names its row. *)
Theorem sheets_mode_skips_the_store (env : Env) (req : Request) (st : State) :
  method req = "POST"%string ->
  query_test req = Some (lit "sheets") ->
  pedidos (handler ilike env req st).2 = pedidos st
  /\ Forall (fun c => ~ is_store_call c) (issued st (handler ilike env req st).2)
  /\ (status (handler ilike env req st).1 = 200
      \/ status (handler ilike env req st).1 = 500)
  /\ (status (handler ilike env req st).1 = 200 ->
      field (handler ilike env req st).1 "fila" = Some (VNum (nextRowOf st))
      /\ exists data,
           sheet_writes (issued st (handler ilike env req st).2) = [data]
           /\ Forall (fun u => row u = nextRowOf st) data
           /\ grid (handler ilike env req st).2
              = fold_left write_cell data (grid st)).
Proof.
  intros Hm Hq.
  pose proof (handler_Run ilike env req st Hm) as HR.
  destruct (handler ilike env req st) as [res st1]. cbn [fst snd] in *.
  apply (mode_of_query req "sheets") in Hq; [| discriminate].
  run_cases HR; rewrite Hq in *; try discriminate.
  - apply aborted_calls in Hcs as (_ & _ & Hn).
    split; [exact Hpedidos |]. split; [exact Hn |].
    split; [right; reflexivity | intros Hok; discriminate Hok].
  - split; [exact Hpedidos |]. split.
    { apply Forall_app. split; [apply reads_touch_no_store |].
      repeat constructor; auto. }
    split; [right; reflexivity | intros Hok; discriminate Hok].
  - pose proof (reads_only st) as (Hrw & _).
    split; [exact Hpedidos |]. split.
    { apply Forall_app. split; [apply reads_touch_no_store |].
      repeat constructor; auto. }
    split; [left; reflexivity |]. intros _. split; [reflexivity |].
    eexists. rewrite sheet_writes_app, Hrw. split; [reflexivity |].
    split; [apply updates_rows | exact Hgrid].
Qed.

(** With [test=supabase] no cell of the sheet is written; yet a run
    that answers 200 has grown the sheet by one row when the tab
    exists, and has issued one insert whose [fila_sheets] is the next
    row of the sheet. *)
Theorem supabase_mode_writes_no_cell (env : Env) (req : Request) (st : State) :
  method req = "POST"%string ->
  query_test req = Some (lit "supabase") ->
  grid (handler ilike env req st).2 = grid st
  /\ sheet_writes (issued st (handler ilike env req st).2) = []
  /\ (status (handler ilike env req st).1 = 200 ->
      expansions (issued st (handler ilike env req st).2)
      = match fijoSheetOf st with
        | Some sheet => [(sheetId sheet, 1)]
        | None => []
        end
      /\ tabs (handler ilike env req st).2 = tabsAfter st
      /\ exists r, inserts (issued st (handler ilike env req st).2) = [r]
                   /\ prop r "fila_sheets" = VNum (nextRowOf st)).
Proof.
  intros Hm Hq.
  pose proof (handler_Run ilike env req st Hm) as HR.
  destruct (handler ilike env req st) as [res st1]. cbn [fst snd] in *.
  apply (mode_of_query req "supabase") in Hq; [| discriminate].
  pose proof (reads_only st) as (Hrw & Hri & Hre' & _).
  run_cases HR; unfold writesOf, gridAfter in *; rewrite Hq in *;
    try discriminate;
    change (is_mode (Some (lit "supabase")) "supabase") with true in *;
    cbv iota in *.
  - apply aborted_calls in Hcs as (_ & Hsw & _).
    split; [exact Hgrid |]. split; [exact Hsw |]. intros Hok; discriminate Hok.
  - apply selects_only in Hsel as (Hsw & _).
    rewrite !sheet_writes_app, Hrw, Hsw.
    split; [exact Hgrid |]. split; [reflexivity |]. intros Hok; discriminate Hok.
  - apply selects_only in Hsel as (Hsw & Hsi & Hse & _).
    rewrite !sheet_writes_app, !expansions_app, !inserts_app,
      Hrw, Hri, Hre', Hsw, Hsi, Hse.
    cbn [app sheet_writes inserts expansions flat_map].
    rewrite app_nil_r.
    split; [exact Hgrid |]. split; [reflexivity |]. intros _.
    split; [reflexivity |]. split; [exact Htabs |].
    eexists. split; reflexivity.
  - apply selects_only in Hsel as (Hsw & Hsi & Hse & _).
    rewrite !sheet_writes_app, !expansions_app, !inserts_app,
      Hrw, Hri, Hre', Hsw, Hsi, Hse.
    cbn [app sheet_writes inserts expansions flat_map].
    rewrite app_nil_r.
    split; [exact Hgrid |]. split; [reflexivity |]. intros _.
    split; [reflexivity |]. split; [exact Htabs |].
    eexists. split; reflexivity.
Qed.

Lemma no_insert_in_reads (st : State) (t : string) (r : Row) :
  ~ In (Insert t r) (readsOf st).
Proof. pose proof (reads_only st) as (_ & _ & _ & H & _). apply H. Qed.

Lemma no_insert_in_selects (sel : list Call) (t : string) (r : Row) :
  Forall is_select sel -> ~ In (Insert t r) sel.
Proof. intros H. apply selects_only in H as (_ & _ & _ & H & _). apply H. Qed.

Lemma no_insert_in_writes (testMode : option jsstring) (data : list Update)
    (t : string) (r : Row) :
  ~ In (Insert t r) (writesOf testMode data).
Proof.
  unfold writesOf. destruct (is_mode testMode "supabase"); simpl;
    intuition discriminate.
Qed.

(** The row of an insert, with what decided its seller and its code. *)
Lemma inserted_row (env : Env) (req : Request) (st : State)
    (t : string) (r : Row) :
  In (Insert t r) (issued st (handler ilike env req st).2) ->
  exists adicionales vendedorExists codigoExists,
    r = pedidoRow (body req) (rguOf (body req)) (nextRowOf st) adicionales
          (kept vendedorExists (get (body req) "selectedVendedor"))
          (kept codigoExists (get (body req) "selectedCodigo"))
          (kept vendedorExists (get (body req) "equipo"))
    /\ (vendedorExists = true <->
        listed ilike (get (body req) "selectedVendedor") (vendedores st))
    /\ (codigoExists = true <->
        listed ilike (get (body req) "selectedCodigo") (codigos_vendedor st)).
Proof.
  intros Hin.
  destruct (String.eqb_spec (method req) "POST") as [Hm | Hm].
  2:{ rewrite (handler_other_method ilike env req st Hm), issued_none in Hin.
      contradiction. }
  pose proof (handler_Run ilike env req st Hm) as HR.
  destruct (handler ilike env req st) as [res st1]. cbn [fst snd] in *.
  run_cases HR.
  - contradiction.
  - exfalso. eapply no_insert_in_reads, aborted_calls_are_reads; eauto.
  - in_calls Hin. destruct Hin as [H | [H | []]];
      [exfalso; eapply no_insert_in_reads; eauto | discriminate].
  - in_calls Hin. destruct Hin as [H | [H | []]];
      [exfalso; eapply no_insert_in_reads; eauto | discriminate].
  - exfalso. in_calls Hin. destruct Hin as [H | [H | H]];
      [eapply no_insert_in_reads | eapply no_insert_in_writes
       | eapply no_insert_in_selects]; eauto.
  - in_calls Hin. destruct Hin as [H | [H | [H | [H | []]]]];
      [exfalso; eapply no_insert_in_reads; eauto
      | exfalso; eapply no_insert_in_writes; eauto
      | exfalso; eapply no_insert_in_selects; eauto |].
    injection H as _ <-. exists ad, bV, bC. auto.
  - in_calls Hin. destruct Hin as [H | [H | [H | [H | []]]]];
      [exfalso; eapply no_insert_in_reads; eauto
      | exfalso; eapply no_insert_in_writes; eauto
      | exfalso; eapply no_insert_in_selects; eauto |].
    injection H as _ <-. exists ad, bV, bC. auto.
Qed.

(** In every row the handler inserts, the seller and the seller code
    are the submitted ones only when the reference tables list them,
    and null otherwise; and a row has a team only if it has a
    seller. *)
Theorem seller_and_code_only_when_listed (env : Env) (req : Request)
    (st : State) (r : Row) :
  In (Insert "pedidos" r) (issued st (handler ilike env req st).2) ->
  (prop r "vendedor_id" = VNull
   \/ (prop r "vendedor_id" = get (body req) "selectedVendedor"
       /\ listed ilike (get (body req) "selectedVendedor") (vendedores st)))
  /\ (prop r "codigo_vendedor" = VNull
      \/ (prop r "codigo_vendedor" = get (body req) "selectedCodigo"
          /\ listed ilike (get (body req) "selectedCodigo")
               (codigos_vendedor st)))
  /\ (prop r "equipo_id" <> VNull -> prop r "vendedor_id" <> VNull).
Proof.
  intros Hin. apply inserted_row in Hin as (ad & bV & bC & -> & HV & HC).
  change (prop (pedidoRow _ _ _ _ ?v _ _) "vendedor_id") with v.
  change (prop (pedidoRow _ _ _ _ _ ?c _) "codigo_vendedor") with c.
  change (prop (pedidoRow _ _ _ _ _ _ ?q) "equipo_id") with q.
  split; [| split].
  - destruct bV; [right | left; reflexivity].
    split; [reflexivity | apply HV; reflexivity].
  - destruct bC; [right | left; reflexivity].
    split; [reflexivity | apply HC; reflexivity].
  - destruct bV; [| intros H; contradiction].
    intros _. destruct (proj1 HV eq_refl) as (s & Hs & _).
    cbn [kept]. rewrite Hs. discriminate.
Qed.

(** In every row the handler inserts, an optional field left blank on
    the form is stored as null, never as an empty text: each of these
    fields is null or holds a non-blank value, and each link field is
    null or the links joined. *)
Theorem blank_optional_fields_are_null (env : Env) (req : Request)
    (st : State) (r : Row) :
  In (Insert "pedidos" r) (issued st (handler ilike env req st).2) ->
  Forall (fun k => prop r k = VNull \/ truthy (prop r k) = true)
    ["rut_empresa"; "nombre_empresa"; "productos_adicionales";
     "velocidad_internet"; "tipo_television"; "fecha_agendamiento";
     "tramo_instalacion"]%string
  /\ Forall (fun k => prop r k = VNull \/ exists links, prop r k = VStr links)
       ["rut_frontal_url"; "rut_posterior_url"; "factibilidad_url";
        "otros_documentos_urls"]%string.
Proof.
  intros Hin. apply inserted_row in Hin as (ad & bV & bC & -> & _ & _).
  assert (Hor : forall x, or_else x VNull = VNull \/ truthy (or_else x VNull) = true).
  { intros x. unfold or_else. destruct (truthy x) eqn:Hx; auto. }
  assert (Hj : forall x, joined_or_null x = VNull
                         \/ exists links, joined_or_null x = VStr links).
  { intros [| | | | |[|u l]]; simpl; eauto. }
  split; repeat apply List.Forall_cons; try apply List.Forall_nil.
  - exact (Hor (get (body req) "rutEmpresa")).
  - exact (Hor (get (body req) "nombreEmpresa")).
  - exact (Hor ad).
  - exact (Hor (get (body req) "velocidadInternet")).
  - exact (Hor (get (body req) "tipoTelevision")).
  - exact (Hor (get (body req) "fechaAgendamiento")).
  - exact (Hor (get (body req) "tramoInstalacion")).
  - exact (Hj (get (body req) "rutFrontalUrls")).
  - exact (Hj (get (body req) "rutPosteriorUrls")).
  - exact (Hj (get (body req) "factibilidadUrls")).
  - exact (Hj (get (body req) "otrosDocumentosUrls")).
Qed.

(** A request that is not a POST reaches no backend: the pre-flight
    request is answered 200 with an empty body, any other method 405,
    and the state is left as it was. *)
Theorem other_methods_touch_nothing (env : Env) (req : Request) (st : State) :
  method req <> "POST"%string ->
  (handler ilike env req st).2 = st
  /\ issued st (handler ilike env req st).2 = []
  /\ (method req = "OPTIONS"%string ->
      (handler ilike env req st).1 = mkResponse 200 [])
  /\ (method req <> "OPTIONS"%string ->
      status (handler ilike env req st).1 = 405
      /\ field (handler ilike env req st).1 "success" = Some (VBool false)).
Proof.
  intros Hm. rewrite (handler_other_method ilike env req st Hm), issued_none.
  split; [reflexivity |]. split; [reflexivity |]. unfold handler.
  destruct (String.eqb_spec (method req) "OPTIONS") as [Ho | Ho].
  - split; [reflexivity | contradiction].
  - split; [contradiction |]. intros _.
    destruct (String.eqb_spec (method req) "POST") as [Hp | Hp];
      [contradiction | split; reflexivity].
Qed.

(** A list of add-ons that is present and is not an array makes the
    handler answer 500 before it calls any backend. *)
Theorem malformed_addons_reach_no_backend (env : Env) (req : Request)
    (st : State) :
  method req = "POST"%string ->
  is_mode (testModeOf req) "validation" = false ->
  joined (get (body req) "selectedAdicionales") = None ->
  status (handler ilike env req st).1 = 500
  /\ field (handler ilike env req st).1 "message"
     = Some (VStr (lit "Error al enviar formulario"))
  /\ issued st (handler ilike env req st).2 = []
  /\ tabs (handler ilike env req st).2 = tabs st
  /\ grid (handler ilike env req st).2 = grid st
  /\ pedidos (handler ilike env req st).2 = pedidos st.
Proof.
  intros Hm Hv Hj. unfold handler. rewrite Hm.
  cbn [String.eqb Ascii.eqb Bool.eqb negb].
  unfold procesar.
  cbv beta iota zeta delta [mbind M_bind mret M_ret modify console_log].
  rewrite Hv, optional_join_run, Hj.
  cbn [fst snd]. unfold issued. cbn [calls add_line tabs grid pedidos].
  rewrite drop_all. repeat split; reflexivity.
Qed.

End SubmitMore.

Section NoFailure.
Import SubmitForm.

Variable ilike : jsstring -> jsstring -> bool.

Ltac expand_ops H :=
  cbv beta iota zeta delta
    [mbind M_bind mret M_ret modify gets throw
     console_log console_error sheets_values_get sheets_get sheets_append_rows
     sheets_values_batchUpdate supabase_insert report_supabase_error
     add_call add_line set_tabs set_grid set_pedidos] in H.

Ltac settle H :=
  cbn [calls grid tabs pedidos console vendedores codigos_vendedor may_fail
       negb] in H;
  cbv beta iota zeta delta [throw mret M_ret] in H;
  cbn [calls grid tabs pedidos console vendedores codigos_vendedor negb] in H.

(** The scrutinee the evaluation of [t] waits for. *)
Ltac waits_for t :=
  lazymatch t with
  | match ?x with _ => _ end => waits_for x
  | ?f _ =>
      lazymatch f with
      | match ?x with _ => _ end => waits_for x
      | _ => t
      end
  | _ => t
  end.

Lemma en_lista_textual (table column : string) (contents : State -> list jsstring)
    (x : value) (found notFound blank : string) (st : State) :
  textual x ->
  exists b st2,
    en_lista ilike table column contents x found notFound blank st
    = (Returned b, st2).
Proof.
  intros [Hf | (s & ->)]; unfold en_lista, filled_in.
  - rewrite Hf. cbv beta iota zeta delta [mbind M_bind mret M_ret modify
      console_log]. eauto.
  - destruct s as [|c s]; cbn [truthy];
      cbv beta iota zeta delta [mbind M_bind mret M_ret modify gets console_log
                                supabase_single]; [eauto |].
    destruct (match trim (c :: s) with [] => false | _ => true end
              && negb (str_eqb (c :: s) (lit " "))); [| eauto].
    cbn [toString].
    destruct (single _); eauto.
Qed.

Ltac advance H :=
  settle H;
  lazymatch type of H with
  | _ = ?rhs =>
      let r := waits_for rhs in
      lazymatch r with
      | optional_join ?x _ =>
          rewrite optional_join_run in H;
          match goal with E : joined x = Some _ |- _ => rewrite E in H end
      | may_fail ?f _ =>
          match goal with E : f = None |- _ => rewrite E in H end
      | en_lista ?i ?t ?c ?k ?x ?a ?b ?d ?s =>
          let E := fresh "Elista" in
          let bb := fresh "found" in
          let s2 := fresh "st2" in
          destruct (en_lista_textual t c k x a b d s ltac:(assumption))
            as (bb & s2 & E);
          rewrite E in H
      | negb ?b => destruct b eqn:?
      | is_mode _ _ => destruct r eqn:?
      | List.find _ _ => destruct r eqn:?
      | insert_error _ => destruct r eqn:?
      end
  end.

Lemma answers_200 (env : Env) (req : Request) (st : State) :
  method req = "POST"%string ->
  values_get_fails env = None ->
  spreadsheet_get_fails env = None ->
  append_fails env = None ->
  values_update_fails env = None ->
  joined (get (body req) "selectedAdicionales") <> None ->
  textual (get (body req) "selectedVendedor") ->
  textual (get (body req) "selectedCodigo") ->
  status (handler ilike env req st).1 = 200.
Proof.
  intros Hm Hvg Hsg Haf Hvu Hj HV HC.
  destruct (joined (get (body req) "selectedAdicionales")) as [ad|] eqn:Ead;
    [clear Hj | contradiction].
  remember (handler ilike env req st) as out eqn:Hrun.
  unfold handler in Hrun. rewrite Hm in Hrun.
  change ("POST" =? "OPTIONS")%string with false in Hrun.
  change (negb ("POST" =? "POST")%string) with false in Hrun.
  cbv beta iota in Hrun. unfold procesar in Hrun. expand_ops Hrun.
  repeat advance Hrun.
  all: settle Hrun.
  all: subst out; reflexivity.
Qed.

(** When every call to the spreadsheet answers and the form data have
    the types the form gives them, a POST is answered 200 in every
    mode: the handler does not fail on its own, and an error of the
    relational insert does not make it fail either. *)
Theorem no_failure_no_500 (env : Env) (req : Request) (st : State) :
  method req = "POST"%string ->
  values_get_fails env = None ->
  spreadsheet_get_fails env = None ->
  append_fails env = None ->
  values_update_fails env = None ->
  joined (get (body req) "selectedAdicionales") <> None ->
  textual (get (body req) "selectedVendedor") ->
  textual (get (body req) "selectedCodigo") ->
  status (handler ilike env req st).1 = 200.
Proof. apply answers_200. Qed.

Lemma status_of_error (env : Env) (e : JsError) :
  status (respuesta_error env e) = 500.
Proof. reflexivity. Qed.



End NoFailure.

(* ===================================================================== *)
(** * The form, from its state to the two backends *)
(* ===================================================================== *)

Section FormFacts.
Import Form SubmitForm.

Variable ilike : jsstring -> jsstring -> bool.

(** The plan section lets the user continue exactly when it shows the
    plan selector and a plan is selected. *)
Theorem canContinuePlan_needs_shown_selector (s : Estado) :
  canContinuePlan s
  = PlanSection.shouldShowPlans (planProps s)
    && PlanSelector.nonempty (selectedPlan s).
Proof.
  unfold canContinuePlan, PlanSection.shouldShowPlans, planProps.
  cbv zeta. cbn [PlanSelector.hasInternet PlanSelector.hasTelevision
    PlanSelector.hasTelefonia PlanSelector.segmento
    PlanSelector.velocidadInternet PlanSelector.tipoTelevision].
  destruct (hasInternet s), (hasTelevision s), (hasTelefonia s),
    (str_eqb (selectedSegmento s) (lit "residencial")),
    (PlanSelector.nonempty (velocidadInternet s)),
    (PlanSelector.nonempty (tipoTelevision s)),
    (PlanSelector.nonempty (selectedPlan s)); reflexivity.
Qed.

(** The confirmation page prints a date [year-month-day] as
    [day/month/year]. *)
Theorem formatFecha_of_iso_date (year month day : jsstring) :
  ~ In 45%N year -> ~ In 45%N month -> ~ In 45%N day ->
  formatFecha (year ++ lit "-" ++ month ++ lit "-" ++ day)
  = day ++ lit "/" ++ month ++ lit "/" ++ year.
Proof.
  intros Hy Hm Hd. unfold formatFecha.
  change (year ++ lit "-" ++ month ++ lit "-" ++ day)
    with (year ++ 45%N :: (month ++ 45%N :: day)).
  destruct (year ++ 45%N :: (month ++ 45%N :: day)) eqn:E.
  { destruct year; discriminate. }
  rewrite <- E. cbv zeta.
  rewrite split_app_sep by exact Hy. rewrite split_app_sep by exact Hm.
  rewrite split_plain by exact Hd. reflexivity.
Qed.

Lemma form_data_types (s : Estado) :
  joined (get (handleFinalizar s) "selectedAdicionales") <> None
  /\ textual (get (handleFinalizar s) "selectedVendedor")
  /\ textual (get (handleFinalizar s) "selectedCodigo").
Proof.
  unfold handleFinalizar, campos.
  destruct (str_eqb (selectedSegmento s) (lit "negocio"));
    (split; [vm_compute; discriminate |]);
    split; right; eexists; vm_compute; reflexivity.
Qed.

Lemma form_company_fields (s : Estado) :
  selectedSegmento s <> lit "negocio" ->
  get (handleFinalizar s) "rutEmpresa" = VUndefined
  /\ get (handleFinalizar s) "nombreEmpresa" = VUndefined.
Proof.
  intros Hs. unfold handleFinalizar, campos, str_eqb.
  rewrite bool_decide_eq_false_2 by exact Hs.
  split; vm_compute; reflexivity.
Qed.

(** A submission built by the form does not fail on its own: when the
    calls to the spreadsheet answer, it is answered 200.  And for a
    segment other than [negocio] the company data left in the form are
    not sent: the order is inserted without company, and the two cells
    of the company are written empty. *)
Theorem form_submission_is_accepted (env : Env) (test : option jsstring)
    (s : Estado) (st : State) :
  values_get_fails env = None ->
  spreadsheet_get_fails env = None ->
  append_fails env = None ->
  values_update_fails env = None ->
  let out := handler ilike env (mkRequest "POST" test (handleFinalizar s)) st in
  status out.1 = 200
  /\ (selectedSegmento s <> lit "negocio" ->
      (forall r, In (Insert "pedidos" r) (issued st out.2) ->
                 prop r "rut_empresa" = VNull /\ prop r "nombre_empresa" = VNull)
      /\ (forall data, In (ValuesBatchUpdate data) (issued st out.2) ->
                       In (mkUpdate "AP" (nextRowOf st) (VStr [])) data
                       /\ In (mkUpdate "AQ" (nextRowOf st) (VStr [])) data)).
Proof.
  intros Hvg Hsg Haf Hvu out. subst out.
  destruct (form_data_types s) as (Hj & HV & HC).
  split.
  { apply answers_200; auto. }
  intros Hseg. destruct (form_company_fields s Hseg) as [Hr Hn]. split.
  - intros r Hin.
    apply (inserted_row ilike) in Hin as (ad & bV & bC & -> & _ & _).
    cbn [body].
    change (prop (pedidoRow ?f _ _ _ _ _ _) "rut_empresa")
      with (or_else (get f "rutEmpresa") VNull).
    change (prop (pedidoRow ?f _ _ _ _ _ _) "nombre_empresa")
      with (or_else (get f "nombreEmpresa") VNull).
    rewrite Hr, Hn. split; reflexivity.
  - intros data Hin.
    pose proof (handler_Run ilike env (mkRequest "POST" test (handleFinalizar s))
                  st eq_refl) as HR.
    apply (grid_of_write ilike _ _ _ _ _ _ HR Hvu) in Hin as [-> _].
    cbn [body]. unfold updatesOf, columnData. cbn [List.map fst snd].
    rewrite Hr, Hn. cbn [or_else truthy toUpper].
    split; [do 11 right | do 12 right]; left; reflexivity.
Qed.

End FormFacts.

Section Timestamp.
Import SubmitForm.

Lemma padStart2_two (n : Z) :
  0 <= n < 100 -> exists a b, padStart2 n = [a; b].
Proof.
  intros Hn.
  assert (Hall : Forall (fun n => exists a b, padStart2 n = [a; b]) (seqZ 0 100)).
  { apply Forall_forall. intros k Hk.
    assert (Hb : forallb (fun k => (length (padStart2 k) =? 2)%nat) (seqZ 0 100)
                 = true) by (vm_compute; reflexivity).
    rewrite forallb_forall in Hb. apply list_elem_of_In in Hk.
    specialize (Hb _ Hk). apply Nat.eqb_eq in Hb.
    destruct (padStart2 k) as [|a [|b [|c l]]]; try discriminate. eauto. }
  rewrite Forall_forall in Hall. apply Hall. apply elem_of_seqZ. lia.
Qed.

Lemma year_four (n : Z) :
  1000 <= n < 10000 -> exists a b c d, lit (pretty n) = [a; b; c; d].
Proof.
  intros Hn.
  assert (Hb : forallb (fun k => (length (lit (pretty k)) =? 4)%nat)
                 (seqZ 1000 9000) = true) by (vm_compute; reflexivity).
  rewrite forallb_forall in Hb.
  assert (Hk : In n (seqZ 1000 9000)).
  { apply list_elem_of_In, elem_of_seqZ. lia. }
  specialize (Hb _ Hk). apply Nat.eqb_eq in Hb.
  destruct (lit (pretty n)) as [|a [|b [|c [|d [|e l]]]]]; try discriminate.
  eauto.
Qed.

(** For a date of the calendar the time stamp has the nineteen
    characters of [DD/MM/YYYY HH:MM:SS], with the separators in their
    places. *)
Theorem formatTimestamp_shape (t : DateTime) :
  1 <= getDate t <= 31 -> 0 <= getMonth t <= 11 ->
  1000 <= getFullYear t <= 9999 ->
  0 <= getHours t <= 23 -> 0 <= getMinutes t <= 59 -> 0 <= getSeconds t <= 59 ->
  exists d1 d2 m1 m2 y1 y2 y3 y4 h1 h2 n1 n2 s1 s2,
    formatTimestamp t
    = [d1; d2; 47; m1; m2; 47; y1; y2; y3; y4; 32; h1; h2; 58; n1; n2; 58; s1; s2]%N
    /\ padStart2 (getDate t) = [d1; d2]
    /\ padStart2 (getMonth t + 1) = [m1; m2]
    /\ lit (pretty (getFullYear t)) = [y1; y2; y3; y4]
    /\ padStart2 (getHours t) = [h1; h2]
    /\ padStart2 (getMinutes t) = [n1; n2]
    /\ padStart2 (getSeconds t) = [s1; s2].
Proof.
  intros Hd Hm Hy Hh Hn Hs. unfold formatTimestamp. cbv zeta.
  destruct (padStart2_two (getDate t)) as (d1 & d2 & ->); [lia |].
  destruct (padStart2_two (getMonth t + 1)) as (m1 & m2 & ->); [lia |].
  destruct (year_four (getFullYear t)) as (y1 & y2 & y3 & y4 & ->); [lia |].
  destruct (padStart2_two (getHours t)) as (h1 & h2 & ->); [lia |].
  destruct (padStart2_two (getMinutes t)) as (n1 & n2 & ->); [lia |].
  destruct (padStart2_two (getSeconds t)) as (s1 & s2 & ->); [lia |].
  exists d1, d2, m1, m2, y1, y2, y3, y4, h1, h2, n1, n2, s1, s2.
  repeat split; reflexivity.
Qed.

End Timestamp.

(* ===================================================================== *)
(** * The further properties on the examples *)
(* ===================================================================== *)

Section OnMoreExamples.
Import Examples.

Ltac pick_one := repeat first [left; reflexivity | right].
Ltac no_hyphen :=
  let H := fresh in
  intros H; cbn in H; repeat destruct H as [H | H]; discriminate || contradiction.

Lemma capitalizeName_of_valid_name_witness :
  Validators.validateName nombre_tecleado = true
  /\ Validators.capitalizeName nombre_tecleado = lit "Jose Maria"
  /\ Validators.validateName (Validators.capitalizeName nombre_tecleado) = true.
Proof.
  split; [reflexivity |]. split; [reflexivity |].
  exact (proj1 (capitalizeName_of_valid_name nombre_tecleado eq_refl)).
Defined.

Lemma name_field_stays_valid_witness :
  fold_left DatosSolicitante.paso tecleo [] = []
  \/ Validators.validateName (fold_left DatosSolicitante.paso tecleo []) = true.
Proof. exact (name_field_stays_valid tecleo [] (or_introl eq_refl)). Defined.

Lemma plan_plus_offered :
  In (PlanSelector.opcion_nacional props_duo plan_plus)
     (PlanSelector.planesDisponibles [plan_plus] props_duo).
Proof. left. reflexivity. Qed.

Lemma offered_options_match_services_witness :
  In (PlanSelector.opcion_nacional props_duo plan_plus)
     (PlanSelector.planesDisponibles [plan_plus] props_duo)
  /\ PlanSelector.internet_activo (PlanSelector.opcion_nacional props_duo plan_plus)
     = true
  /\ PlanSelector.telefonia_activo (PlanSelector.opcion_nacional props_duo plan_plus)
     = false.
Proof.
  split; [exact plan_plus_offered |].
  destruct (offered_options_match_services [plan_plus] props_duo _ plan_plus_offered)
    as (Hi & _ & Hf & _).
  split; [exact Hi | exact Hf].
Defined.

Lemma shown_residential_options_match_selection_witness :
  PlanSection.shouldShowPlans props_duo = true
  /\ PlanSelector.internet_velocidad (PlanSelector.opcion_nacional props_duo plan_plus)
     = Some (lit "500MB")
  /\ PlanSelector.television_plan_tv (PlanSelector.opcion_nacional props_duo plan_plus)
     = Some (lit "Plus").
Proof.
  split; [reflexivity |].
  destruct (shown_residential_options_match_selection [plan_plus] props_duo _
              eq_refl eq_refl plan_plus_offered) as [Hi Ht].
  split; [exact (Hi eq_refl) | exact (Ht eq_refl)].
Defined.

Lemma precio_final_of_options_witness :
  In (PlanSelector.opcion_especial props_duo plan_plus)
     (PlanSelector.expandir props_duo plan_plus)
  /\ PlanSelector.calcularPrecioFinal (PlanSelector.opcion_especial props_duo plan_plus)
     = 26990.
Proof.
  assert (H : In (PlanSelector.opcion_especial props_duo plan_plus)
                (PlanSelector.expandir props_duo plan_plus))
    by (right; left; reflexivity).
  split; [exact H |].
  destruct (precio_final_of_options props_duo plan_plus _ H)
    as [(d & _ & _ & _ & _) | [(d & _ & _ & _ & _) | (Hc & _)]]; try reflexivity.
Defined.

Lemma normalizarNombre_only_case_witness :
  PlanSelector.normalizarNombre (lit "2 PLAY plus tv hogar")
  = lit "2 Play Plus TV Hogar"
  /\ PlanSelector.normalizarNombre
       (PlanSelector.normalizarNombre (lit "2 PLAY plus tv hogar"))
     = PlanSelector.normalizarNombre (lit "2 PLAY plus tv hogar").
Proof.
  split; [reflexivity |].
  refine (proj2 (proj2 (normalizarNombre_only_case (lit "2 PLAY plus tv hogar") _))).
  repeat constructor.
Defined.

Lemma toDisplayFormat_round_trip_witness :
  SupabaseQueries.toDisplayFormat (lit "ana perez") = lit "Ana Perez"
  /\ SupabaseQueries.toDBFormat (SupabaseQueries.toDisplayFormat (lit "ana perez"))
     = SupabaseQueries.toDBFormat (lit "ana perez").
Proof.
  split; [reflexivity |].
  refine (proj1 (toDisplayFormat_round_trip (lit "ana perez") _)).
  repeat constructor.
Defined.


Lemma key_ignores_rut_punctuation_witness :
  List.map (UploadFile.Key Z)
    (UploadFile.handler Z tres_bytes (fun n => n) texto_nativo upload_env
       (UploadFile.mkRequest "POST" (Some (lit "/9j/4AAQ")) (Some (lit "cedula.jpg"))
          (Some (lit "image/jpeg")) (Some (lit "rut-frontal"))
          (Some (lit "12.345.678-9")) None)).2
  = List.map (UploadFile.Key Z)
      (UploadFile.handler Z tres_bytes (fun n => n) texto_nativo upload_env
         (UploadFile.mkRequest "POST" (Some (lit "/9j/4AAQ")) (Some (lit "cedula.jpg"))
            (Some (lit "image/jpeg")) (Some (lit "rut-frontal"))
            (Some (lit "12345678-9")) None)).2.
Proof.
  refine (proj2 (key_ignores_rut_punctuation Z tres_bytes (fun n => n)
                   texto_nativo upload_env "POST" _ _ _ _
                   (lit "12.345.678-9") (lit "12345678-9") None _ _ eq_refl));
    discriminate.
Defined.

Lemma stripDataHeader_of_data_url_witness :
  UploadFile.stripDataHeader (lit "data:image/jpeg;base64,/9j/4AAQ")
  = lit "/9j/4AAQ".
Proof.
  refine (proj1 (stripDataHeader_of_data_url (lit "image/jpeg") (lit "/9j/4AAQ") _)).
  repeat constructor; discriminate.
Defined.

Lemma envio_escribe :
  In (SubmitForm.ValuesBatchUpdate fila_escrita)
     (SubmitForm.issued hoja_con_espacio
        (SubmitForm.handler mismo_texto todo_bien (envio None) hoja_con_espacio).2).
Proof. fold tras_envio. rewrite tras_envio_calls. pick_one. Qed.

Lemma written_row_is_not_reused_witness :
  SubmitForm.nextRowOf hoja_con_espacio = 4
  /\ SubmitForm.nextRowOf
       (SubmitForm.handler mismo_texto todo_bien (envio None) hoja_con_espacio).2
     = 4 + 1.
Proof.
  split; [reflexivity |].
  exact (proj1 (written_row_is_not_reused mismo_texto todo_bien (envio None)
                  hoja_con_espacio fila_escrita eq_refl eq_refl envio_escribe)).
Defined.

Lemma sheet_failure_stops_the_submission_witness :
  status (SubmitForm.handler mismo_texto hoja_caida (envio None)
            hoja_con_espacio).1 = 500
  /\ SubmitForm.pedidos
       (SubmitForm.handler mismo_texto hoja_caida (envio None)
          hoja_con_espacio).2 = [].
Proof.
  destruct (sheet_failure_stops_the_submission mismo_texto hoja_caida
              (envio None) hoja_con_espacio _ eq_refl eq_refl eq_refl eq_refl)
    as (Hs & _ & _ & Hp & _).
  split; [exact Hs | exact Hp].
Defined.

Lemma sheets_mode_skips_the_store_witness :
  SubmitForm.pedidos
    (SubmitForm.handler mismo_texto todo_bien (envio (Some (lit "sheets")))
       hoja_con_espacio).2 = []
  /\ field (SubmitForm.handler mismo_texto todo_bien (envio (Some (lit "sheets")))
              hoja_con_espacio).1 "fila" = Some (VNum 4).
Proof.
  destruct (sheets_mode_skips_the_store mismo_texto todo_bien
              (envio (Some (lit "sheets"))) hoja_con_espacio eq_refl eq_refl)
    as (Hp & _ & _ & Hok).
  split; [exact Hp |]. exact (proj1 (Hok eq_refl)).
Defined.

Lemma supabase_mode_writes_no_cell_witness :
  SubmitForm.grid
    (SubmitForm.handler mismo_texto todo_bien (envio (Some (lit "supabase")))
       hoja_con_espacio).2 = SubmitForm.grid hoja_con_espacio
  /\ SubmitForm.tabs
       (SubmitForm.handler mismo_texto todo_bien (envio (Some (lit "supabase")))
          hoja_con_espacio).2
     = [SubmitForm.mkTab (lit "Fijo_EBSA") 7 1001].
Proof.
  destruct (supabase_mode_writes_no_cell mismo_texto todo_bien
              (envio (Some (lit "supabase"))) hoja_con_espacio eq_refl eq_refl)
    as (Hg & _ & Hok).
  split; [exact Hg |]. exact (proj1 (proj2 (Hok eq_refl))).
Defined.

Lemma seller_and_code_only_when_listed_witness :
  prop fila_insertada "vendedor_id" = VStr (lit "Ana Perez")
  /\ (prop fila_insertada "codigo_vendedor" = VNull
      \/ SubmitForm.listed mismo_texto (VStr (lit "EBSA01"))
           (SubmitForm.codigos_vendedor hoja_con_espacio)).
Proof.
  split; [reflexivity |].
  destruct (seller_and_code_only_when_listed mismo_texto todo_bien (envio None)
              hoja_con_espacio fila_insertada envio_inserta)
    as (_ & [Hc | [_ Hc]] & _); [left; exact Hc | right; exact Hc].
Defined.

Lemma blank_optional_fields_are_null_witness :
  prop fila_insertada "rut_empresa" = VNull
  /\ Forall (fun k => prop fila_insertada k = VNull
                      \/ exists links, prop fila_insertada k = VStr links)
       ["rut_frontal_url"; "rut_posterior_url"; "factibilidad_url";
        "otros_documentos_urls"]%string.
Proof.
  split; [reflexivity |].
  exact (proj2 (blank_optional_fields_are_null mismo_texto todo_bien (envio None)
                  hoja_con_espacio fila_insertada envio_inserta)).
Defined.

Lemma other_methods_touch_nothing_witness :
  (SubmitForm.handler mismo_texto todo_bien envio_get hoja_con_espacio).2
  = hoja_con_espacio
  /\ status (SubmitForm.handler mismo_texto todo_bien envio_get
               hoja_con_espacio).1 = 405.
Proof.
  destruct (other_methods_touch_nothing mismo_texto todo_bien envio_get
              hoja_con_espacio ltac:(discriminate)) as (Hst & _ & _ & Hno).
  split; [exact Hst |]. exact (proj1 (Hno ltac:(discriminate))).
Defined.

Lemma malformed_addons_reach_no_backend_witness :
  status (SubmitForm.handler mismo_texto todo_bien envio_malformado
            hoja_con_espacio).1 = 500
  /\ SubmitForm.issued hoja_con_espacio
       (SubmitForm.handler mismo_texto todo_bien envio_malformado
          hoja_con_espacio).2 = [].
Proof.
  destruct (malformed_addons_reach_no_backend mismo_texto todo_bien
              envio_malformado hoja_con_espacio eq_refl eq_refl eq_refl)
    as (Hs & _ & Hi & _).
  split; [exact Hs | exact Hi].
Defined.

Lemma envio_bien_tipado :
  SubmitForm.joined (get (SubmitForm.body (envio None)) "selectedAdicionales")
  <> None
  /\ SubmitForm.textual (get (SubmitForm.body (envio None)) "selectedVendedor")
  /\ SubmitForm.textual (get (SubmitForm.body (envio None)) "selectedCodigo").
Proof.
  split; [discriminate |]. split; right; eexists; reflexivity.
Qed.

Lemma no_failure_no_500_witness :
  status (SubmitForm.handler mismo_texto supabase_caido (envio None)
            hoja_con_espacio).1 = 200.
Proof.
  destruct envio_bien_tipado as (Hj & HV & HC).
  exact (no_failure_no_500 mismo_texto supabase_caido (envio None)
           hoja_con_espacio eq_refl eq_refl eq_refl eq_refl eq_refl Hj HV HC).
Defined.


Lemma form_submission_is_accepted_witness :
  Form.selectedSegmento estado_ejemplo <> lit "negocio"
  /\ status (SubmitForm.handler mismo_texto todo_bien
               (SubmitForm.mkRequest "POST" None
                  (Form.handleFinalizar estado_ejemplo))
               hoja_con_espacio).1 = 200.
Proof.
  split; [discriminate |].
  exact (proj1 (form_submission_is_accepted mismo_texto todo_bien None
                  estado_ejemplo hoja_con_espacio eq_refl eq_refl eq_refl
                  eq_refl)).
Defined.

Lemma formatFecha_of_iso_date_witness :
  Form.formatFecha (lit "2025-10-30") = lit "30/10/2025".
Proof.
  refine (formatFecha_of_iso_date (lit "2025") (lit "10") (lit "30") _ _ _);
    no_hyphen.
Defined.

Lemma formatTimestamp_shape_witness :
  SubmitForm.formatTimestamp hora = lit "27/10/2025 14:30:45"
  /\ length (SubmitForm.formatTimestamp hora) = 19%nat.
Proof.
  split; [reflexivity |].
  destruct (formatTimestamp_shape hora) as (d1 & d2 & m1 & m2 & y1 & y2 & y3
    & y4 & h1 & h2 & n1 & n2 & s1 & s2 & -> & _); cbn; lia.
Defined.

End OnMoreExamples.
